(** * Ephemeris file resolution and retrieval of gnss_lib_py

    A shallow embedding of [gnss_lib_py/utils/ephemeris_downloader.py]
    (class [EphemerisDownloader]) and the properties of its file
    selection, download and decompression logic.

    Python values are modelled as follows.
    - [str] is [string]; the text methods used by the source ([rfind],
      [zfill], slices, [startswith], [endswith], [rstrip]) are given
      below with the semantics of CPython.
    - the [posixpath] functions [split], [join] and [splitext] follow
      their CPython definitions line by line.
    - a timezone-aware [datetime] in UTC is a record of its calendar
      fields.
    - the dictionary built by [get_filepaths] is an association list
      in insertion order, the order [dict.values()] iterates in.
    - a [set] of constellation letters is a [gset string].
    - the local file system, the FTP servers and the console are the
      fields of an explicit [World] threaded through a state and
      exception monad, in which a raised exception keeps the effects
      performed before it. *)

From Stdlib Require Import ZArith Ascii DecimalString DecimalZ.
From Stdlib.Strings Require Import Byte.
From stdpp Require Import gmap strings list.

Local Open Scope Z_scope.
Local Set Warnings "-clear-no-such-hyp".

(** ** Python text primitives *)

Module Py.

(** [len(s)] *)
Definition len (s : string) : Z := Z.of_nat (String.length s).

(** The slice [s[i:]] for [0 <= i]. *)
Fixpoint drop_str (n : nat) (s : string) : string :=
  match n, s with
  | O, _ => s
  | S n', String _ s' => drop_str n' s'
  | S _, EmptyString => EmptyString
  end.

(** The slice [s[:i]] for [0 <= i]. *)
Fixpoint take_str (n : nat) (s : string) : string :=
  match n, s with
  | O, _ => EmptyString
  | S n', String c s' => String c (take_str n' s')
  | S _, EmptyString => EmptyString
  end.

(** [s[:i]] and [s[i:]] with Python's clamping of negative indices
    that count from the end. *)
Definition norm_index (s : string) (i : Z) : nat :=
  if i <? 0 then Z.to_nat (Z.max 0 (len s + i)) else Z.to_nat i.

Definition slice_to (s : string) (i : Z) : string := take_str (norm_index s i) s.
Definition slice_from (s : string) (i : Z) : string := drop_str (norm_index s i) s.

(** [s.rfind(c)] for a one-character [c]: the highest index holding
    [c], or [-1]. *)
Fixpoint rfind (c : ascii) (s : string) : Z :=
  match s with
  | EmptyString => -1
  | String a s' =>
      let r := rfind c s' in
      if 0 <=? r then r + 1
      else if Ascii.eqb a c then 0 else -1
  end.

(** [s.startswith(p)] *)
Fixpoint startswith (s p : string) : bool :=
  match p, s with
  | EmptyString, _ => true
  | String a p', String b s' => Ascii.eqb a b && startswith s' p'
  | String _ _, EmptyString => false
  end.

(** [s.endswith(p)] *)
Definition endswith (s p : string) : bool :=
  (String.length p <=? String.length s)%nat &&
  String.eqb (drop_str (String.length s - String.length p) s) p.

(** [s.rstrip(c)] for a one-character [c]. *)
Fixpoint rstrip (c : ascii) (s : string) : string :=
  match s with
  | EmptyString => EmptyString
  | String a s' =>
      match rstrip c s' with
      | EmptyString => if Ascii.eqb a c then EmptyString else String a EmptyString
      | r => String a r
      end
  end.

(** [c in s] for a one-character [c]. *)
Fixpoint contains (c : ascii) (s : string) : bool :=
  match s with
  | EmptyString => false
  | String a s' => Ascii.eqb a c || contains c s'
  end.

(** [c * n] for a one-character [c]. *)
Fixpoint repeat_char (c : ascii) (n : nat) : string :=
  match n with
  | O => EmptyString
  | S n' => String c (repeat_char c n')
  end.

(** [str(n)] for an integer. *)
Definition str (n : Z) : string := NilEmpty.string_of_int (Z.to_int n).

(** [s.zfill(width)]: zeros are inserted after a leading sign. *)
Definition zfill (width : nat) (s : string) : string :=
  let fill := repeat_char "0" (width - String.length s) in
  match s with
  | String c s' =>
      if Ascii.eqb c "+" || Ascii.eqb c "-" then String c (fill +:+ s')
      else fill +:+ s
  | EmptyString => fill
  end.

End Py.

(** ** posixpath *)

Module posixpath.

Definition sep : ascii := "/".
Definition extsep : ascii := ".".

(** [os.path.split]:
<<
    i = p.rfind(sep) + 1
    head, tail = p[:i], p[i:]
    if head and head != sep*len(head):
        head = head.rstrip(sep)
    return head, tail
>> *)
Definition split (p : string) : string * string :=
  let i := Py.rfind sep p + 1 in
  let head := Py.slice_to p i in
  let tail := Py.slice_from p i in
  let head :=
    if negb (String.eqb head "") &&
       negb (String.eqb head (Py.repeat_char sep (String.length head)))
    then Py.rstrip sep head else head in
  (head, tail).

(** One round of the loop of [os.path.join]:
<<
    if b.startswith(sep):  path = b
    elif not path or path.endswith(sep):  path += b
    else:  path += sep + b
>> *)
Definition join_step (path b : string) : string :=
  if Py.startswith b (String sep "") then b
  else if String.eqb path "" || Py.endswith path (String sep "") then path +:+ b
  else path +:+ String sep "" +:+ b.

(** [os.path.join(a, *p)] *)
Definition join (a : string) (p : list string) : string :=
  fold_left join_step p a.

(** The loop of [genericpath._splitext] that skips leading dots:
<<
    while filenameIndex < dotIndex:
        if p[filenameIndex:filenameIndex+1] != extsep:
            return p[:dotIndex], p[dotIndex:]
        filenameIndex += 1
>>
    [n] counts the remaining rounds, [dotIndex - filenameIndex]; the
    result is [true] when the loop returns the split at [dotIndex]. *)
Fixpoint has_stem (p : string) (filenameIndex : Z) (n : nat) : bool :=
  match n with
  | O => false
  | S n' =>
      if negb (String.eqb (Py.take_str 1 (Py.slice_from p filenameIndex))
                          (String extsep ""))
      then true
      else has_stem p (filenameIndex + 1) n'
  end.

(** [os.path.splitext]:
<<
    sepIndex = p.rfind(sep)
    dotIndex = p.rfind(extsep)
    if dotIndex > sepIndex:
        filenameIndex = sepIndex + 1
        (loop above)
    return p, p[:0]
>> *)
Definition splitext (p : string) : string * string :=
  let sepIndex := Py.rfind sep p in
  let dotIndex := Py.rfind extsep p in
  if (sepIndex <? dotIndex) &&
     has_stem p (sepIndex + 1) (Z.to_nat (dotIndex - (sepIndex + 1)))
  then (Py.slice_to p dotIndex, Py.slice_from p dotIndex)
  else (p, "").

End posixpath.

(** ** datetime *)

(** A timezone-aware [datetime.datetime] whose [tzinfo] is UTC. *)
Record datetime := mk_datetime {
  year : Z;
  month : Z;
  day : Z;
  hour : Z;
  minute : Z;
  second : Z;
  microsecond : Z
}.

Module Datetime.

(** [datetime._is_leap] *)
Definition is_leap (y : Z) : bool :=
  (y mod 4 =? 0) && (negb (y mod 100 =? 0) || (y mod 400 =? 0)).

(** [datetime._DAYS_BEFORE_MONTH], indexed by month; index 0 is a
    placeholder. *)
Definition DAYS_BEFORE_MONTH : list Z :=
  [0; 0; 31; 59; 90; 120; 151; 181; 212; 243; 273; 304; 334].

(** [datetime._days_before_month] *)
Definition days_before_month (y m : Z) : Z :=
  nth (Z.to_nat m) DAYS_BEFORE_MONTH 0 + (if (2 <? m) && is_leap y then 1 else 0).

(** [datetime._DAYS_IN_MONTH], indexed by month. *)
Definition DAYS_IN_MONTH : list Z :=
  [0; 31; 28; 31; 30; 31; 30; 31; 31; 30; 31; 30; 31].

(** [datetime._days_in_month] *)
Definition days_in_month (y m : Z) : Z :=
  if (m =? 2) && is_leap y then 29 else nth (Z.to_nat m) DAYS_IN_MONTH 0.

(** The range checks of the [datetime] constructor: every [datetime]
    object satisfies them. *)
Definition valid (t : datetime) : Prop :=
  1 <= year t <= 9999 /\ 1 <= month t <= 12 /\
  1 <= day t <= days_in_month (year t) (month t) /\
  0 <= hour t < 24 /\ 0 <= minute t < 60 /\ 0 <= second t < 60 /\
  0 <= microsecond t < 1000000.

(** [datetime._days_before_year] *)
Definition days_before_year (y : Z) : Z :=
  let y := y - 1 in
  y * 365 + y / 4 - y / 100 + y / 400.

(** [datetime.toordinal()] *)
Definition toordinal (t : datetime) : Z :=
  days_before_year (year t) + days_before_month (year t) (month t) + day t.

(** [(a - b).days] for two datetimes in the same zone: the difference
    is normalised to whole days, rounded down, seconds and
    microseconds. *)
Definition sub_days (a b : datetime) : Z :=
  let secs (t : datetime) := second t + minute t * 60 + hour t * 3600 in
  (((toordinal a - toordinal b) * 86400 + (secs a - secs b)) * 1000000
   + (microsecond a - microsecond b)) / (86400 * 1000000).

(** The comparison of two datetimes in the same zone: the
    lexicographic order of their fields. *)
Definition fields (t : datetime) : list Z :=
  [year t; month t; day t; hour t; minute t; second t; microsecond t].

Fixpoint cmp_fields (a b : list Z) : comparison :=
  match a, b with
  | x :: a', y :: b' =>
      match Z.compare x y with
      | Eq => cmp_fields a' b'
      | c => c
      end
  | [], [] => Eq
  | [], _ :: _ => Lt
  | _ :: _, [] => Gt
  end.

Definition cmp (a b : datetime) : comparison := cmp_fields (fields a) (fields b).

(** [a >= b] *)
Definition ge (a b : datetime) : bool :=
  match cmp a b with Lt => false | _ => true end.

End Datetime.

(** The fields of [time.struct_time] read by the source. *)
Record struct_time := { tm_year : Z; tm_yday : Z }.

(** [datetime.timetuple()] *)
Definition timetuple (t : datetime) : struct_time :=
  {| tm_year := year t;
     tm_yday := Datetime.days_before_month (year t) (month t) + day t |}.

(** ** Resolution of file names *)

(** The inner dictionary [{'filepath': ..., 'url': ...}]. *)
Record fileinfo := { filepath : string; url : string }.

Global Instance fileinfo_eq_dec : EqDecision fileinfo.
Proof. solve_decision. Defined.

(** A Python [dict] with string keys, in insertion order. *)
Module Dict.

Definition t (V : Type) : Type := list (string * V).

(** [d[k] = v] *)
Fixpoint set {V} (d : t V) (k : string) (v : V) : t V :=
  match d with
  | [] => [(k, v)]
  | (k', v') :: d' =>
      if String.eqb k' k then (k', v) :: d' else (k', v') :: set d' k v
  end.

(** [d[k]], [None] standing for [KeyError]. *)
Fixpoint get {V} (d : t V) (k : string) : option V :=
  match d with
  | [] => None
  | (k', v') :: d' => if String.eqb k' k then Some v' else get d' k
  end.

(** [d.values()] *)
Definition values {V} (d : t V) : list V := map snd d.

End Dict.

Definition NASA_HOST : string := "gdc.cddis.eosdis.nasa.gov".
Definition BKG_HOST : string := "igs-ftp.bkg.bund.de".

(** The switch of the archive from [.Z] to [.gz]:
    [datetime(2020, 12, 1, 0, 0, 0, tzinfo=timezone.utc)]. *)
Definition GZ_SWITCH : datetime := mk_datetime 2020 12 1 0 0 0 0.

(** [EphemerisDownloader.get_filetype] *)
Definition get_filetype (timestamp : datetime) : string :=
  if Datetime.ge timestamp GZ_SWITCH then ".gz" else ".Z".

(** [EphemerisDownloader.get_filepaths] *)
Definition get_filepaths (timestamp : datetime) : Dict.t fileinfo :=
  let timetuple := timetuple timestamp in
  let extension := get_filetype timestamp in
  let filepaths := [] in
  let directory := "gnss/data/daily/" +:+ Py.str (tm_year timetuple) +:+ "/brdc/" in
  let filename := "BRDC00IGS_R_" +:+
      Py.str (tm_year timetuple) +:+
      Py.zfill 3 (Py.str (tm_yday timetuple)) +:+ "0000_01D_MN.rnx.gz" in
  let filepaths := Dict.set filepaths "nasa_daily_combined"
      {| filepath := directory +:+ filename; url := "gdc.cddis.eosdis.nasa.gov" |} in
  let filename := "brdc" +:+ Py.zfill 3 (Py.str (tm_yday timetuple)) +:+
      "0." +:+ Py.slice_from (Py.str (tm_year timetuple)) (-2) +:+ "n" +:+ extension in
  let filepaths := Dict.set filepaths "nasa_daily_gps"
      {| filepath := directory +:+ filename; url := "gdc.cddis.eosdis.nasa.gov" |} in
  let filename := "brdc" +:+ Py.zfill 3 (Py.str (tm_yday timetuple)) +:+
      "0." +:+ Py.slice_from (Py.str (tm_year timetuple)) (-2) +:+ "g" +:+ extension in
  let filepaths := Dict.set filepaths "nasa_daily_glonass"
      {| filepath := directory +:+ filename; url := "gdc.cddis.eosdis.nasa.gov" |} in
  let directory := "/IGS/BRDC/" +:+
      Py.str (tm_year timetuple) +:+ "/" +:+
      Py.zfill 3 (Py.str (tm_yday timetuple)) +:+ "/" in
  let filename := "BRDC00WRD_S_" +:+
      Py.str (tm_year timetuple) +:+
      Py.zfill 3 (Py.str (tm_yday timetuple)) +:+ "0000_01D_MN.rnx.gz" in
  let filepaths := Dict.set filepaths "bkg_daily_combined"
      {| filepath := directory +:+ filename; url := "igs-ftp.bkg.bund.de" |} in
  filepaths.

(** ** The world: local files, FTP servers, console *)

(** What is sent to an FTP server: the opening of the control
    connection, the [AUTH TLS] upgrade, the anonymous login, the
    [PROT P] request, a command line, and [QUIT]. *)
Inductive ftp_cmd :=
| CONNECT
| AUTH_TLS
| LOGIN
| PROT_P
| CMD (line : string)
| QUIT.

Global Instance ftp_cmd_eq_dec : EqDecision ftp_cmd.
Proof. solve_decision. Defined.

(** Python exceptions. [error_perm] is [ftplib.error_perm]; every
    other exception of the network and codec libraries is
    [error_other]. *)
Inductive exn :=
| error_perm (msg : string)
| error_other (msg : string)
| FileNotFoundError (path : string)
| KeyError (key : string)
| IndexError.

Inductive result (A : Type) :=
| Ok (a : A)
| Raise (e : exn).
Arguments Ok {A} a.
Arguments Raise {A} e.

(** The behaviour of the outside world during a call: the time
    [datetime.now(timezone.utc)] reads, how each server answers a
    command ([None]: positive reply), which bytes a transfer delivers
    to its callback before the final reply, and the two decoders.
    [gunzip] streams: it yields the bytes decoded before a possible
    failure. *)
Record Env := {
  now : datetime;
  reply : string -> ftp_cmd -> option exn;
  retr_data : string -> string -> list byte;
  gunzip : list byte -> list byte * option exn;
  unlzw : list byte -> result (list byte)
}.

Record World := mk_World {
  fs : gmap string (list byte);
  socks : list nat;
  next_sock : nat;
  wire : list (string * ftp_cmd);
  stdout : list string
}.

Definition set_fs (f : gmap string (list byte) -> gmap string (list byte)) (w : World) : World :=
  mk_World (f (fs w)) (socks w) (next_sock w) (wire w) (stdout w).

(** State and exception monad; the state survives a raise. *)
Definition M (A : Type) : Type := World -> result A * World.

Definition ret {A} (a : A) : M A := fun w => (Ok a, w).

Definition bind {A B} (m : M A) (k : A -> M B) : M B := fun w =>
  match m w with
  | (Ok a, w') => k a w'
  | (Raise e, w') => (Raise e, w')
  end.

Definition raise {A} (e : exn) : M A := fun w => (Raise e, w).

(** [try: m  except ...: handler], the handler choosing by [Some] the
    exceptions it catches. *)
Definition try_except {A} (m : M A) (handler : exn -> option (M A)) : M A := fun w =>
  match m w with
  | (Ok a, w') => (Ok a, w')
  | (Raise e, w') =>
      match handler e with
      | Some k => k w'
      | None => (Raise e, w')
      end
  end.

Notation "'let!' x ':=' c 'in' k" := (bind c (fun x => k))
  (at level 10, x name, c at level 100, k at level 200).
Notation "c '>>' k" := (bind c (fun _ => k))
  (at level 100, k at level 200, right associativity).

(** [for x in xs: acc.append(f(x))] *)
Fixpoint for_append {A B} (f : A -> M B) (xs : list A) (acc : list B) : M (list B) :=
  match xs with
  | [] => ret acc
  | x :: xs' => let! y := f x in for_append f xs' (acc ++ [y])
  end.

(** *** Local files *)

Module os.

(** [os.path.isfile] *)
Definition isfile (path : string) : M bool := fun w =>
  (Ok (bool_decide (is_Some (fs w !! path))), w).

(** [os.remove] *)
Definition remove (path : string) : M unit := fun w =>
  match fs w !! path with
  | Some _ => (Ok tt, set_fs (delete path) w)
  | None => (Raise (FileNotFoundError path), w)
  end.

End os.

(** [open(path, 'wb')]: the file is created or truncated. A handle is
    the path it was opened on. The cache directories are made by
    [__init__], so the open itself does not fail. *)
Definition open_wb (path : string) : M string := fun w =>
  (Ok path, set_fs <[path := []]> w).

(** [open(path, 'rb')] and [gzip.open(path, 'rb')] *)
Definition open_rb (path : string) : M string := fun w =>
  match fs w !! path with
  | Some _ => (Ok path, w)
  | None => (Raise (FileNotFoundError path), w)
  end.

(** [handle.write(data)] *)
Definition write (handle : string) (data : list byte) : M unit := fun w =>
  (Ok tt, set_fs (alter (fun old => old ++ data) handle) w).

(** [handle.read()] *)
Definition read (handle : string) : M (list byte) := fun w =>
  (Ok (default [] (fs w !! handle)), w).

(** [print] *)
Definition print (line : string) : M unit := fun w =>
  (Ok tt, mk_World (fs w) (socks w) (next_sock w) (wire w) (stdout w ++ [line])).

(** *** Constellations *)

(** [sat[0]] *)
Definition first_char (sat : string) : result string :=
  match sat with
  | String c _ => Ok (String c "")
  | EmptyString => Raise IndexError
  end.

(** [EphemerisDownloader.get_constellations]; a [satellites] argument
    that is not a list is [None]. *)
Definition get_constellations (satellites : option (list string))
    : result (option (gset string)) :=
  match satellites with
  | Some satellites =>
      let systems : result (gset string) :=
        fold_left
          (fun acc sat =>
             match acc with
             | Ok systems =>
                 match first_char sat with
                 | Ok c => Ok (systems ∪ {[ c ]})
                 | Raise e => Raise e
                 end
             | Raise e => Raise e
             end)
          satellites (Ok ∅) in
      match systems with
      | Ok systems => Ok (Some systems)
      | Raise e => Raise e
      end
  | None => Ok None
  end.

(** *** ftplib *)

(** An [ftplib.FTP] object ([ftp_tls = false]) or an [ftplib.FTP_TLS]
    object ([ftp_tls = true]) with its control socket. *)
Record FTP := { ftp_host : string; ftp_tls : bool; ftp_sock : nat }.

Section Downloader.

Context (env : Env).

(** Send a command and read the reply. *)
Definition send (host : string) (c : ftp_cmd) : M unit := fun w =>
  let w' := mk_World (fs w) (socks w) (next_sock w) (wire w ++ [(host, c)]) (stdout w) in
  match reply env host c with
  | Some e => (Raise e, w')
  | None => (Ok tt, w')
  end.

Definition open_socket : M nat := fun w =>
  (Ok (next_sock w),
   mk_World (fs w) (next_sock w :: socks w) (S (next_sock w)) (wire w) (stdout w)).

(** [FTP(host)] and [FTP_TLS(host)]: the constructor connects. *)
Definition FTP_new (tls : bool) (host : string) : M FTP :=
  send host CONNECT >>
  let! s := open_socket in
  ret {| ftp_host := host; ftp_tls := tls; ftp_sock := s |}.

(** [ftp.login()]: an [FTP_TLS] object secures the control connection
    first. *)
Definition ftp_login (ftp : FTP) : M unit :=
  (if ftp_tls ftp then send (ftp_host ftp) AUTH_TLS else ret tt) >>
  send (ftp_host ftp) LOGIN.

(** [ftp.prot_p()] *)
Definition ftp_prot_p (ftp : FTP) : M unit := send (ftp_host ftp) PROT_P.

(** [ftp.retrbinary(cmd, callback)] *)
Definition ftp_retrbinary (ftp : FTP) (cmd : string) (callback : list byte -> M unit) : M unit :=
  fun w =>
  let w' := mk_World (fs w) (socks w) (next_sock w)
                     (wire w ++ [(ftp_host ftp, CMD cmd)]) (stdout w) in
  (callback (retr_data env (ftp_host ftp) cmd) >>
   match reply env (ftp_host ftp) (CMD cmd) with
   | Some e => raise e
   | None => ret tt
   end) w'.

(** [ftp.close()]: closes the socket if it is still open. *)
Definition ftp_close (ftp : FTP) : M unit := fun w =>
  (Ok tt,
   mk_World (fs w) (filter (fun s => s <> ftp_sock ftp) (socks w))
            (next_sock w) (wire w) (stdout w)).

(** [ftp.quit()]: sends [QUIT], then closes. *)
Definition ftp_quit (ftp : FTP) : M unit :=
  send (ftp_host ftp) QUIT >> ftp_close ftp.

(** ** EphemerisDownloader *)

(** The attributes of an instance read by the methods below. *)
Record EphemerisDownloader := {
  ephemeris_directory : string;
  verbose : bool
}.

Context (self : EphemerisDownloader).

(** [EphemerisDownloader.connect] *)
Definition connect (url : string) (secure : bool) : M FTP :=
  if secure then
    let! ftp := FTP_new true url in
    ftp_login ftp >>
    ftp_prot_p ftp >>
    ret ftp
  else
    let! ftp := FTP_new false url in
    ftp_login ftp >>
    ret ftp.

(** [EphemerisDownloader.decompress_file] *)
Definition decompress_file (filepath : string) : M unit :=
  let extension := snd (posixpath.splitext filepath) in
  let decompressed_path := fst (posixpath.splitext filepath) in
  (if String.eqb extension ".gz" then
     let! f_in := open_rb filepath in
     let! f_out := open_wb decompressed_path in
     let! data := read f_in in
     write f_out (fst (gunzip env data)) >>
     match snd (gunzip env data) with
     | Some e => raise e
     | None => ret tt
     end
   else if String.eqb extension ".Z" then
     let! f_in := open_rb filepath in
     let! f_out := open_wb decompressed_path in
     let! data := read f_in in
     match unlzw env data with
     | Ok out => write f_out out
     | Raise e => raise e
     end
   else ret tt) >>
  os.remove filepath.

(** [EphemerisDownloader.retrieve_file] *)
Definition retrieve_file (url directory filename dest_filepath : string) : M unit :=
  let secure := bool_decide (url = "gdc.cddis.eosdis.nasa.gov") in
  (if verbose self
   then print ("Retrieving " +:+ directory +:+ "/" +:+ filename +:+ " from " +:+ url)
   else ret tt) >>
  let! ftp := connect url secure in
  let src_filepath := directory +:+ "/" +:+ filename in
  try_except
    (let! handle := open_wb dest_filepath in
     ftp_retrbinary ftp ("RETR " +:+ src_filepath) (write handle))
    (fun err =>
       match err with
       | error_perm msg =>
           Some (os.remove dest_filepath >>
                 raise (error_perm (msg +:+ " Failed to retrieve " +:+
                                    src_filepath +:+ " from " +:+ url)))
       | _ => None
       end) >>
  ftp_quit ftp >>
  ftp_close ftp >>
  decompress_file dest_filepath.

(** The local paths computed at the head of [get_rinex_path]:
    [dest_filepath], the compressed download, and [rinex_path], the
    decompressed file. *)
Definition dest_filepath_of (fileinfo : fileinfo) : string :=
  let filename := snd (posixpath.split (filepath fileinfo)) in
  if String.eqb (url fileinfo) "igs-ftp.bkg.bund.de"
  then posixpath.join (ephemeris_directory self) ["igs"; filename]
  else posixpath.join (ephemeris_directory self) ["nasa"; filename].

Definition rinex_path_of (fileinfo : fileinfo) : string :=
  fst (posixpath.splitext (dest_filepath_of fileinfo)).

(** [EphemerisDownloader.get_rinex_path] *)
Definition get_rinex_path (fileinfo : fileinfo) : M string :=
  let directory := fst (posixpath.split (filepath fileinfo)) in
  let filename := snd (posixpath.split (filepath fileinfo)) in
  let dest_filepath := dest_filepath_of fileinfo in
  let rinex_path := rinex_path_of fileinfo in
  let! present := os.isfile rinex_path in
  (if negb present
   then retrieve_file (url fileinfo) directory filename dest_filepath
   else ret tt) >>
  ret rinex_path.

(** [filepaths[key]] inside the monad. *)
Definition getitem (filepaths : Dict.t fileinfo) (key : string) : M fileinfo :=
  match Dict.get filepaths key with
  | Some v => ret v
  | None => raise (KeyError key)
  end.

(** [rinex_paths.append(self.get_rinex_path(filepaths[key]))] *)
Definition append_rinex_path (filepaths : Dict.t fileinfo) (key : string)
    (rinex_paths : list string) : M (list string) :=
  let! fileinfo := getitem filepaths key in
  let! rinex_path := get_rinex_path fileinfo in
  ret (rinex_paths ++ [rinex_path]).

(** [EphemerisDownloader.load_data] *)
Definition load_data (timestamp : datetime) (constellations : option (gset string))
    (same_day : bool) : M (list string) :=
  let filepaths := get_filepaths timestamp in
  let rinex_paths := [] in
  match constellations with
  | None => for_append get_rinex_path (Dict.values filepaths) rinex_paths
  | Some constellations =>
      let legacy_systems : gset string := {[ "G"; "R" ]} in
      let legacy_systems_only :=
        Nat.eqb (size (constellations ∖ legacy_systems)) 0 in
      if negb same_day then
        if legacy_systems_only then
          let! rinex_paths :=
            (if bool_decide ("G" ∈ constellations)
             then append_rinex_path filepaths "nasa_daily_gps" rinex_paths
             else ret rinex_paths) in
          let! rinex_paths :=
            (if bool_decide ("R" ∈ constellations)
             then append_rinex_path filepaths "nasa_daily_glonass" rinex_paths
             else ret rinex_paths) in
          ret rinex_paths
        else
          append_rinex_path filepaths "nasa_daily_combined" rinex_paths
      else
        if legacy_systems_only && bool_decide ("G" ∈ constellations)
        then append_rinex_path filepaths "nasa_daily_gps" rinex_paths
        else append_rinex_path filepaths "bkg_daily_combined" rinex_paths
  end.

(** [tzinfo_to_utc] belongs to [gnss_lib_py.utils.time_conversions],
    another module of the package; [get_ephemeris] takes it as a
    parameter. *)
Context (tzinfo_to_utc : datetime -> datetime).

(** [EphemerisDownloader.get_ephemeris] *)
Definition get_ephemeris (timestamp : datetime) (satellites : option (list string))
    : M (list string) :=
  match get_constellations satellites with
  | Raise e => raise e
  | Ok systems =>
      let timestamp := tzinfo_to_utc timestamp in
      let same_day := Datetime.sub_days (now env) timestamp <=? 0 in
      let! rinex_paths := load_data timestamp systems same_day in
      ret rinex_paths
  end.

End Downloader.

(** ** The file templates in the words of the specification

    Section 4.1 of the specification names four files per UTC day and
    section 4.2 gives the rule for the compression suffix. They are
    written down here independently of [get_filepaths] and compared
    with it below. *)

Module Spec.

(** [<year>], [<day-of-year:3-digit>] and [<2-digit-year>] *)
Definition yyyy (t : datetime) : string := Py.str (year t).
Definition ddd (t : datetime) : string := Py.zfill 3 (Py.str (tm_yday (timetuple t))).
Definition yy (t : datetime) : string := Py.slice_from (Py.str (year t)) (-2).

(** Combined multi-GNSS file, primary archive. *)
Definition combined_primary (t : datetime) : fileinfo :=
  {| filepath := ("gnss/data/daily/" +:+ yyyy t +:+ "/brdc/") +:+
                 "BRDC00IGS_R_" +:+ yyyy t +:+ ddd t +:+ "0000_01D_MN.rnx.gz";
     url := NASA_HOST |}.

(** GPS-only file, primary archive. *)
Definition gps_only (t : datetime) (ext : string) : fileinfo :=
  {| filepath := ("gnss/data/daily/" +:+ yyyy t +:+ "/brdc/") +:+
                 "brdc" +:+ ddd t +:+ "0." +:+ yy t +:+ "n" +:+ ext;
     url := NASA_HOST |}.

(** GLONASS-only file, primary archive. *)
Definition glonass_only (t : datetime) (ext : string) : fileinfo :=
  {| filepath := ("gnss/data/daily/" +:+ yyyy t +:+ "/brdc/") +:+
                 "brdc" +:+ ddd t +:+ "0." +:+ yy t +:+ "g" +:+ ext;
     url := NASA_HOST |}.

(** Combined file, secondary archive. *)
Definition combined_secondary (t : datetime) : fileinfo :=
  {| filepath := ("/IGS/BRDC/" +:+ yyyy t +:+ "/" +:+ ddd t +:+ "/") +:+
                 "BRDC00WRD_S_" +:+ yyyy t +:+ ddd t +:+ "0000_01D_MN.rnx.gz";
     url := BKG_HOST |}.

(** A calendar date and time strictly before 2020-12-01T00:00:00Z:
    one of a year before 2020, or of January to November 2020. *)
Definition before_switch (t : datetime) : Prop :=
  year t < 2020 \/ (year t = 2020 /\ month t < 12).

Global Instance before_switch_dec t : Decision (before_switch t).
Proof. unfold before_switch. apply _. Defined.

(** The format-era rule. *)
Definition era_ext (t : datetime) : string :=
  if decide (before_switch t) then ".Z" else ".gz".

(** The set of the two legacy systems, GPS and GLONASS. *)
Definition legacy : gset string := {[ "G"; "R" ]}.

End Spec.

(** ** Vocabulary of the statements *)

(** The descriptors of a day, in the order of [get_filepaths]. *)
Definition day_files (ts : datetime) : list fileinfo :=
  [ Spec.combined_primary ts; Spec.gps_only ts (get_filetype ts);
    Spec.glonass_only ts (get_filetype ts); Spec.combined_secondary ts ].

(** The subdirectory of the cache that [get_rinex_path] picks for a
    host. *)
Definition cache_subdir (u : string) : string :=
  if String.eqb u "igs-ftp.bkg.bund.de" then "igs" else "nasa".

(** The opening of a control connection: explicit TLS ([AUTH TLS]
    before the login, [PROT P] after it) or plain FTP. *)
Definition handshake (secure : bool) : list ftp_cmd :=
  if secure then [CONNECT; AUTH_TLS; LOGIN; PROT_P] else [CONNECT; LOGIN].

(** The commands of one complete download from [url], and the same
    commands on the wire. *)
Definition session_cmds (url src : string) : list ftp_cmd :=
  handshake (bool_decide (url = NASA_HOST)) ++ [CMD ("RETR " +:+ src); QUIT].

Definition session (url src : string) : list (string * ftp_cmd) :=
  map (pair url) (session_cmds url src).

(** What [retrieve_file] prints. *)
Definition announce (self : EphemerisDownloader) (url directory filename : string)
    : list string :=
  if verbose self
  then ["Retrieving " +:+ directory +:+ "/" +:+ filename +:+ " from " +:+ url]
  else [].

(** [emits m n L]: in every world, what [m] sends is an initial part
    of [L] of at least [n] commands, and all of [L] when [m]
    returns. *)
Definition emits {A} (m : M A) (n : nat) (L : list (string * ftp_cmd)) : Prop :=
  forall w, exists k, (n <= k <= length L)%nat /\
    wire (snd (m w)) = wire w ++ take k L /\
    (forall a, fst (m w) = Ok a -> k = length L).

(** ** Concrete requests *)

Module Sample.

Definition self : EphemerisDownloader :=
  {| ephemeris_directory := "data/ephemeris"; verbose := false |}.

(** 2023-03-15T05:00:00Z and 2019-06-01T01:00:00Z *)
Definition ts : datetime := mk_datetime 2023 3 15 5 0 0 0.
Definition ts_old : datetime := mk_datetime 2019 6 1 1 0 0 0.

(** Modelled from the spec: the timestamp normaliser
    ([tzinfo_to_utc], in another module of the package) converts a
    timestamp to UTC and is pure and total; a timestamp that is in UTC
    already is left as it is. *)
Definition utc (t : datetime) : datetime := t.

(** 2023-03-15T12:00:00Z, with servers that serve every file; the
    decoders are the identity. *)
Definition serving : Env :=
  {| now := mk_datetime 2023 3 15 12 0 0 0;
     reply := fun _ _ => None;
     retr_data := fun _ _ => [x1f; x8b];
     gunzip := fun data => (data, None);
     unlzw := fun data => Ok data |}.

(** The same time, with servers that answer every command line with
    a permission error. *)
Definition refusing : Env :=
  {| now := mk_datetime 2023 3 15 12 0 0 0;
     reply := fun _ c =>
       match c with
       | CMD _ => Some (error_perm "550 No such file or directory.")
       | _ => None
       end;
     retr_data := fun _ _ => [];
     gunzip := fun data => (data, None);
     unlzw := fun data => Ok data |}.

(** No local file, no connection. *)
Definition empty_world : World := mk_World ∅ [] 0 [] [].

(** The four decompressed files of [ts] are in the cache. *)
Definition cached_world : World :=
  mk_World
    (list_to_map
       [ ("data/ephemeris/nasa/BRDC00IGS_R_20230740000_01D_MN.rnx", []);
         ("data/ephemeris/nasa/brdc0740.23n", []);
         ("data/ephemeris/nasa/brdc0740.23g", []);
         ("data/ephemeris/igs/BRDC00WRD_S_20230740000_01D_MN.rnx", []) ])
    [] 0 [] [].

End Sample.

(** ** Vocabulary of the further statements *)

(** The directory part that [os.path.join] puts in front of the
    components joined to [root]: [root] itself when it is empty or
    ends with a separator, and [root] with a separator otherwise. *)
Definition join_prefix (root : string) : string :=
  if String.eqb root "" || Py.endswith root (String posixpath.sep "")
  then root else root +:+ String posixpath.sep "".

(** ** Faulty servers and decoders *)

Module Faulty.

(** Servers that serve every file, with decoders that fail: [gunzip]
    after one byte of output, [unlzw] at once. *)
Definition corrupt : Env :=
  {| now := mk_datetime 2023 3 15 12 0 0 0;
     reply := fun _ _ => None;
     retr_data := fun _ _ => [x1f; x8b];
     gunzip := fun data => ([x41], Some (error_other "BadGzipFile"));
     unlzw := fun data => Raise (error_other "ValueError") |}.

(** Servers that break off every transfer after one byte with a
    temporary error. *)
Definition dropping : Env :=
  {| now := mk_datetime 2023 3 15 12 0 0 0;
     reply := fun _ c =>
       match c with
       | CMD _ => Some (error_other "426 Connection closed; transfer aborted.")
       | _ => None
       end;
     retr_data := fun _ _ => [x1f];
     gunzip := fun data => (data, None);
     unlzw := fun data => Ok data |}.


(** Servers that serve every file and refuse [QUIT]. *)
Definition hanging : Env :=
  {| now := mk_datetime 2023 3 15 12 0 0 0;
     reply := fun _ c =>
       match c with
       | QUIT => Some (error_perm "500 Unknown command.")
       | _ => None
       end;
     retr_data := fun _ _ => [x1f; x8b];
     gunzip := fun data => (data, None);
     unlzw := fun data => Ok data |}.

End Faulty.

(** ** Properties kept by a computation *)

(** [m] keeps the property [P] of the world, whether it returns or
    raises. *)
Definition preserves {A} (P : World -> Prop) (m : M A) : Prop :=
  forall w, P w -> P (snd (m w)).

(** * Properties *)

Example filepaths_2023_03_15 :
  get_filepaths (mk_datetime 2023 3 15 5 0 0 0) =
  [ ("nasa_daily_combined",
     {| filepath := "gnss/data/daily/2023/brdc/BRDC00IGS_R_20230740000_01D_MN.rnx.gz";
        url := NASA_HOST |});
    ("nasa_daily_gps",
     {| filepath := "gnss/data/daily/2023/brdc/brdc0740.23n.gz"; url := NASA_HOST |});
    ("nasa_daily_glonass",
     {| filepath := "gnss/data/daily/2023/brdc/brdc0740.23g.gz"; url := NASA_HOST |});
    ("bkg_daily_combined",
     {| filepath := "/IGS/BRDC/2023/074/BRDC00WRD_S_20230740000_01D_MN.rnx.gz";
        url := BKG_HOST |}) ].
Proof. reflexivity. Qed.

Example filepaths_2019_06_01 :
  Dict.get (get_filepaths (mk_datetime 2019 6 1 1 0 0 0)) "nasa_daily_gps" =
  Some {| filepath := "gnss/data/daily/2019/brdc/brdc1520.19n.Z"; url := NASA_HOST |}.
Proof. reflexivity. Qed.

Example split_examples :
  posixpath.split "gnss/data/daily/2023/brdc/brdc0740.23n.gz"
    = ("gnss/data/daily/2023/brdc", "brdc0740.23n.gz") /\
  posixpath.split "/IGS/BRDC/2023/074/B.rnx.gz" = ("/IGS/BRDC/2023/074", "B.rnx.gz") /\
  posixpath.split "/x" = ("/", "x") /\
  posixpath.split "x" = ("", "x") /\
  posixpath.split "a//" = ("a", "").
Proof. repeat split; reflexivity. Qed.

Example splitext_examples :
  posixpath.splitext "data/nasa/brdc0740.23n.gz" = ("data/nasa/brdc0740.23n", ".gz") /\
  posixpath.splitext "data/nasa/brdc1520.19n.Z" = ("data/nasa/brdc1520.19n", ".Z") /\
  posixpath.splitext "a.b/c" = ("a.b/c", "") /\
  posixpath.splitext "a/.bashrc" = ("a/.bashrc", "") /\
  posixpath.splitext "a/..x.y" = ("a/..x", ".y").
Proof. repeat split; reflexivity. Qed.

Example join_examples :
  posixpath.join "data/ephemeris" ["nasa"; "f.gz"] = "data/ephemeris/nasa/f.gz" /\
  posixpath.join "data/" ["igs"; "f.gz"] = "data/igs/f.gz" /\
  posixpath.join "" ["igs"; "f.gz"] = "igs/f.gz" /\
  posixpath.join "data" ["igs"; "/f.gz"] = "/f.gz".
Proof. repeat split; reflexivity. Qed.

(** The scenarios of section 8 of the specification, from the list of
    satellites to the files requested. *)
Example scenario_historical_gps :
  let r := get_ephemeris Sample.serving Sample.self Sample.utc Sample.ts_old
             (Some ["G01"]) Sample.empty_world in
  fst r = Ok ["data/ephemeris/nasa/brdc1520.19n"] /\
  wire (snd r) = session NASA_HOST "gnss/data/daily/2019/brdc/brdc1520.19n.Z".
Proof. split; by vm_compute. Qed.

Example scenario_same_day_galileo :
  let r := get_ephemeris Sample.serving Sample.self Sample.utc Sample.ts
             (Some ["E11"]) Sample.empty_world in
  fst r = Ok ["data/ephemeris/igs/BRDC00WRD_S_20230740000_01D_MN.rnx"] /\
  wire (snd r) =
    session BKG_HOST "/IGS/BRDC/2023/074/BRDC00WRD_S_20230740000_01D_MN.rnx.gz".
Proof. split; by vm_compute. Qed.

Example scenario_historical_gps_glonass :
  get_constellations (Some ["G01"; "R05"]) = Ok (Some {[ "G"; "R" ]}) /\
  let r := load_data Sample.serving Sample.self Sample.ts (Some {[ "G"; "R" ]}) false
             Sample.empty_world in
  fst r = Ok ["data/ephemeris/nasa/brdc0740.23n"; "data/ephemeris/nasa/brdc0740.23g"] /\
  wire (snd r) =
    session NASA_HOST "gnss/data/daily/2023/brdc/brdc0740.23n.gz" ++
    session NASA_HOST "gnss/data/daily/2023/brdc/brdc0740.23g.gz".
Proof. repeat split; by vm_compute. Qed.

Example same_day_examples :
  Datetime.sub_days (mk_datetime 2023 3 15 12 0 0 0) (mk_datetime 2023 3 15 5 0 0 0) = 0 /\
  Datetime.sub_days (mk_datetime 2023 3 16 4 59 59 0) (mk_datetime 2023 3 15 5 0 0 0) = 0 /\
  Datetime.sub_days (mk_datetime 2023 3 16 5 0 0 0) (mk_datetime 2023 3 15 5 0 0 0) = 1 /\
  Datetime.sub_days (mk_datetime 2023 3 15 4 0 0 0) (mk_datetime 2023 3 15 5 0 0 0) = -1 /\
  Datetime.toordinal (mk_datetime 2023 3 15 0 0 0 0) = 738594.
Proof. repeat split; by vm_compute. Qed.

(** ** Facts about the text primitives *)

Module PyFacts.
Import Py.

Lemma sapp_cons a s1 s2 : String a s1 +:+ s2 = String a (s1 +:+ s2).
Proof. reflexivity. Qed.

Lemma sapp_nil_l s : "" +:+ s = s.
Proof. reflexivity. Qed.

Lemma strlen_app s1 s2 :
  String.length (s1 +:+ s2) = (String.length s1 + String.length s2)%nat.
Proof.
  induction s1 as [|a s1 IH]; [done|].
  rewrite sapp_cons. simpl. by rewrite IH.
Qed.

Lemma len_app s1 s2 : len (s1 +:+ s2) = len s1 + len s2.
Proof. unfold len. rewrite strlen_app. lia. Qed.

Lemma len_cons a s : len (String a s) = len s + 1.
Proof. unfold len. simpl String.length. lia. Qed.

Lemma len_nonneg s : 0 <= len s.
Proof. unfold len. lia. Qed.

Lemma sapp_assoc s1 s2 s3 : (s1 +:+ s2) +:+ s3 = s1 +:+ s2 +:+ s3.
Proof.
  induction s1 as [|a s1 IH]; [done|].
  rewrite !sapp_cons. by rewrite IH.
Qed.

Lemma contains_app c s1 s2 :
  contains c (s1 +:+ s2) = contains c s1 || contains c s2.
Proof.
  induction s1 as [|a s1 IH]; [done|].
  rewrite sapp_cons. simpl. rewrite IH. by rewrite orb_assoc.
Qed.

Lemma contains_drop c n s : contains c (drop_str n s) = true -> contains c s = true.
Proof.
  revert s. induction n as [|n IH]; intros [|a s]; simpl; try done.
  intros H. rewrite (IH _ H). apply orb_true_r.
Qed.

Lemma contains_repeat c a n : a <> c -> contains c (repeat_char a n) = false.
Proof.
  intros Hne. induction n as [|n IH]; simpl; [done|].
  rewrite IH, orb_false_r. by apply Ascii.eqb_neq.
Qed.

Lemma rfind_bounds c s : -1 <= rfind c s < len s.
Proof.
  induction s as [|a s IH]; simpl rfind.
  - unfold len. simpl. lia.
  - rewrite len_cons.
    destruct (0 <=? rfind c s) eqn:E; [lia|].
    destruct (Ascii.eqb a c); pose proof (len_nonneg s); lia.
Qed.

Lemma rfind_absent c s : contains c s = false -> rfind c s = -1.
Proof.
  induction s as [|a s IH]; simpl; [done|].
  intros [Ha Hs]%orb_false_elim. rewrite (IH Hs), Ha. done.
Qed.

Lemma rfind_app_absent c s1 s2 :
  contains c s2 = false -> rfind c (s1 +:+ s2) = rfind c s1.
Proof.
  intros H. induction s1 as [|a s1 IH].
  - rewrite sapp_nil_l. by apply rfind_absent.
  - rewrite sapp_cons. simpl. by rewrite IH.
Qed.

Lemma rfind_app_last c s1 s2 :
  contains c s2 = false -> rfind c (s1 +:+ String c s2) = len s1.
Proof.
  intros H. induction s1 as [|a s1 IH].
  - rewrite sapp_nil_l. simpl. rewrite (rfind_absent _ _ H). simpl.
    by rewrite Ascii.eqb_refl.
  - rewrite sapp_cons. simpl rfind. rewrite IH, len_cons.
    pose proof (len_nonneg s1).
    destruct (0 <=? len s1) eqn:E; lia.
Qed.

Lemma take_str_app s1 s2 : take_str (String.length s1) (s1 +:+ s2) = s1.
Proof.
  induction s1 as [|a s1 IH]; [done|].
  rewrite sapp_cons. simpl. by rewrite IH.
Qed.

Lemma drop_str_app s1 s2 : drop_str (String.length s1) (s1 +:+ s2) = s2.
Proof. induction s1 as [|a s1 IH]; [done|]. rewrite sapp_cons. done. Qed.

Lemma norm_index_nonneg s i : 0 <= i -> norm_index s i = Z.to_nat i.
Proof. intros H. unfold norm_index. destruct (i <? 0) eqn:E; [lia|done]. Qed.

Lemma slice_to_app s1 s2 : slice_to (s1 +:+ s2) (len s1) = s1.
Proof.
  unfold slice_to, len. rewrite norm_index_nonneg by lia.
  rewrite Nat2Z.id. apply take_str_app.
Qed.

Lemma slice_from_app s1 s2 : slice_from (s1 +:+ s2) (len s1) = s2.
Proof.
  unfold slice_from, len. rewrite norm_index_nonneg by lia.
  rewrite Nat2Z.id. apply drop_str_app.
Qed.

Lemma contains_slice_from c s i :
  contains c (slice_from s i) = true -> contains c s = true.
Proof. apply contains_drop. Qed.

Lemma contains_uint c d :
  contains c (NilEmpty.string_of_uint d) = true -> contains c "0123456789" = true.
Proof.
  induction d as [|d IH|d IH|d IH|d IH|d IH|d IH|d IH|d IH|d IH|d IH];
    cbn [NilEmpty.string_of_uint contains]; [done|..];
    (intros [H|H]%orb_true_iff; [apply Ascii.eqb_eq in H; by subst | by apply IH]).
Qed.

Lemma contains_cons c a s : contains c (String a s) = Ascii.eqb a c || contains c s.
Proof. reflexivity. Qed.

(** [str(n)] holds a sign and decimal digits only. *)
Lemma contains_str c n : contains c (str n) = true -> contains c "-0123456789" = true.
Proof.
  unfold str. rewrite (contains_cons c "-"). destruct (Z.to_int n) as [d|d]; intros H.
  - change (contains c (NilEmpty.string_of_uint d) = true) in H.
    rewrite (contains_uint _ _ H). apply orb_true_r.
  - change (contains c (String "-" (NilEmpty.string_of_uint d)) = true) in H.
    rewrite contains_cons in H. apply orb_true_iff in H as [H|H].
    + by rewrite H.
    + rewrite (contains_uint _ _ H). apply orb_true_r.
Qed.

Lemma contains_zfill c w s :
  contains c (zfill w s) = true -> contains c s = true \/ c = "0"%char.
Proof.
  unfold zfill. set (fill := repeat_char "0" (w - String.length s)).
  assert (Hfill : contains c fill = true -> c = "0"%char).
  { intros H. destruct (decide (c = "0"%char)) as [|Hne]; [done|].
    unfold fill in H. rewrite contains_repeat in H; done. }
  destruct s as [|a s].
  - intros H. right. by apply Hfill.
  - destruct (_ || _).
    + simpl. rewrite contains_app.
      intros [H|[H|H]%orb_true_iff]%orb_true_iff.
      * left. by rewrite H.
      * right. by apply Hfill.
      * left. rewrite H. apply orb_true_r.
    + rewrite contains_app. intros [H|H]%orb_true_iff; [right; by apply Hfill|by left].
Qed.

(** Neither [str], [zfill] nor a slice of them brings in a character
    other than a sign or a digit. *)
Lemma no_char_zfill_str c w n :
  contains c "-0123456789" = false -> contains c (zfill w (str n)) = false.
Proof.
  intros Hc. apply not_true_is_false. intros [H| ->]%contains_zfill.
  - apply contains_str in H. congruence.
  - done.
Qed.

Lemma no_char_slice_str c n i :
  contains c "-0123456789" = false -> contains c (slice_from (str n) i) = false.
Proof.
  intros Hc. apply not_true_is_false.
  intros H%contains_slice_from%contains_str. congruence.
Qed.

Lemma endswith_app x y p :
  (String.length p <= String.length y)%nat -> endswith (x +:+ y) p = endswith y p.
Proof.
  intros Hle. unfold endswith. rewrite strlen_app.
  replace (String.length x + String.length y - String.length p)%nat
    with (String.length x + (String.length y - String.length p))%nat by lia.
  f_equal.
  - rewrite !(proj2 (Nat.leb_le _ _)); [done|lia|lia].
  - f_equal. generalize (String.length y - String.length p)%nat as k. intros k.
    induction x as [|a x IH]; [done|]. rewrite sapp_cons. simpl. apply IH.
Qed.

End PyFacts.

Module PathFacts.
Import Py PyFacts posixpath.

(** The file name of [directory + filename] when the directory ends
    with a separator and the file name holds none. *)
Lemma split_tail d f :
  contains sep f = false -> snd (split (d +:+ String sep f)) = f.
Proof.
  intros Hf. unfold split. simpl snd.
  rewrite rfind_app_last by done.
  replace (d +:+ String sep f) with ((d +:+ String sep "") +:+ f)
    by (by rewrite sapp_assoc).
  replace (len d + 1) with (len (d +:+ String sep ""))
    by (rewrite len_app; done).
  apply slice_from_app.
Qed.

Lemma join_two root sub f :
  sub <> "" -> startswith sub (String sep "") = false ->
  endswith sub (String sep "") = false ->
  startswith f (String sep "") = false ->
  exists root', join root [sub; f] = root' +:+ sub +:+ String sep "" +:+ f.
Proof.
  intros Hne Hs He Hf. unfold join. simpl fold_left.
  assert (Hlen : (String.length (String sep "") <= String.length sub)%nat).
  { destruct sub; [done|]. simpl. lia. }
  unfold join_step at 2. rewrite Hs.
  destruct (_ || _).
  - exists root. unfold join_step. rewrite Hf.
    rewrite endswith_app, He by done.
    destruct (String.eqb_spec (root +:+ sub) "") as [E|_]; simpl.
    + destruct root; [|done]. by rewrite sapp_nil_l in E.
    + by rewrite sapp_assoc.
  - exists (root +:+ String sep ""). unfold join_step. rewrite Hf.
    rewrite <- (sapp_assoc root), endswith_app, He by done.
    destruct (String.eqb_spec ((root +:+ String sep "") +:+ sub) "") as [E|_]; simpl.
    + destruct root; done.
    + by rewrite !sapp_assoc.
Qed.

Lemma has_stem_hit n p i j :
  0 <= i -> i <= j < i + Z.of_nat n ->
  take_str 1 (slice_from p j) <> String extsep "" ->
  has_stem p i n = true.
Proof.
  revert i. induction n as [|n IH]; intros i Hi Hj Hc; [lia|].
  cbn [has_stem].
  destruct (String.eqb_spec (take_str 1 (slice_from p i)) (String extsep "")) as [E|E];
    cbn [negb]; [|done].
  apply IH; [lia| |done].
  destruct (decide (i = j)) as [->|]; [done|lia].
Qed.

(** [splitext] of a path whose last component ends in [c.e], [c]
    being an ordinary character and [e] free of dots and
    separators. *)
Lemma splitext_app pre c e :
  c <> extsep -> c <> sep ->
  contains extsep e = false -> contains sep e = false ->
  splitext (pre +:+ String c (String extsep e)) = (pre +:+ String c "", String extsep e).
Proof.
  intros Hc1 Hc2 He1 He2. unfold splitext.
  set (p := pre +:+ String c (String extsep e)).
  assert (Hp : p = (pre +:+ String c "") +:+ String extsep e)
    by (unfold p; by rewrite sapp_assoc).
  assert (Hdot : rfind extsep p = len pre + 1).
  { rewrite Hp, rfind_app_last by done. by rewrite len_app. }
  assert (Hsep : rfind sep p = rfind sep pre).
  { unfold p. apply rfind_app_absent. simpl. rewrite He2.
    apply Ascii.eqb_neq in Hc2. rewrite Hc2. done. }
  rewrite Hdot, Hsep. pose proof (rfind_bounds sep pre) as Hb.
  replace (rfind sep pre <? len pre + 1) with true by lia.
  rewrite (has_stem_hit _ p _ (len pre)); [| lia | lia |].
  - simpl. f_equal.
    + rewrite Hp. replace (len pre + 1) with (len (pre +:+ String c "")).
      * apply slice_to_app.
      * by rewrite len_app.
    + rewrite Hp. replace (len pre + 1) with (len (pre +:+ String c "")).
      * apply slice_from_app.
      * by rewrite len_app.
  - unfold p. rewrite slice_from_app. simpl. congruence.
Qed.

End PathFacts.

(** ** The file names *)

Module ResolverFacts.
Import Py PyFacts posixpath PathFacts.

(** [get_filepaths] builds the four templates of the specification,
    in this order. *)
Lemma get_filepaths_spec ts :
  get_filepaths ts =
  [ ("nasa_daily_combined", Spec.combined_primary ts);
    ("nasa_daily_gps", Spec.gps_only ts (get_filetype ts));
    ("nasa_daily_glonass", Spec.glonass_only ts (get_filetype ts));
    ("bkg_daily_combined", Spec.combined_secondary ts) ].
Proof. reflexivity. Qed.

Lemma cmp_switch ts :
  1 <= day ts -> 0 <= hour ts -> 0 <= minute ts -> 0 <= second ts ->
  0 <= microsecond ts ->
  Datetime.cmp ts GZ_SWITCH = Lt <-> Spec.before_switch ts.
Proof.
  destruct ts as [y m d h mi s us]. unfold Spec.before_switch, Datetime.cmp.
  cbn [year month day hour minute second microsecond Datetime.fields GZ_SWITCH
       Datetime.cmp_fields].
  intros Hd Hh Hmi Hs Hus.
  destruct (Z.compare_spec y 2020); [|split; [lia|done]|split; [done|lia]].
  destruct (Z.compare_spec m 12); [|split; [lia|done]|split; [done|lia]].
  destruct (Z.compare_spec d 1); [|lia|split; [done|lia]].
  destruct (Z.compare_spec h 0); [|lia|split; [done|lia]].
  destruct (Z.compare_spec mi 0); [|lia|split; [done|lia]].
  destruct (Z.compare_spec s 0); [|lia|split; [done|lia]].
  destruct (Z.compare_spec us 0); [|lia|split; [done|lia]].
  split; [done|lia].
Qed.

Lemma get_filetype_era ts : Datetime.valid ts -> get_filetype ts = Spec.era_ext ts.
Proof.
  intros (_ & _ & Hd & Hh & Hmi & Hs & Hus).
  pose proof (cmp_switch ts) as H.
  unfold get_filetype, Datetime.ge, Spec.era_ext.
  destruct (decide (Spec.before_switch ts)) as [Hb|Hb].
  - rewrite (proj2 (H ltac:(lia) ltac:(lia) ltac:(lia) ltac:(lia) ltac:(lia)) Hb). done.
  - destruct (Datetime.cmp ts GZ_SWITCH) eqn:E; try done.
    destruct Hb. apply H; lia || done.
Qed.

Lemma get_filetype_cases ts : get_filetype ts = ".gz" \/ get_filetype ts = ".Z".
Proof. unfold get_filetype. destruct (Datetime.ge _ _); auto. Qed.

Lemma startswith_contains c f :
  startswith f (String c "") = true -> contains c f = true.
Proof.
  destruct f as [|a f]; [done|]. cbn [startswith contains].
  intros [H _]%andb_true_iff. rewrite Ascii.eqb_sym in H. by rewrite H.
Qed.

(** The local paths of a descriptor whose remote path is a directory,
    a separator and a file name [pre c . e]. *)
Lemma local_paths_shape self fi d pre c e :
  filepath fi = d +:+ String sep (pre +:+ String c (String extsep e)) ->
  contains sep pre = false -> c <> sep -> c <> extsep ->
  contains sep e = false -> contains extsep e = false ->
  exists root',
    dest_filepath_of self fi =
      (root' +:+ cache_subdir (url fi) +:+ String sep pre) +:+ String c (String extsep e) /\
    rinex_path_of self fi =
      (root' +:+ cache_subdir (url fi) +:+ String sep pre) +:+ String c "" /\
    snd (splitext (dest_filepath_of self fi)) = String extsep e.
Proof.
  intros Hfi Hpre Hc1 Hc2 He1 He2.
  set (f := pre +:+ String c (String extsep e)) in *.
  assert (Hf : contains sep f = false).
  { unfold f. rewrite contains_app, Hpre. cbn [contains orb].
    rewrite He1. apply Ascii.eqb_neq in Hc1. rewrite Hc1.
    by destruct (Ascii.eqb extsep sep) eqn:E. }
  assert (Hstart : startswith f (String sep "") = false).
  { apply not_true_is_false. intros H%startswith_contains. congruence. }
  assert (Hdest : exists root', dest_filepath_of self fi =
            (root' +:+ cache_subdir (url fi) +:+ String sep pre) +:+
            String c (String extsep e)).
  { unfold dest_filepath_of, cache_subdir. rewrite Hfi.
    rewrite split_tail by done.
    destruct (String.eqb (url fi) "igs-ftp.bkg.bund.de").
    - destruct (join_two (ephemeris_directory self) "igs" f) as [r Hr]; try done.
      exists r. rewrite Hr. unfold f. by rewrite !sapp_assoc.
    - destruct (join_two (ephemeris_directory self) "nasa" f) as [r Hr]; try done.
      exists r. rewrite Hr. unfold f. by rewrite !sapp_assoc. }
  destruct Hdest as [r Hr]. exists r. unfold rinex_path_of. rewrite Hr.
  rewrite splitext_app by done. done.
Qed.

(** The shape of the four remote paths of a day. *)
Lemma digits_no_sep : contains sep "-0123456789" = false.
Proof. reflexivity. Qed.

Lemma digits_no_extsep : contains extsep "-0123456789" = false.
Proof. reflexivity. Qed.

Lemma gps_shape ts e :
  exists d pre,
  filepath (Spec.gps_only ts (String extsep e)) =
    d +:+ String sep (pre +:+ String "n" (String extsep e)) /\
  contains sep pre = false.
Proof.
  exists ("gnss/data/daily/" +:+ Spec.yyyy ts +:+ "/brdc"),
         ("brdc" +:+ Spec.ddd ts +:+ "0." +:+ Spec.yy ts).
  split.
  - unfold Spec.gps_only. cbn [filepath]. by rewrite !sapp_assoc.
  - rewrite !contains_app. unfold Spec.ddd, Spec.yy.
    rewrite no_char_zfill_str, no_char_slice_str by apply digits_no_sep. done.
Qed.

Lemma glonass_shape ts e :
  exists d pre,
  filepath (Spec.glonass_only ts (String extsep e)) =
    d +:+ String sep (pre +:+ String "g" (String extsep e)) /\
  contains sep pre = false.
Proof.
  exists ("gnss/data/daily/" +:+ Spec.yyyy ts +:+ "/brdc"),
         ("brdc" +:+ Spec.ddd ts +:+ "0." +:+ Spec.yy ts).
  split.
  - unfold Spec.glonass_only. cbn [filepath]. by rewrite !sapp_assoc.
  - rewrite !contains_app. unfold Spec.ddd, Spec.yy.
    rewrite no_char_zfill_str, no_char_slice_str by apply digits_no_sep. done.
Qed.

Lemma year_no_sep ts : contains sep (Spec.yyyy ts) = false.
Proof.
  unfold Spec.yyyy. destruct (contains sep (str (year ts))) eqn:E; [|done].
  apply contains_str in E. done.
Qed.

Lemma combined_primary_shape ts :
  exists d pre,
  filepath (Spec.combined_primary ts) = d +:+ String sep (pre +:+ "x.gz") /\
  contains sep pre = false.
Proof.
  exists ("gnss/data/daily/" +:+ Spec.yyyy ts +:+ "/brdc"),
         ("BRDC00IGS_R_" +:+ Spec.yyyy ts +:+ Spec.ddd ts +:+ "0000_01D_MN.rn").
  split.
  - unfold Spec.combined_primary. cbn [filepath]. by rewrite !sapp_assoc.
  - rewrite !contains_app, year_no_sep. unfold Spec.ddd.
    rewrite no_char_zfill_str by apply digits_no_sep. done.
Qed.

Lemma combined_secondary_shape ts :
  exists d pre,
  filepath (Spec.combined_secondary ts) = d +:+ String sep (pre +:+ "x.gz") /\
  contains sep pre = false.
Proof.
  exists ("/IGS/BRDC/" +:+ Spec.yyyy ts +:+ "/" +:+ Spec.ddd ts),
         ("BRDC00WRD_S_" +:+ Spec.yyyy ts +:+ Spec.ddd ts +:+ "0000_01D_MN.rn").
  split.
  - unfold Spec.combined_secondary. cbn [filepath]. by rewrite !sapp_assoc.
  - rewrite !contains_app, year_no_sep. unfold Spec.ddd.
    rewrite no_char_zfill_str by apply digits_no_sep. done.
Qed.

(** The suffix of a remote path of the same shape. *)
Lemma remote_ext fi d pre c e :
  filepath fi = d +:+ String sep (pre +:+ String c (String extsep e)) ->
  c <> sep -> c <> extsep ->
  contains sep e = false -> contains extsep e = false ->
  snd (splitext (filepath fi)) = String extsep e.
Proof.
  intros H Hc1 Hc2 He1 He2. rewrite H.
  replace (d +:+ String sep (pre +:+ String c (String extsep e)))
    with ((d +:+ String sep pre) +:+ String c (String extsep e))
    by (by rewrite sapp_assoc).
  by rewrite splitext_app.
Qed.

(** The compressed download of each descriptor of a day ends in the
    suffix its remote name ends in: [.gz] for the combined files, the
    era suffix for the legacy ones. *)
Lemma day_files_ext self ts fi :
  fi ∈ day_files ts ->
  snd (splitext (dest_filepath_of self fi)) = ".gz" \/
  snd (splitext (dest_filepath_of self fi)) = ".Z".
Proof.
  unfold day_files. rewrite !elem_of_cons, elem_of_nil.
  intros [->|[->|[->|[->|[]]]]].
  - destruct (combined_primary_shape ts) as (d & pre & E & Hp).
    destruct (local_paths_shape self _ d pre "x" "gz" E Hp) as (r & _ & _ & H);
      try done. by left.
  - destruct (get_filetype_cases ts) as [-> | ->].
    + destruct (gps_shape ts "gz") as (d & pre & E & Hp).
      destruct (local_paths_shape self _ d pre "n" "gz" E Hp) as (r & _ & _ & H);
        try done. by left.
    + destruct (gps_shape ts "Z") as (d & pre & E & Hp).
      destruct (local_paths_shape self _ d pre "n" "Z" E Hp) as (r & _ & _ & H);
        try done. by right.
  - destruct (get_filetype_cases ts) as [-> | ->].
    + destruct (glonass_shape ts "gz") as (d & pre & E & Hp).
      destruct (local_paths_shape self _ d pre "g" "gz" E Hp) as (r & _ & _ & H);
        try done. by left.
    + destruct (glonass_shape ts "Z") as (d & pre & E & Hp).
      destruct (local_paths_shape self _ d pre "g" "Z" E Hp) as (r & _ & _ & H);
        try done. by right.
  - destruct (combined_secondary_shape ts) as (d & pre & E & Hp).
    destruct (local_paths_shape self _ d pre "x" "gz" E Hp) as (r & _ & _ & H);
      try done. by left.
Qed.

End ResolverFacts.

(** ** The download *)

Module IOFacts.
Import Py PyFacts posixpath PathFacts.

Section Emits.
Context {A B : Type}.

Lemma emits_silent (m : M A) :
  (forall w, wire (snd (m w)) = wire w) -> emits m 0 [].
Proof.
  intros H w. exists 0%nat. rewrite H, app_nil_r. repeat split; simpl; lia || done.
Qed.

Lemma emits_bind (m : M A) (f : A -> M B) n n' L1 L2 :
  emits m n L1 ->
  (forall a, (exists w, fst (m w) = Ok a) -> emits (f a) n' L2) ->
  emits (bind m f) n (L1 ++ L2).
Proof.
  intros Hm Hf w. unfold bind.
  destruct (Hm w) as (k & Hk & Hw & Hok).
  destruct (m w) as [[a|e] w1] eqn:E; simpl in *.
  - specialize (Hok a eq_refl). subst k.
    destruct (Hf a (ex_intro _ w (f_equal fst E)) w1) as (k2 & Hk2 & Hw2 & Hok2).
    exists (length L1 + k2)%nat. rewrite List.length_app. split; [lia|]. split.
    + rewrite Hw2, Hw, firstn_all.
      rewrite take_app_add'; [|done]. by rewrite <- (assoc (++)).
    + intros b Hb. specialize (Hok2 b Hb). lia.
  - exists k. rewrite List.length_app. split; [lia|split; [|done]].
    rewrite Hw. f_equal. by rewrite take_app_le by lia.
Qed.

Lemma emits_bind_quiet (m : M A) (f : A -> M B) n L :
  (forall w, wire (snd (m w)) = wire w /\ exists a, fst (m w) = Ok a) ->
  (forall a, emits (f a) n L) -> emits (bind m f) n L.
Proof.
  intros Hm Hf w. unfold bind. destruct (Hm w) as [Hw [a Ha]].
  destruct (m w) as [[a'|e] w1]; simpl in *; [|done].
  rewrite <- Hw. apply Hf.
Qed.

Lemma emits_try (m : M A) (h : exn -> option (M A)) n L :
  emits m n L -> (forall e k, h e = Some k -> emits k 0 []) ->
  (forall e k w a, h e = Some k -> fst (k w) <> Ok a) ->
  emits (try_except m h) n L.
Proof.
  intros Hm Hh Hraise w. unfold try_except.
  destruct (Hm w) as (k & Hk & Hw & Hok).
  destruct (m w) as [[a|e] w1]; simpl in *.
  - exists k. done.
  - destruct (h e) as [c|] eqn:E; simpl.
    + destruct (Hh e c E w1) as (k2 & Hk2 & Hw2 & _). simpl in *.
      exists k. split; [done|]. split.
      * rewrite Hw2, Hw, take_nil, app_nil_r. done.
      * intros a Ha. destruct (Hraise e c w1 a E Ha).
    + exists k. done.
Qed.

End Emits.

Lemma emits_send env host c : emits (send env host c) 1 [(host, c)].
Proof.
  intros w. exists 1%nat. unfold send.
  destruct (reply env host c); simpl; repeat split; lia || done.
Qed.

Lemma emits_eq {A} (m : M A) n L L' : emits m n L -> L = L' -> emits m n L'.
Proof. by intros H <-. Qed.

Lemma emits_if {A} (b : bool) (m1 m2 : M A) n L :
  (b = true -> emits m1 n L) -> (b = false -> emits m2 n L) ->
  emits (if b then m1 else m2) n L.
Proof. destruct b; auto. Qed.

Ltac unfold_io :=
  unfold open_socket, open_wb, open_rb, write, read,
    ret, raise, print, os.remove, os.isfile, ftp_close, set_fs.

Ltac silent := apply emits_silent; intros; unfold_io; repeat case_match; done.

Lemma FTP_new_value env tls host w ftp :
  fst (FTP_new env tls host w) = Ok ftp -> ftp_host ftp = host /\ ftp_tls ftp = tls.
Proof.
  unfold FTP_new, bind, send, open_socket, ret.
  destruct (reply env host CONNECT); simpl; [done|]. by intros [= <-].
Qed.

Lemma emits_FTP_new env tls host : emits (FTP_new env tls host) 1 [(host, CONNECT)].
Proof.
  unfold FTP_new.
  apply (emits_bind _ _ 1 0 [(host, CONNECT)] []); [apply emits_send|intros _ _].
  apply (emits_bind _ _ 0 0 [] []); [silent|intros; silent].
Qed.

Lemma emits_connect env url secure :
  emits (connect env url secure) 1 (map (pair url) (handshake secure)).
Proof.
  unfold connect, ftp_login, ftp_prot_p. destruct secure.
  - apply (emits_bind _ _ 1 1 [(url, CONNECT)] [(url, AUTH_TLS); (url, LOGIN); (url, PROT_P)]);
      [apply emits_FTP_new|].
    intros ftp [w [-> ->]%FTP_new_value].
    apply (emits_bind _ _ 1 1 [(url, AUTH_TLS); (url, LOGIN)] [(url, PROT_P)]).
    + apply (emits_bind _ _ 1 1 [(url, AUTH_TLS)] [(url, LOGIN)]); intros; apply emits_send.
    + intros _ _. apply (emits_bind _ _ 1 0 [(url, PROT_P)] []);
        [apply emits_send| intros; silent].
  - apply (emits_bind _ _ 1 1 [(url, CONNECT)] [(url, LOGIN)]); [apply emits_FTP_new|].
    intros ftp [w [-> ->]%FTP_new_value].
    apply (emits_bind _ _ 1 0 [(url, LOGIN)] []); [|intros; silent].
    apply emits_bind_quiet; [intros w0; split; [done|by eexists]|intros; apply emits_send].
Qed.

Lemma connect_value env url secure w ftp :
  fst (connect env url secure w) = Ok ftp -> ftp_host ftp = url.
Proof.
  unfold connect, bind. destruct secure.
  - destruct (FTP_new env true url w) as [[f|e] w1] eqn:E; [|done].
    apply (f_equal fst), FTP_new_value in E as [E _]. simpl.
    destruct (ftp_login env f w1) as [[[]|e] w2]; [|done].
    destruct (ftp_prot_p env f w2) as [[[]|e] w3]; [|done].
    simpl. by intros [= <-].
  - destruct (FTP_new env false url w) as [[f|e] w1] eqn:E; [|done].
    apply (f_equal fst), FTP_new_value in E as [E _]. simpl.
    destruct (ftp_login env f w1) as [[[]|e] w2]; [|done].
    simpl. by intros [= <-].
Qed.

(** Decompression touches the local files only. *)
Lemma decompress_file_frame env p w :
  wire (snd (decompress_file env p w)) = wire w /\
  socks (snd (decompress_file env p w)) = socks w /\
  next_sock (snd (decompress_file env p w)) = next_sock w /\
  stdout (snd (decompress_file env p w)) = stdout w.
Proof.
  unfold decompress_file, bind. unfold_io.
  repeat case_match; simplify_eq; cbn; done.
Qed.

Lemma emits_retrbinary env ftp cmd handle :
  emits (ftp_retrbinary env ftp cmd (write handle)) 1 [(ftp_host ftp, CMD cmd)].
Proof.
  intros w. exists 1%nat. unfold ftp_retrbinary, bind, write, raise, ret.
  destruct (reply env (ftp_host ftp) (CMD cmd)); simpl; repeat split; lia || done.
Qed.

(** The commands of a download are an initial part of the session its
    host fixes, and the whole session when the download returns. *)
Lemma emits_retrieve_file env self url directory filename dest :
  emits (retrieve_file env self url directory filename dest) 1
    (session url (directory +:+ "/" +:+ filename)).
Proof.
  unfold retrieve_file, session. fold NASA_HOST.
  set (src := directory +:+ "/" +:+ filename).
  set (hs := map (pair url) (handshake (bool_decide (url = NASA_HOST)))).
  apply (emits_eq _ _ (hs ++ [(url, CMD ("RETR " +:+ src))] ++ [(url, QUIT)] ++ [])).
  2:{ unfold hs, session_cmds. by rewrite map_app. }
  apply emits_bind_quiet.
  { intros w. destruct (verbose self); (split; [done|by eexists]). }
  intros _.
  apply (emits_bind _ _ 1 1 hs _); [apply emits_connect|].
  intros ftp [w <-%connect_value].
  apply (emits_bind _ _ 1 1 [_] _).
  { apply emits_try.
    - apply emits_bind_quiet; [intros w0; split; [done|by eexists]|].
      intros; apply emits_retrbinary.
    - intros e k Hk. destruct e; simplify_eq.
      apply (emits_bind _ _ 0 0 [] []); [silent|intros; silent].
    - intros e k w' a Hk. destruct e; simplify_eq.
      unfold bind, os.remove, raise. by repeat case_match. }
  intros _ _.
  apply (emits_bind _ _ 1 0 [_] []).
  { unfold ftp_quit. apply (emits_bind _ _ 1 0 [_] []); [apply emits_send|intros; silent]. }
  intros _ _.
  apply (emits_bind _ _ 0 0 [] []); [silent|].
  intros _ _. apply emits_silent. intros w'. apply decompress_file_frame.
Qed.

(** *** Scenarios *)

Lemma world_eta w : mk_World (fs w) (socks w) (next_sock w) (wire w) (stdout w) = w.
Proof. by destruct w. Qed.

Lemma prologue_eq self url directory filename w :
  (if verbose self
   then print ("Retrieving " +:+ directory +:+ "/" +:+ filename +:+ " from " +:+ url)
   else ret tt) w =
  (Ok tt, mk_World (fs w) (socks w) (next_sock w) (wire w)
                   (stdout w ++ announce self url directory filename)).
Proof.
  unfold announce. destruct (verbose self); [done|].
  unfold ret. by rewrite app_nil_r, world_eta.
Qed.

(** A connection whose handshake is answered positively. *)
Lemma connect_ok env url secure w :
  (forall c, c ∈ handshake secure -> reply env url c = None) ->
  connect env url secure w =
  (Ok {| ftp_host := url; ftp_tls := secure; ftp_sock := next_sock w |},
   mk_World (fs w) (next_sock w :: socks w) (S (next_sock w))
            (wire w ++ map (pair url) (handshake secure)) (stdout w)).
Proof.
  intros H. unfold connect, FTP_new, ftp_login, ftp_prot_p, bind, send, open_socket, ret.
  destruct secure; cbn [ftp_host ftp_tls handshake] in *.
  - repeat (rewrite H by set_solver; cbn).
    by rewrite <- !(assoc (++)).
  - repeat (rewrite H by set_solver; cbn).
    by rewrite <- !(assoc (++)).
Qed.

(** The transfer into the freshly opened local file. *)
Lemma transfer_eq env ftp cmd dest w :
  (let! handle := open_wb dest in ftp_retrbinary env ftp cmd (write handle)) w =
  (match reply env (ftp_host ftp) (CMD cmd) with
   | Some e => Raise e
   | None => Ok tt
   end,
   mk_World (<[dest := retr_data env (ftp_host ftp) cmd]> (fs w)) (socks w) (next_sock w)
            (wire w ++ [(ftp_host ftp, CMD cmd)]) (stdout w)).
Proof.
  unfold bind, open_wb, ftp_retrbinary, write, raise, ret, set_fs.
  cbn [fs socks next_sock wire stdout].
  assert (E : alter (fun old => old ++ retr_data env (ftp_host ftp) cmd) dest
                    (<[dest:=[]]> (fs w))
              = <[dest := retr_data env (ftp_host ftp) cmd]> (fs w)).
  { apply map_eq. intros i. destruct (decide (i = dest)) as [->|].
    - by rewrite lookup_alter_eq, !lookup_insert_eq.
    - by rewrite lookup_alter_ne, !lookup_insert_ne. }
  destruct (reply env (ftp_host ftp) (CMD cmd)); cbn; by rewrite E.
Qed.

(** The world left by a download that the server refuses with a
    permission error. *)
Lemma retrieve_file_refused env self url directory filename dest w msg :
  let src := directory +:+ "/" +:+ filename in
  (forall c, c ∈ handshake (bool_decide (url = NASA_HOST)) -> reply env url c = None) ->
  reply env url (CMD ("RETR " +:+ src)) = Some (error_perm msg) ->
  retrieve_file env self url directory filename dest w =
  (Raise (error_perm (msg +:+ " Failed to retrieve " +:+ src +:+ " from " +:+ url)),
   mk_World (delete dest (fs w)) (next_sock w :: socks w) (S (next_sock w))
            (wire w ++ map (pair url) (handshake (bool_decide (url = NASA_HOST)))
                    ++ [(url, CMD ("RETR " +:+ src))])
            (stdout w ++ announce self url directory filename)).
Proof.
  intros src Hhs Hretr. unfold retrieve_file. fold NASA_HOST. fold src.
  unfold bind at 1. rewrite prologue_eq.
  unfold bind at 1. rewrite connect_ok by done.
  unfold bind at 1. unfold try_except. rewrite transfer_eq.
  cbn [ftp_host]. rewrite Hretr.
  unfold bind, os.remove, raise, set_fs. cbn [fs socks next_sock wire stdout].
  rewrite lookup_insert_eq. by rewrite delete_insert_eq, <- (assoc (++)).
Qed.

(** A download that the server serves is the decompression of the
    bytes received, the control connection being closed. *)
Lemma retrieve_file_served env self url directory filename dest w :
  let src := directory +:+ "/" +:+ filename in
  (forall c, c ∈ session_cmds url src -> reply env url c = None) ->
  retrieve_file env self url directory filename dest w =
  decompress_file env dest
    (mk_World (<[dest := retr_data env url ("RETR " +:+ src)]> (fs w))
              (filter (fun s => s <> next_sock w) (socks w)) (S (next_sock w))
              (wire w ++ session url src)
              (stdout w ++ announce self url directory filename)).
Proof.
  intros src H. unfold session_cmds in H.
  assert (Hhs : forall c, c ∈ handshake (bool_decide (url = NASA_HOST)) ->
                          reply env url c = None).
  { intros c Hc. apply H. set_solver. }
  assert (Hretr : reply env url (CMD ("RETR " +:+ src)) = None).
  { apply H. set_solver. }
  assert (Hquit : reply env url QUIT = None).
  { apply H. set_solver. }
  unfold retrieve_file. fold NASA_HOST. fold src.
  unfold bind at 1. rewrite prologue_eq.
  unfold bind at 1. rewrite connect_ok by done.
  unfold bind at 1. unfold try_except. rewrite transfer_eq.
  cbn [ftp_host]. rewrite Hretr.
  unfold ftp_quit, ftp_close, bind, send.
  cbn [fs socks next_sock wire stdout ftp_host ftp_sock]. rewrite Hquit.
  cbn [fs socks next_sock wire stdout ftp_host ftp_sock].
  f_equal. f_equal.
  - rewrite filter_cons_False by (intros ?; done).
    by rewrite list_filter_filter_l by done.
  - unfold session, session_cmds. rewrite map_app. cbn [map].
    by rewrite <- !(assoc (++)).
Qed.

End IOFacts.

(** ** Cache look-up, decompression and the selection of files *)

Module FetchFacts.
Import Py PyFacts posixpath PathFacts ResolverFacts IOFacts.

Lemma take_drop_str n s : take_str n s +:+ drop_str n s = s.
Proof.
  revert s. induction n as [|n IH]; intros [|a s]; try done.
  cbn [take_str drop_str]. rewrite sapp_cons. by rewrite IH.
Qed.

(** [splitext] cuts its argument in two. *)
Lemma splitext_concat p : fst (splitext p) +:+ snd (splitext p) = p.
Proof.
  unfold splitext. destruct (_ && _); cbn [fst snd].
  - apply take_drop_str.
  - induction p as [|a p IH]; [done|]. rewrite sapp_cons. by rewrite IH.
Qed.

Lemma splitext_root_neq p :
  snd (splitext p) <> "" -> fst (splitext p) <> p.
Proof.
  intros Hext Heq. pose proof (splitext_concat p) as H. rewrite Heq in H.
  apply (f_equal String.length) in H. rewrite strlen_app in H.
  destruct (snd (splitext p)); [done|]. simpl in H. lia.
Qed.

Lemma bind_ok_inv {A B} (m : M A) (f : A -> M B) w b w' :
  bind m f w = (Ok b, w') -> exists a w1, m w = (Ok a, w1) /\ f a w1 = (Ok b, w').
Proof.
  unfold bind. destruct (m w) as [[a|e] w1]; [|done]. intros H. by exists a, w1.
Qed.

Lemma bind_ret_r {A} (m : M A) w : (let! a := m in ret a) w = m w.
Proof. unfold bind, ret. by destruct (m w) as [[a|e] w']. Qed.

(** *** decompress_file *)

(** With a suffix other than [.gz] and [.Z] the download is removed
    and nothing else happens. *)
Lemma decompress_file_other env p w :
  snd (splitext p) <> ".gz" -> snd (splitext p) <> ".Z" ->
  is_Some (fs w !! p) ->
  decompress_file env p w = (Ok tt, set_fs (delete p) w).
Proof.
  intros Hgz HZ [d Hd]. unfold decompress_file.
  destruct (String.eqb_spec (snd (splitext p)) ".gz") as [|_]; [done|].
  destruct (String.eqb_spec (snd (splitext p)) ".Z") as [|_]; [done|].
  unfold bind, ret, os.remove. by rewrite Hd.
Qed.

(** With the suffix [.gz] or [.Z], a decompression that returns has
    written the decompressed file. *)
Lemma decompress_file_written env p w :
  snd (splitext p) = ".gz" \/ snd (splitext p) = ".Z" ->
  fst (decompress_file env p w) = Ok tt ->
  is_Some (fs (snd (decompress_file env p w)) !! fst (splitext p)).
Proof.
  intros Hext. assert (Hne : fst (splitext p) <> p).
  { apply splitext_root_neq. by destruct Hext as [-> | ->]. }
  unfold decompress_file.
  unfold bind, open_rb, open_wb, read, write, ret, raise, os.remove, set_fs.
  destruct Hext as [-> | ->]; cbn [String.eqb Ascii.eqb Bool.eqb andb].
  - destruct (fs w !! p) as [d|] eqn:Hd; [|done].
    cbn [fs socks next_sock wire stdout].
    destruct (snd (gunzip env _)); [done|].
    cbn [fs socks next_sock wire stdout].
    rewrite lookup_alter_ne, lookup_insert_ne, Hd by done.
    cbn [fs snd]. intros _.
    rewrite lookup_delete_ne, lookup_alter_eq, lookup_insert_eq by done. by eexists.
  - destruct (fs w !! p) as [d|] eqn:Hd; [|done].
    cbn [fs socks next_sock wire stdout].
    destruct (unlzw env _); [|done].
    cbn [fs socks next_sock wire stdout].
    rewrite lookup_alter_ne, lookup_insert_ne, Hd by done.
    cbn [fs snd]. intros _.
    rewrite lookup_delete_ne, lookup_alter_eq, lookup_insert_eq by done. by eexists.
Qed.

(** *** get_rinex_path *)

(** Cache hit: the path is returned and the world is left as it is. *)
Lemma get_rinex_path_hit env self fi w :
  is_Some (fs w !! rinex_path_of self fi) ->
  get_rinex_path env self fi w = (Ok (rinex_path_of self fi), w).
Proof.
  intros H. unfold get_rinex_path, bind, os.isfile, ret.
  by rewrite bool_decide_true.
Qed.

(** The value returned is fixed by the descriptor. *)
Lemma get_rinex_path_value env self fi w p w' :
  get_rinex_path env self fi w = (Ok p, w') -> p = rinex_path_of self fi.
Proof.
  unfold get_rinex_path, bind, os.isfile, ret.
  destruct (negb _).
  - destruct (retrieve_file _ _ _ _ _ _ _) as [[[]|e] w1]; [|done]. by intros [= <- _].
  - by intros [= <- _].
Qed.

Lemma retrieve_file_last env self url directory filename dest w w' :
  retrieve_file env self url directory filename dest w = (Ok tt, w') ->
  exists w2, decompress_file env dest w2 = (Ok tt, w').
Proof.
  unfold retrieve_file.
  intros (? & ? & _ & H)%bind_ok_inv.
  apply bind_ok_inv in H as (? & ? & _ & H).
  apply bind_ok_inv in H as (? & ? & _ & H).
  apply bind_ok_inv in H as (? & ? & _ & H).
  apply bind_ok_inv in H as (? & ? & _ & H).
  by eexists.
Qed.

(** After a call that returned, for a download named [.gz] or [.Z],
    the decompressed file is on disk. *)
Lemma get_rinex_path_on_disk env self fi w p w' :
  snd (splitext (dest_filepath_of self fi)) = ".gz" \/
  snd (splitext (dest_filepath_of self fi)) = ".Z" ->
  get_rinex_path env self fi w = (Ok p, w') ->
  is_Some (fs w' !! p).
Proof.
  intros Hext H. pose proof (get_rinex_path_value _ _ _ _ _ _ H) as ->.
  revert H. unfold get_rinex_path, bind, os.isfile, ret.
  destruct (bool_decide_reflect (is_Some (fs w !! rinex_path_of self fi))) as [Hin|Hout];
    cbn [negb].
  - by intros [= <-].
  - destruct (retrieve_file _ _ _ _ _ _ _) as [[[]|e] w1] eqn:E; [|done].
    intros [= <-]. apply retrieve_file_last in E as [w2 E].
    pose proof (decompress_file_written env _ w2 Hext) as Hw.
    rewrite E in Hw. by apply Hw.
Qed.

(** *** The loop over descriptors *)

Lemma for_append_value env self xs acc w ps w' :
  for_append (get_rinex_path env self) xs acc w = (Ok ps, w') ->
  ps = acc ++ map (rinex_path_of self) xs.
Proof.
  revert acc w. induction xs as [|x xs IH]; intros acc w; cbn [for_append map].
  - unfold ret. intros [= <- _]. by rewrite app_nil_r.
  - intros (p & w1 & Hp & H)%bind_ok_inv.
    apply get_rinex_path_value in Hp as ->. apply IH in H as ->.
    by rewrite <- (assoc (++)).
Qed.

Lemma for_append_hit env self xs acc w :
  (forall fi, fi ∈ xs -> is_Some (fs w !! rinex_path_of self fi)) ->
  for_append (get_rinex_path env self) xs acc w =
  (Ok (acc ++ map (rinex_path_of self) xs), w).
Proof.
  revert acc. induction xs as [|x xs IH]; intros acc H; cbn [for_append map].
  - by rewrite app_nil_r.
  - unfold bind. rewrite get_rinex_path_hit by (apply H; left).
    rewrite IH by (intros fi Hfi; apply H; by right).
    by rewrite <- (assoc (++)).
Qed.

Lemma for_append_app {A B} (f : A -> M B) xs ys acc w :
  for_append f (xs ++ ys) acc w =
  (let! acc' := for_append f xs acc in for_append f ys acc') w.
Proof.
  revert acc w. induction xs as [|x xs IH]; intros acc w; [done|].
  cbn [for_append app]. unfold bind in *.
  destruct (f x w) as [[y|e] w1]; [|done]. apply IH.
Qed.

Lemma append_rinex_path_eq env self fps key fi acc :
  Dict.get fps key = Some fi ->
  append_rinex_path env self fps key acc =
  for_append (get_rinex_path env self) [fi] acc.
Proof.
  intros H. unfold append_rinex_path, getitem. rewrite H. done.
Qed.

(** *** The selection made by load_data *)

Lemma legacy_only_subseteq (cs : gset string) :
  Nat.eqb (size (cs ∖ {[ "G"; "R" ]})) 0 = bool_decide (cs ⊆ Spec.legacy).
Proof.
  unfold Spec.legacy.
  destruct (bool_decide_reflect (cs ⊆ {[ "G"; "R" ]})) as [H|H].
  - apply Nat.eqb_eq, size_empty_iff. set_solver.
  - apply Nat.eqb_neq. intros E%size_empty_iff. apply H. intros x Hx.
    destruct (decide (x ∈ ({[ "G"; "R" ]} : gset string))) as [|Hn]; [done|].
    exfalso. apply (not_elem_of_empty (C:=gset string) x), E. set_solver.
Qed.

(** The legacy systems of a request, counted. *)
Lemma size_legacy_part (cs : gset string) :
  size (cs ∩ Spec.legacy) =
  ((if bool_decide ("G" ∈ cs) then 1 else 0) +
   (if bool_decide ("R" ∈ cs) then 1 else 0))%nat.
Proof.
  unfold Spec.legacy.
  destruct (bool_decide_reflect ("G" ∈ cs)) as [HG|HG];
    destruct (bool_decide_reflect ("R" ∈ cs)) as [HR|HR].
  - replace (cs ∩ {[ "G"; "R" ]}) with ({[ "G" ]} ∪ {[ "R" ]} : gset string) by set_solver.
    rewrite size_union by set_solver. by rewrite !size_singleton.
  - replace (cs ∩ {[ "G"; "R" ]}) with ({[ "G" ]} : gset string) by set_solver.
    by rewrite size_singleton.
  - replace (cs ∩ {[ "G"; "R" ]}) with ({[ "R" ]} : gset string) by set_solver.
    by rewrite size_singleton.
  - replace (cs ∩ {[ "G"; "R" ]}) with (∅ : gset string) by set_solver.
    by rewrite size_empty.
Qed.

(** The descriptors selected for a request: all files of the day when
    no constellation set is given; otherwise the case analysis of
    [load_data]. *)
Lemma load_data_all env self ts same_day w :
  load_data env self ts None same_day w =
  for_append (get_rinex_path env self) (day_files ts) [] w.
Proof. reflexivity. Qed.

Lemma load_data_historical_legacy env self ts cs w :
  cs ⊆ Spec.legacy ->
  load_data env self ts (Some cs) false w =
  for_append (get_rinex_path env self)
    ((if bool_decide ("G" ∈ cs) then [Spec.gps_only ts (get_filetype ts)] else []) ++
     (if bool_decide ("R" ∈ cs) then [Spec.glonass_only ts (get_filetype ts)] else []))
    [] w.
Proof.
  intros H. unfold load_data. rewrite legacy_only_subseteq, bool_decide_true by done.
  cbn [negb]. rewrite for_append_app.
  rewrite (append_rinex_path_eq _ _ _ _ (Spec.gps_only ts (get_filetype ts))) by done.
  destruct (bool_decide ("G" ∈ cs)), (bool_decide ("R" ∈ cs)).
  - unfold bind at 1 3. destruct (for_append _ _ _ _) as [[acc|e] w1]; [|done].
    rewrite (append_rinex_path_eq _ _ _ _ (Spec.glonass_only ts (get_filetype ts))) by done.
    apply bind_ret_r.
  - unfold bind at 1 3. destruct (for_append _ _ _ _) as [[acc|e] w1]; done.
  - unfold bind at 1 3, ret at 1. cbn [for_append].
    rewrite (append_rinex_path_eq _ _ _ _ (Spec.glonass_only ts (get_filetype ts))) by done.
    apply bind_ret_r.
  - done.
Qed.

Lemma load_data_historical_other env self ts cs w :
  ~ cs ⊆ Spec.legacy ->
  load_data env self ts (Some cs) false w =
  for_append (get_rinex_path env self) [Spec.combined_primary ts] [] w.
Proof.
  intros H. unfold load_data. rewrite legacy_only_subseteq, bool_decide_false by done.
  cbn [negb]. by rewrite (append_rinex_path_eq _ _ _ _ (Spec.combined_primary ts)).
Qed.

Lemma load_data_same_day env self ts cs w :
  load_data env self ts (Some cs) true w =
  for_append (get_rinex_path env self)
    [if bool_decide (cs ⊆ Spec.legacy /\ "G" ∈ cs)
     then Spec.gps_only ts (get_filetype ts) else Spec.combined_secondary ts] [] w.
Proof.
  unfold load_data. rewrite legacy_only_subseteq. cbn [negb].
  destruct (bool_decide_reflect (cs ⊆ Spec.legacy)) as [H1|H1];
    destruct (bool_decide_reflect ("G" ∈ cs)) as [H2|H2]; cbn [andb].
  - rewrite bool_decide_true by done.
    by rewrite (append_rinex_path_eq _ _ _ _ (Spec.gps_only ts (get_filetype ts))).
  - rewrite bool_decide_false by tauto.
    by rewrite (append_rinex_path_eq _ _ _ _ (Spec.combined_secondary ts)).
  - rewrite bool_decide_false by tauto.
    by rewrite (append_rinex_path_eq _ _ _ _ (Spec.combined_secondary ts)).
  - rewrite bool_decide_false by tauto.
    by rewrite (append_rinex_path_eq _ _ _ _ (Spec.combined_secondary ts)).
Qed.

End FetchFacts.

(** ** Selection of files by load_data *)

Import Py PyFacts posixpath PathFacts ResolverFacts IOFacts FetchFacts.

Lemma hosts_differ : NASA_HOST <> BKG_HOST.
Proof. done. Qed.

Lemma gps_glonass_differ ts ext : Spec.gps_only ts ext <> Spec.glonass_only ts ext.
Proof.
  unfold Spec.gps_only, Spec.glonass_only. intros [= H].
  repeat apply (inj (String.app _)) in H. done.
Qed.

(** C1, as the code has it. With no constellation set, [load_data]
    fetches every file of the day, in the order of [get_filepaths]:
    the combined file, the GPS-only file and the GLONASS-only file of
    the primary archive, and the combined file of the secondary
    archive. It returns four paths whenever it returns, and it returns
    without any effect when the four files are cached. *)
Theorem load_data_all_files env self ts same_day :
  let L := [ Spec.combined_primary ts; Spec.gps_only ts (get_filetype ts);
             Spec.glonass_only ts (get_filetype ts); Spec.combined_secondary ts ] in
  Dict.values (get_filepaths ts) = L /\
  map url L = [NASA_HOST; NASA_HOST; NASA_HOST; BKG_HOST] /\
  (forall w, load_data env self ts None same_day w =
             for_append (get_rinex_path env self) L [] w) /\
  (forall w ps w', load_data env self ts None same_day w = (Ok ps, w') ->
                   ps = map (rinex_path_of self) L /\ length ps = 4%nat) /\
  (forall w, (forall fi, fi ∈ L -> is_Some (fs w !! rinex_path_of self fi)) ->
             load_data env self ts None same_day w = (Ok (map (rinex_path_of self) L), w)).
Proof.
  intros L. split; [done|]. split; [done|]. split; [done|]. split.
  - intros w ps w' H. rewrite load_data_all in H.
    apply for_append_value in H as ->. done.
  - intros w H. rewrite load_data_all. by apply for_append_hit.
Qed.

Lemma load_data_all_files_witness :
  load_data Sample.serving Sample.self Sample.ts None false Sample.cached_world =
    (Ok [ "data/ephemeris/nasa/BRDC00IGS_R_20230740000_01D_MN.rnx";
          "data/ephemeris/nasa/brdc0740.23n";
          "data/ephemeris/nasa/brdc0740.23g";
          "data/ephemeris/igs/BRDC00WRD_S_20230740000_01D_MN.rnx" ],
     Sample.cached_world).
Proof.
  refine (proj2 (proj2 (proj2 (proj2
    (load_data_all_files Sample.serving Sample.self Sample.ts false))))
    Sample.cached_world _).
  intros fi Hfi.
  repeat (apply elem_of_cons in Hfi as [-> | Hfi]);
    [..|by apply elem_of_nil in Hfi]; vm_compute; by eexists.
Defined.

(** The request of all constellations at 2023-03-15T05:00:00Z with an
    empty cache downloads four files, the last one from the secondary
    archive: not three files, and not from the primary archive
    alone. *)
Lemma load_data_all_files_counterexample :
  let r := load_data Sample.serving Sample.self Sample.ts None false
             Sample.empty_world in
  fst r = Ok [ "data/ephemeris/nasa/BRDC00IGS_R_20230740000_01D_MN.rnx";
               "data/ephemeris/nasa/brdc0740.23n";
               "data/ephemeris/nasa/brdc0740.23g";
               "data/ephemeris/igs/BRDC00WRD_S_20230740000_01D_MN.rnx" ] /\
  (BKG_HOST, CMD "RETR /IGS/BRDC/2023/074/BRDC00WRD_S_20230740000_01D_MN.rnx.gz")
    ∈ wire (snd r) /\
  ~ (exists ps, fst r = Ok ps /\ length ps = 3%nat).
Proof.
  cbn zeta. split; [by vm_compute|]. split.
  - apply (bool_decide_unpack _). by vm_compute.
  - intros (ps & H & Hlen). vm_compute in H. injection H as <-. done.
Qed.

(** C2, as the code has it. A same-day request with a constellation
    set fetches exactly one file: the GPS-only file of the primary
    archive if and only if the set holds G and nothing outside G and
    R, and the combined file of the secondary archive otherwise. *)
Theorem load_data_same_day_choice env self ts (cs : gset string) :
  let gps := Spec.gps_only ts (get_filetype ts) in
  let sec := Spec.combined_secondary ts in
  let fi := if bool_decide (cs ⊆ Spec.legacy /\ "G" ∈ cs) then gps else sec in
  Dict.get (get_filepaths ts) "nasa_daily_gps" = Some gps /\
  Dict.get (get_filepaths ts) "bkg_daily_combined" = Some sec /\
  url gps = NASA_HOST /\ url sec = BKG_HOST /\
  (fi = gps <-> cs ⊆ Spec.legacy /\ "G" ∈ cs) /\
  (fi = sec <-> ~ (cs ⊆ Spec.legacy /\ "G" ∈ cs)) /\
  (forall w, load_data env self ts (Some cs) true w =
             for_append (get_rinex_path env self) [fi] [] w) /\
  (forall w ps w', load_data env self ts (Some cs) true w = (Ok ps, w') ->
                   ps = [rinex_path_of self fi]) /\
  (forall w, is_Some (fs w !! rinex_path_of self fi) ->
             load_data env self ts (Some cs) true w = (Ok [rinex_path_of self fi], w)).
Proof.
  intros gps sec fi.
  assert (Hne : gps <> sec) by (intros [= _ H]; done).
  do 4 (split; [done|]). split; [|split; [|split; [|split]]].
  - unfold fi. destruct (bool_decide_reflect (cs ⊆ Spec.legacy /\ "G" ∈ cs)); [done|].
    split; [|done]. intros H. by destruct Hne.
  - unfold fi. destruct (bool_decide_reflect (cs ⊆ Spec.legacy /\ "G" ∈ cs)); [|done].
    split; [|done]. intros H. by destruct Hne.
  - intros w. apply load_data_same_day.
  - intros w ps w' H. rewrite load_data_same_day in H.
    by apply for_append_value in H as ->.
  - intros w H. rewrite load_data_same_day.
    rewrite for_append_hit; [done|]. by intros ? ->%list_elem_of_singleton.
Qed.

Lemma load_data_same_day_choice_witness :
  load_data Sample.serving Sample.self Sample.ts (Some {[ "E" ]}) true
    Sample.cached_world =
  (Ok ["data/ephemeris/igs/BRDC00WRD_S_20230740000_01D_MN.rnx"], Sample.cached_world).
Proof.
  refine (proj2 (proj2 (proj2 (proj2 (proj2 (proj2 (proj2 (proj2
    (load_data_same_day_choice Sample.serving Sample.self Sample.ts {[ "E" ]}))))))))
    Sample.cached_world _).
  vm_compute. by eexists.
Defined.

(** A same-day request for GPS and GLONASS downloads the GPS-only
    file from the primary archive, although the set is not {G}. *)
Lemma load_data_same_day_counterexample :
  let cs : gset string := {[ "G"; "R" ]} in
  let r := load_data Sample.serving Sample.self Sample.ts (Some cs) true
             Sample.empty_world in
  cs <> {[ "G" ]} /\
  fst r = Ok ["data/ephemeris/nasa/brdc0740.23n"] /\
  wire (snd r) = session NASA_HOST "gnss/data/daily/2023/brdc/brdc0740.23n.gz".
Proof.
  cbn zeta. split; [|split; by vm_compute].
  intros H. assert (Hin : "R" ∈ ({[ "G"; "R" ]} : gset string)) by set_solver.
  rewrite H in Hin. set_solver.
Qed.

(** C3. A historical request whose set lies within G and R fetches
    the GPS-only file iff G is requested and then the GLONASS-only
    file iff R is requested, as many files as there are legacy systems
    in the set; any other historical request fetches the combined
    file of the primary archive and nothing else. *)
Theorem load_data_historical env self ts (cs : gset string) :
  let gps := Spec.gps_only ts (get_filetype ts) in
  let glo := Spec.glonass_only ts (get_filetype ts) in
  let comb := Spec.combined_primary ts in
  let L := (if bool_decide ("G" ∈ cs) then [gps] else []) ++
           (if bool_decide ("R" ∈ cs) then [glo] else []) in
  Dict.get (get_filepaths ts) "nasa_daily_gps" = Some gps /\
  Dict.get (get_filepaths ts) "nasa_daily_glonass" = Some glo /\
  Dict.get (get_filepaths ts) "nasa_daily_combined" = Some comb /\
  (cs ⊆ Spec.legacy ->
     length L = size (cs ∩ Spec.legacy) /\
     (gps ∈ L <-> "G" ∈ cs) /\ (glo ∈ L <-> "R" ∈ cs) /\
     (forall w, load_data env self ts (Some cs) false w =
                for_append (get_rinex_path env self) L [] w) /\
     (forall w ps w', load_data env self ts (Some cs) false w = (Ok ps, w') ->
                      ps = map (rinex_path_of self) L /\
                      length ps = size (cs ∩ Spec.legacy)) /\
     (forall w, (forall fi, fi ∈ L -> is_Some (fs w !! rinex_path_of self fi)) ->
                load_data env self ts (Some cs) false w =
                (Ok (map (rinex_path_of self) L), w))) /\
  (~ cs ⊆ Spec.legacy ->
     url comb = NASA_HOST /\
     (forall w, load_data env self ts (Some cs) false w =
                for_append (get_rinex_path env self) [comb] [] w) /\
     (forall w ps w', load_data env self ts (Some cs) false w = (Ok ps, w') ->
                      ps = [rinex_path_of self comb]) /\
     (forall w, is_Some (fs w !! rinex_path_of self comb) ->
                load_data env self ts (Some cs) false w =
                (Ok [rinex_path_of self comb], w))).
Proof.
  intros gps glo comb L. do 3 (split; [done|]). split.
  - intros Hsub.
    assert (Hlen : length L = size (cs ∩ Spec.legacy)).
    { rewrite size_legacy_part. unfold L.
      by destruct (bool_decide ("G" ∈ cs)), (bool_decide ("R" ∈ cs)). }
    pose proof (gps_glonass_differ ts (get_filetype ts)) as Hne. fold gps glo in Hne.
    split; [done|]. split; [|split; [|split; [|split]]].
    + unfold L. destruct (bool_decide_reflect ("G" ∈ cs)),
        (bool_decide_reflect ("R" ∈ cs)); set_solver.
    + unfold L. destruct (bool_decide_reflect ("G" ∈ cs)),
        (bool_decide_reflect ("R" ∈ cs)); set_solver.
    + intros w. by apply load_data_historical_legacy.
    + intros w ps w' H. rewrite load_data_historical_legacy in H by done.
      apply for_append_value in H as ->. cbn [app]. split; [done|].
      by rewrite List.length_map.
    + intros w H. rewrite load_data_historical_legacy by done.
      by apply for_append_hit.
  - intros Hsub. split; [done|]. split; [|split].
    + intros w. by apply load_data_historical_other.
    + intros w ps w' H. rewrite load_data_historical_other in H by done.
      by apply for_append_value in H as ->.
    + intros w H. rewrite load_data_historical_other by done.
      rewrite for_append_hit; [done|]. by intros ? ->%list_elem_of_singleton.
Qed.

Lemma load_data_historical_witness :
  load_data Sample.serving Sample.self Sample.ts (Some {[ "G"; "R" ]}) false
    Sample.cached_world =
  (Ok ["data/ephemeris/nasa/brdc0740.23n"; "data/ephemeris/nasa/brdc0740.23g"],
   Sample.cached_world) /\
  load_data Sample.serving Sample.self Sample.ts (Some {[ "E"; "G" ]}) false
    Sample.cached_world =
  (Ok ["data/ephemeris/nasa/BRDC00IGS_R_20230740000_01D_MN.rnx"], Sample.cached_world).
Proof.
  split.
  - assert (Hsub : ({[ "G"; "R" ]} : gset string) ⊆ Spec.legacy) by done.
    refine (proj2 (proj2 (proj2 (proj2 (proj2 (proj1 (proj2 (proj2 (proj2
      (load_data_historical Sample.serving Sample.self Sample.ts {[ "G"; "R" ]}))))
      Hsub))))) Sample.cached_world _).
    intros fi Hfi.
    repeat (apply elem_of_cons in Hfi as [-> | Hfi]);
      [..|by apply elem_of_nil in Hfi]; vm_compute; by eexists.
  - assert (Hsub : ~ ({[ "E"; "G" ]} : gset string) ⊆ Spec.legacy).
    { intros H. assert (Hin : "E" ∈ Spec.legacy) by (apply H; set_solver).
      unfold Spec.legacy in Hin. set_solver. }
    refine (proj2 (proj2 (proj2 (proj2 (proj2 (proj2 (proj2
      (load_data_historical Sample.serving Sample.self Sample.ts {[ "E"; "G" ]}))))
      Hsub))) Sample.cached_world _).
    vm_compute. by eexists.
Defined.

(** ** The format era *)

(** C4. For a timestamp before 2020-12-01T00:00:00Z the GPS-only and
    GLONASS-only names are built with the suffix [.Z], and from that
    instant on with [.gz]; the two combined names end in [.gz] at any
    time. The suffix is a function of the requested timestamp alone:
    [get_filetype] and [get_filepaths] read no clock. *)
Theorem filetype_by_era ts :
  Datetime.valid ts ->
  (Spec.before_switch ts -> get_filetype ts = ".Z") /\
  (~ Spec.before_switch ts -> get_filetype ts = ".gz") /\
  get_filepaths ts =
    [ ("nasa_daily_combined", Spec.combined_primary ts);
      ("nasa_daily_gps", Spec.gps_only ts (Spec.era_ext ts));
      ("nasa_daily_glonass", Spec.glonass_only ts (Spec.era_ext ts));
      ("bkg_daily_combined", Spec.combined_secondary ts) ] /\
  snd (splitext (filepath (Spec.gps_only ts (Spec.era_ext ts)))) = Spec.era_ext ts /\
  snd (splitext (filepath (Spec.glonass_only ts (Spec.era_ext ts)))) = Spec.era_ext ts /\
  snd (splitext (filepath (Spec.combined_primary ts))) = ".gz" /\
  snd (splitext (filepath (Spec.combined_secondary ts))) = ".gz".
Proof.
  intros Hv. pose proof (get_filetype_era ts Hv) as Hera.
  split; [|split; [|split; [|split; [|split; [|split]]]]].
  - intros Hb. rewrite Hera. unfold Spec.era_ext. by rewrite decide_True.
  - intros Hb. rewrite Hera. unfold Spec.era_ext. by rewrite decide_False.
  - rewrite get_filepaths_spec. by rewrite Hera.
  - unfold Spec.era_ext. destruct (decide (Spec.before_switch ts)).
    + destruct (gps_shape ts "Z") as (d & pre & E & Hp).
      by apply (remote_ext _ d pre "n" "Z").
    + destruct (gps_shape ts "gz") as (d & pre & E & Hp).
      by apply (remote_ext _ d pre "n" "gz").
  - unfold Spec.era_ext. destruct (decide (Spec.before_switch ts)).
    + destruct (glonass_shape ts "Z") as (d & pre & E & Hp).
      by apply (remote_ext _ d pre "g" "Z").
    + destruct (glonass_shape ts "gz") as (d & pre & E & Hp).
      by apply (remote_ext _ d pre "g" "gz").
  - destruct (combined_primary_shape ts) as (d & pre & E & Hp).
    by apply (remote_ext _ d pre "x" "gz").
  - destruct (combined_secondary_shape ts) as (d & pre & E & Hp).
    by apply (remote_ext _ d pre "x" "gz").
Qed.

Lemma valid_examples :
  Datetime.valid Sample.ts_old /\ Datetime.valid GZ_SWITCH /\
  Datetime.valid (mk_datetime 2020 11 30 23 59 59 999999).
Proof. repeat split; by vm_compute. Qed.

Lemma filetype_by_era_witness :
  get_filetype Sample.ts_old = ".Z" /\
  get_filetype (mk_datetime 2020 11 30 23 59 59 999999) = ".Z" /\
  get_filetype GZ_SWITCH = ".gz".
Proof.
  split; [|split].
  - apply (proj1 (filetype_by_era Sample.ts_old ltac:(repeat split; by vm_compute))).
    left. by vm_compute.
  - apply (proj1 (filetype_by_era (mk_datetime 2020 11 30 23 59 59 999999)
                    ltac:(repeat split; by vm_compute))).
    right. split; by vm_compute.
  - apply (proj1 (proj2 (filetype_by_era GZ_SWITCH ltac:(repeat split; by vm_compute)))).
    intros [H|[_ H]]; by vm_compute in H.
Defined.

(** ** The wire protocol *)

(** C5, as the code has it. The commands of a download depend on the
    host alone: for the host of the primary archive the connection is
    FTP over explicit TLS ([AUTH TLS], login, [PROT P]); for any other
    host, the host of the secondary archive among them, it is plain
    FTP. What a call sends is always an initial part of that session,
    and the whole session when the call returns. *)
Theorem retrieve_file_protocol env self url directory filename dest w :
  let src := directory +:+ "/" +:+ filename in
  let r := retrieve_file env self url directory filename dest w in
  (url = NASA_HOST ->
     session url src = [ (url, CONNECT); (url, AUTH_TLS); (url, LOGIN); (url, PROT_P);
                         (url, CMD ("RETR " +:+ src)); (url, QUIT) ]) /\
  (url <> NASA_HOST ->
     session url src = [ (url, CONNECT); (url, LOGIN);
                         (url, CMD ("RETR " +:+ src)); (url, QUIT) ]) /\
  (exists k, (1 <= k <= length (session url src))%nat /\
             wire (snd r) = wire w ++ take k (session url src)) /\
  (fst r = Ok tt -> wire (snd r) = wire w ++ session url src).
Proof.
  intros src r. split; [|split; [|split]].
  - intros Hu. unfold session, session_cmds. by rewrite bool_decide_true.
  - intros Hu. unfold session, session_cmds. by rewrite bool_decide_false.
  - destruct (emits_retrieve_file env self url directory filename dest w)
      as (k & Hk & Hw & _).
    by exists k.
  - intros Hok.
    destruct (emits_retrieve_file env self url directory filename dest w)
      as (k & Hk & Hw & Hall).
    fold src r in Hw, Hall. rewrite Hw, (Hall tt Hok). by rewrite firstn_all.
Qed.

Lemma retrieve_file_protocol_witness :
  wire (snd (retrieve_file Sample.serving Sample.self BKG_HOST "/IGS/BRDC/2023/074"
               "BRDC00WRD_S_20230740000_01D_MN.rnx.gz"
               "data/ephemeris/igs/BRDC00WRD_S_20230740000_01D_MN.rnx.gz"
               Sample.empty_world)) =
  [ (BKG_HOST, CONNECT); (BKG_HOST, LOGIN);
    (BKG_HOST, CMD "RETR /IGS/BRDC/2023/074/BRDC00WRD_S_20230740000_01D_MN.rnx.gz");
    (BKG_HOST, QUIT) ].
Proof.
  refine (proj2 (proj2 (proj2
    (retrieve_file_protocol Sample.serving Sample.self BKG_HOST "/IGS/BRDC/2023/074"
       "BRDC00WRD_S_20230740000_01D_MN.rnx.gz"
       "data/ephemeris/igs/BRDC00WRD_S_20230740000_01D_MN.rnx.gz"
       Sample.empty_world))) _).
  by vm_compute.
Defined.

(** A download from the primary archive is secured with TLS, and a
    download from the secondary archive is plain FTP. *)
Lemma retrieve_file_protocol_counterexample :
  wire (snd (retrieve_file Sample.serving Sample.self NASA_HOST
               "gnss/data/daily/2023/brdc" "brdc0740.23n.gz"
               "data/ephemeris/nasa/brdc0740.23n.gz" Sample.empty_world)) =
  [ (NASA_HOST, CONNECT); (NASA_HOST, AUTH_TLS); (NASA_HOST, LOGIN); (NASA_HOST, PROT_P);
    (NASA_HOST, CMD "RETR gnss/data/daily/2023/brdc/brdc0740.23n.gz");
    (NASA_HOST, QUIT) ] /\
  wire (snd (retrieve_file Sample.serving Sample.self BKG_HOST "/IGS/BRDC/2023/074"
               "BRDC00WRD_S_20230740000_01D_MN.rnx.gz"
               "data/ephemeris/igs/BRDC00WRD_S_20230740000_01D_MN.rnx.gz"
               Sample.empty_world)) =
  [ (BKG_HOST, CONNECT); (BKG_HOST, LOGIN);
    (BKG_HOST, CMD "RETR /IGS/BRDC/2023/074/BRDC00WRD_S_20230740000_01D_MN.rnx.gz");
    (BKG_HOST, QUIT) ].
Proof. split; by vm_compute. Qed.

(** ** The cache *)

(** C6. When a first call of [get_rinex_path] has returned and the
    decompressed file is on disk, a second call with the same
    descriptor returns the same path and leaves the world as it is:
    nothing is sent, no socket is opened, no file is touched. *)
Theorem get_rinex_path_idempotent env self fi w p w1 :
  get_rinex_path env self fi w = (Ok p, w1) ->
  is_Some (fs w1 !! p) ->
  get_rinex_path env self fi w1 = (Ok p, w1) /\
  wire (snd (get_rinex_path env self fi w1)) = wire w1.
Proof.
  intros H Hp. pose proof (get_rinex_path_value _ _ _ _ _ _ H) as ->.
  by rewrite get_rinex_path_hit.
Qed.

Lemma get_rinex_path_idempotent_witness :
  let fi := Spec.gps_only Sample.ts ".gz" in
  let w1 := snd (get_rinex_path Sample.serving Sample.self fi Sample.empty_world) in
  get_rinex_path Sample.serving Sample.self fi w1 =
    (Ok "data/ephemeris/nasa/brdc0740.23n", w1) /\
  wire (snd (get_rinex_path Sample.serving Sample.self fi w1)) = wire w1.
Proof.
  intros fi w1.
  apply (get_rinex_path_idempotent Sample.serving Sample.self fi Sample.empty_world).
  - by vm_compute.
  - vm_compute. by eexists.
Defined.

(** For the descriptors of a day the file is on disk whenever the
    first call returned, so that the second call is a cache hit. *)
Lemma get_rinex_path_twice env self ts fi w p w1 :
  fi ∈ day_files ts ->
  get_rinex_path env self fi w = (Ok p, w1) ->
  get_rinex_path env self fi w1 = (Ok p, w1).
Proof.
  intros Hfi H.
  assert (Hp : is_Some (fs w1 !! p)).
  { eapply get_rinex_path_on_disk; [|exact H]. by apply (day_files_ext self ts). }
  pose proof (get_rinex_path_value _ _ _ _ _ _ H) as ->.
  by apply get_rinex_path_hit.
Qed.

(** ** Failed transfers *)

(** C7. When the connection is established and the server answers the
    [RETR] command with a permission error, [retrieve_file] removes
    the local file it had opened and raises a permission error whose
    message ends with the remote path and the host. The transfer is
    requested once. *)
Theorem retrieve_file_permission_error env self url directory filename dest w msg :
  let src := directory +:+ "/" +:+ filename in
  let r := retrieve_file env self url directory filename dest w in
  (forall c, c ∈ handshake (bool_decide (url = NASA_HOST)) -> reply env url c = None) ->
  reply env url (CMD ("RETR " +:+ src)) = Some (error_perm msg) ->
  fst r = Raise (error_perm (msg +:+ " Failed to retrieve " +:+ src +:+ " from " +:+ url)) /\
  fs (snd r) !! dest = None /\
  (forall path, path <> dest -> fs (snd r) !! path = fs w !! path) /\
  wire (snd r) = wire w ++ map (pair url) (handshake (bool_decide (url = NASA_HOST)))
                        ++ [(url, CMD ("RETR " +:+ src))].
Proof.
  intros src r Hhs Hretr. unfold r.
  rewrite (retrieve_file_refused env self url directory filename dest w msg Hhs Hretr).
  cbn [fst snd fs wire]. split; [done|]. split; [|split; [|done]].
  - apply lookup_delete_eq.
  - intros path Hne. by apply lookup_delete_ne.
Qed.

Lemma retrieve_file_permission_error_witness :
  let r := retrieve_file Sample.refusing Sample.self NASA_HOST
             "gnss/data/daily/2023/brdc" "brdc0740.23n.gz"
             "data/ephemeris/nasa/brdc0740.23n.gz" Sample.empty_world in
  fst r = Raise (error_perm
    ("550 No such file or directory." +:+ " Failed to retrieve " +:+
     ("gnss/data/daily/2023/brdc" +:+ "/" +:+ "brdc0740.23n.gz") +:+ " from " +:+
     NASA_HOST)) /\
  fs (snd r) !! "data/ephemeris/nasa/brdc0740.23n.gz" = None.
Proof.
  intros r.
  destruct (retrieve_file_permission_error Sample.refusing Sample.self NASA_HOST
              "gnss/data/daily/2023/brdc" "brdc0740.23n.gz"
              "data/ephemeris/nasa/brdc0740.23n.gz" Sample.empty_world
              "550 No such file or directory.") as (H1 & H2 & _).
  - intros c Hc. destruct c; try done.
    rewrite bool_decide_true in Hc by done. unfold handshake in Hc.
    repeat (apply elem_of_cons in Hc as [Hc|Hc]; [done|]). by apply elem_of_nil in Hc.
  - done.
  - by split.
Defined.

(** C8, at a failing input. The server answers [RETR] with a
    permission error: [retrieve_file] raises and the socket it opened
    is still open, whereas the same download served by the server
    leaves no socket open. *)
Lemma retrieve_file_socket_left_open :
  let refused := retrieve_file Sample.refusing Sample.self NASA_HOST
                   "gnss/data/daily/2023/brdc" "brdc0740.23n.gz"
                   "data/ephemeris/nasa/brdc0740.23n.gz" Sample.empty_world in
  let served := retrieve_file Sample.serving Sample.self NASA_HOST
                  "gnss/data/daily/2023/brdc" "brdc0740.23n.gz"
                  "data/ephemeris/nasa/brdc0740.23n.gz" Sample.empty_world in
  socks Sample.empty_world = [] /\
  fst refused = Raise (error_perm
    "550 No such file or directory. Failed to retrieve gnss/data/daily/2023/brdc/brdc0740.23n.gz from gdc.cddis.eosdis.nasa.gov") /\
  socks (snd refused) = [0%nat] /\
  fst served = Ok tt /\ socks (snd served) = [].
Proof. repeat split; by vm_compute. Qed.

(** In every world, a refused transfer leaves the socket of the call
    open. *)
Lemma retrieve_file_refused_socket env self url directory filename dest w msg :
  (forall c, c ∈ handshake (bool_decide (url = NASA_HOST)) -> reply env url c = None) ->
  reply env url (CMD ("RETR " +:+ directory +:+ "/" +:+ filename)) = Some (error_perm msg) ->
  socks (snd (retrieve_file env self url directory filename dest w)) =
  next_sock w :: socks w.
Proof.
  intros Hhs Hretr.
  by rewrite (retrieve_file_refused env self url directory filename dest w msg Hhs Hretr).
Qed.

(** ** The empty request *)

(** C9, as the code has it. An empty list of satellites is the empty
    constellation set, not [None], and [get_ephemeris] hands either to
    [load_data] as it is. For the empty set a historical request
    fetches nothing and has no effect, and a same-day request fetches
    the combined file of the secondary archive; only [None] fetches
    all files of the day. *)
Theorem load_data_empty_set env self tzinfo_to_utc ts :
  let utc_ts := tzinfo_to_utc ts in
  let same_day := Datetime.sub_days (now env) utc_ts <=? 0 in
  get_constellations (Some []) = Ok (Some ∅) /\
  get_constellations None = Ok None /\
  (forall w, get_ephemeris env self tzinfo_to_utc ts (Some []) w =
             load_data env self utc_ts (Some ∅) same_day w) /\
  (forall w, get_ephemeris env self tzinfo_to_utc ts None w =
             load_data env self utc_ts None same_day w) /\
  (forall w, load_data env self utc_ts (Some ∅) false w = (Ok [], w)) /\
  (forall w, load_data env self utc_ts (Some ∅) true w =
             for_append (get_rinex_path env self) [Spec.combined_secondary utc_ts] [] w) /\
  (forall b w, load_data env self utc_ts None b w =
               for_append (get_rinex_path env self)
                 [ Spec.combined_primary utc_ts; Spec.gps_only utc_ts (get_filetype utc_ts);
                   Spec.glonass_only utc_ts (get_filetype utc_ts);
                   Spec.combined_secondary utc_ts ] [] w).
Proof.
  intros utc_ts same_day. split; [done|]. split; [done|].
  split; [|split; [|split; [|split]]].
  - intros w. unfold get_ephemeris. cbn [get_constellations fold_left].
    apply bind_ret_r.
  - intros w. unfold get_ephemeris. cbn [get_constellations].
    apply bind_ret_r.
  - intros w. rewrite load_data_historical_legacy by set_solver.
    by rewrite !bool_decide_false by set_solver.
  - intros w. rewrite load_data_same_day.
    by rewrite bool_decide_false by set_solver.
  - intros b w. apply load_data_all.
Qed.

(** At 2023-03-15T05:00:00Z with the day's files cached, the empty
    list of satellites yields no path for a historical request and one
    path for a same-day request, and no list of satellites yields
    four. *)
Lemma load_data_empty_set_counterexample :
  let all := [ "data/ephemeris/nasa/BRDC00IGS_R_20230740000_01D_MN.rnx";
               "data/ephemeris/nasa/brdc0740.23n";
               "data/ephemeris/nasa/brdc0740.23g";
               "data/ephemeris/igs/BRDC00WRD_S_20230740000_01D_MN.rnx" ] in
  get_constellations (Some []) = Ok (Some ∅) /\
  get_constellations None = Ok None /\
  fst (load_data Sample.serving Sample.self Sample.ts (Some ∅) false
         Sample.cached_world) = Ok [] /\
  fst (load_data Sample.serving Sample.self Sample.ts None false
         Sample.cached_world) = Ok all /\
  fst (get_ephemeris Sample.serving Sample.self Sample.utc Sample.ts (Some [])
         Sample.cached_world) =
    Ok ["data/ephemeris/igs/BRDC00WRD_S_20230740000_01D_MN.rnx"] /\
  fst (get_ephemeris Sample.serving Sample.self Sample.utc Sample.ts None
         Sample.cached_world) = Ok all.
Proof. repeat split; by vm_compute. Qed.

(** ** Unknown suffixes *)

(** C10. For a file whose suffix is neither [.gz] nor [.Z],
    [decompress_file] removes the file, writes nothing and raises
    nothing; a descriptor with such a name that is not cached and is
    served by its host makes [get_rinex_path] return a path at which
    there is no file. *)
Theorem decompress_file_unknown_suffix env self :
  (forall p w,
     snd (splitext p) <> ".gz" -> snd (splitext p) <> ".Z" -> is_Some (fs w !! p) ->
     decompress_file env p w = (Ok tt, set_fs (delete p) w) /\
     fs (snd (decompress_file env p w)) = delete p (fs w)) /\
  (forall fi w,
     let dest := dest_filepath_of self fi in
     let src := fst (split (filepath fi)) +:+ "/" +:+ snd (split (filepath fi)) in
     snd (splitext dest) <> ".gz" -> snd (splitext dest) <> ".Z" ->
     fs w !! rinex_path_of self fi = None ->
     (forall c, c ∈ session_cmds (url fi) src -> reply env (url fi) c = None) ->
     fst (get_rinex_path env self fi w) = Ok (rinex_path_of self fi) /\
     fs (snd (get_rinex_path env self fi w)) !! rinex_path_of self fi = None /\
     fs (snd (get_rinex_path env self fi w)) = delete dest (fs w)).
Proof.
  split.
  - intros p w Hgz HZ Hp. by rewrite decompress_file_other.
  - intros fi w dest src Hgz HZ Hnone Hsrv.
    unfold get_rinex_path, bind, os.isfile, ret.
    rewrite bool_decide_false by (rewrite Hnone; by intros [? ?]).
    cbn [negb]. fold dest.
    rewrite retrieve_file_served by exact Hsrv.
    rewrite decompress_file_other; [| done | done |].
    + cbn [fst snd fs set_fs]. rewrite delete_insert_eq. split; [done|]. split; [|done].
      destruct (decide (rinex_path_of self fi = dest)) as [->|Hne].
      * apply lookup_delete_eq.
      * by rewrite lookup_delete_ne.
    + cbn [fs]. rewrite lookup_insert_eq. by eexists.
Qed.

Lemma decompress_file_unknown_suffix_witness :
  let w := mk_World {[ "data/ephemeris/nasa/notes.txt" := [x41] ]} [] 0 [] [] in
  let fi := {| filepath := "pub/readme.txt"; url := NASA_HOST |} in
  (decompress_file Sample.serving "data/ephemeris/nasa/notes.txt" w =
     (Ok tt, set_fs (delete "data/ephemeris/nasa/notes.txt") w) /\
   fs (snd (decompress_file Sample.serving "data/ephemeris/nasa/notes.txt" w)) =
     delete "data/ephemeris/nasa/notes.txt" (fs w)) /\
  (fst (get_rinex_path Sample.serving Sample.self fi Sample.empty_world) =
     Ok (rinex_path_of Sample.self fi) /\
   fs (snd (get_rinex_path Sample.serving Sample.self fi Sample.empty_world))
     !! rinex_path_of Sample.self fi = None /\
   fs (snd (get_rinex_path Sample.serving Sample.self fi Sample.empty_world)) =
     delete (dest_filepath_of Sample.self fi) (fs Sample.empty_world)).
Proof.
  intros w fi. split.
  - apply (proj1 (decompress_file_unknown_suffix Sample.serving Sample.self)).
    + by vm_compute.
    + by vm_compute.
    + vm_compute. by eexists.
  - apply (proj2 (decompress_file_unknown_suffix Sample.serving Sample.self)).
    + by vm_compute.
    + by vm_compute.
    + by vm_compute.
    + done.
Defined.

(** * Further properties *)

(** ** Constellations *)

Module ConstellationFacts.

Local Abbreviation step :=
  (fun (acc : result (gset string)) (sat : string) =>
     match acc with
     | Ok systems =>
         match first_char sat with
         | Ok c => Ok (systems ∪ {[ c ]})
         | Raise e => Raise e
         end
     | Raise e => Raise e
     end).

Lemma fold_raise sats e : fold_left step sats (Raise e) = Raise e.
Proof. induction sats as [|sat sats IH]; [done|]. apply IH. Qed.

Lemma fold_ok sats (s0 : gset string) :
  (forall sat, sat ∈ sats -> sat <> "") ->
  exists s, fold_left step sats (Ok s0) = Ok s /\
    forall c, c ∈ s <-> c ∈ s0 \/ exists sat, sat ∈ sats /\ first_char sat = Ok c.
Proof.
  revert s0. induction sats as [|sat sats IH]; intros s0 H.
  - exists s0. split; [done|]. intros c. split; [by left|].
    intros [?|(sat & Hsat & _)]; [done|]. by apply elem_of_nil in Hsat.
  - destruct sat as [|a sat']; [by destruct (H "" ltac:(left))|].
    cbn [fold_left first_char].
    destruct (IH (s0 ∪ {[ String a "" ]})) as (s & Hs & Hmem).
    { intros sat Hsat. apply H. by right. }
    exists s. split; [done|]. intros c. rewrite Hmem. split.
    + intros [[?|Hc%elem_of_singleton]%elem_of_union|(sat & Hsat & Hc)].
      * by left.
      * right. exists (String a sat'). split; [left|]. by rewrite Hc.
      * right. exists sat. split; [by right|done].
    + intros [?|(sat & [->|Hsat]%elem_of_cons & Hc)].
      * left. set_solver.
      * left. cbn in Hc. injection Hc as <-. set_solver.
      * right. by exists sat.
Qed.

Lemma fold_empty sats (s0 : gset string) :
  "" ∈ sats -> fold_left step sats (Ok s0) = Raise IndexError.
Proof.
  revert s0. induction sats as [|sat sats IH]; intros s0 H.
  - by apply elem_of_nil in H.
  - destruct sat as [|a sat'].
    + cbn [fold_left first_char]. apply fold_raise.
    + apply elem_of_cons in H as [H|H]; [done|].
      cbn [fold_left first_char]. by apply IH.
Qed.

End ConstellationFacts.

(** X1. For a list of satellite identifiers none of which is empty,
    [get_constellations] returns the set of their first characters:
    a letter is in the set exactly when some identifier of the list
    begins with it, whatever the order and the repetitions of the
    list. *)
Theorem get_constellations_members (sats : list string) :
  (forall sat, sat ∈ sats -> sat <> "") ->
  exists systems : gset string,
    get_constellations (Some sats) = Ok (Some systems) /\
    forall c, c ∈ systems <-> exists sat, sat ∈ sats /\ first_char sat = Ok c.
Proof.
  intros H. destruct (ConstellationFacts.fold_ok sats ∅ H) as (s & Hs & Hmem).
  exists s. unfold get_constellations. rewrite Hs. split; [done|].
  intros c. rewrite Hmem. set_solver.
Qed.

Lemma get_constellations_members_witness :
  exists systems : gset string,
    get_constellations (Some ["G01"; "R05"; "G12"]) = Ok (Some systems) /\
    forall c, c ∈ systems <->
              exists sat, sat ∈ ["G01"; "R05"; "G12"] /\ first_char sat = Ok c.
Proof.
  apply get_constellations_members.
  intros sat Hsat.
  repeat (apply elem_of_cons in Hsat as [-> | Hsat]); [done..|].
  by apply elem_of_nil in Hsat.
Defined.

(** X2. [get_constellations] raises [IndexError] exactly when the
    list holds an empty identifier, and returns a set otherwise. *)
Theorem get_constellations_index_error (sats : list string) :
  (get_constellations (Some sats) = Raise IndexError <-> "" ∈ sats) /\
  ("" ∉ sats -> exists systems, get_constellations (Some sats) = Ok (Some systems)).
Proof.
  assert (Hok : "" ∉ sats ->
                exists systems, get_constellations (Some sats) = Ok (Some systems)).
  { intros Hno.
    destruct (ConstellationFacts.fold_ok sats ∅) as (s & Hs & _).
    { intros sat Hsat ->. done. }
    exists s. unfold get_constellations. by rewrite Hs. }
  split; [|done]. split.
  - intros Hraise. destruct (decide ("" ∈ sats)) as [|Hno]; [done|].
    destruct (Hok Hno) as [s Hs]. congruence.
  - intros Hin. unfold get_constellations.
    by rewrite (ConstellationFacts.fold_empty sats ∅ Hin).
Qed.

Lemma get_constellations_index_error_witness :
  get_constellations (Some ["G01"; ""; "R05"]) = Raise IndexError /\
  exists systems, get_constellations (Some ["G01"; "R05"]) = Ok (Some systems).
Proof.
  split.
  - apply (proj1 (get_constellations_index_error ["G01"; ""; "R05"])). set_solver.
  - apply (proj2 (get_constellations_index_error ["G01"; "R05"])). set_solver.
Defined.
(** ** Dates and file names *)

Module DateFacts.

Lemma month_cases m :
  1 <= m <= 12 ->
  m = 1 \/ m = 2 \/ m = 3 \/ m = 4 \/ m = 5 \/ m = 6 \/
  m = 7 \/ m = 8 \/ m = 9 \/ m = 10 \/ m = 11 \/ m = 12.
Proof. lia. Qed.

Ltac each_month H :=
  apply month_cases in H;
  destruct H as [->|[->|[->|[->|[->|[->|[->|[->|[->|[->|[->| ->]]]]]]]]]]].

(** The day of the year of a calendar date lies between 1 and 366. *)
Lemma yday_bounds ts :
  Datetime.valid ts -> 1 <= tm_yday (timetuple ts) <= 366.
Proof.
  intros (_ & Hm & Hd & _). unfold timetuple. cbn [tm_yday].
  revert Hd. unfold Datetime.days_before_month, Datetime.days_in_month.
  each_month Hm; destruct (Datetime.is_leap (year ts)); cbv -[Z.le Z.lt Z.add day]; lia.
Qed.

(** Within a year, the day of the year fixes the month and the day. *)
Lemma yday_inj y m1 d1 m2 d2 :
  1 <= m1 <= 12 -> 1 <= d1 <= Datetime.days_in_month y m1 ->
  1 <= m2 <= 12 -> 1 <= d2 <= Datetime.days_in_month y m2 ->
  Datetime.days_before_month y m1 + d1 = Datetime.days_before_month y m2 + d2 ->
  m1 = m2 /\ d1 = d2.
Proof.
  intros Hm1 Hd1 Hm2 Hd2.
  revert Hd1 Hd2. unfold Datetime.days_before_month, Datetime.days_in_month.
  each_month Hm1; each_month Hm2; destruct (Datetime.is_leap y); cbv -[Z.le Z.lt Z.add]; lia.
Qed.

(** [str] is one-to-one. *)
Lemma str_inj a b : str a = str b -> a = b.
Proof.
  unfold str. intros H. apply DecimalZ.to_int_inj.
  assert (E : Some (Z.to_int a) = Some (Z.to_int b)).
  { rewrite <- !NilEmpty.isi. by rewrite H. }
  by injection E.
Qed.

(** The three-digit field of the day of the year is one-to-one. *)
Lemma ddd_nodup :
  NoDup (map (fun n => zfill 3 (str (Z.of_nat n))) (seq 1 366)).
Proof. apply (bool_decide_unpack _). by vm_compute. Qed.

Lemma ddd_inj a b :
  1 <= a <= 366 -> 1 <= b <= 366 -> zfill 3 (str a) = zfill 3 (str b) -> a = b.
Proof.
  intros Ha Hb H. pose proof ddd_nodup as Hnd.
  assert (Hl : forall n, 1 <= n <= 366 ->
            map (fun n => zfill 3 (str (Z.of_nat n))) (seq 1 366) !! (Z.to_nat n - 1)%nat
            = Some (zfill 3 (str n))).
  { intros n Hn. rewrite list_lookup_fmap, lookup_seq_lt by lia. cbn.
    do 3 f_equal. lia. }
  pose proof (Hl a Ha) as Hla. pose proof (Hl b Hb) as Hlb. rewrite H in Hla.
  pose proof (NoDup_lookup _ _ _ _ Hnd Hla Hlb). lia.
Qed.

(** Two strings free of [c] that agree once [c] and a remainder are
    appended agree, and so do the remainders. *)
Lemma split_at_char c a1 a2 r1 r2 :
  contains c a1 = false -> contains c a2 = false ->
  a1 +:+ String c r1 = a2 +:+ String c r2 -> a1 = a2 /\ r1 = r2.
Proof.
  revert a2. induction a1 as [|x a1 IH]; intros [|y a2] H1 H2 H.
  - rewrite !sapp_nil_l in H. by injection H.
  - rewrite sapp_nil_l, sapp_cons in H. injection H as <- _.
    cbn [contains] in H2. by rewrite Ascii.eqb_refl in H2.
  - rewrite sapp_nil_l, sapp_cons in H. injection H as -> _.
    cbn [contains] in H1. by rewrite Ascii.eqb_refl in H1.
  - rewrite !sapp_cons in H. injection H as -> H.
    cbn [contains] in H1, H2.
    apply orb_false_elim in H1 as [_ H1]. apply orb_false_elim in H2 as [_ H2].
    destruct (IH a2 H1 H2 H) as [-> ->]. done.
Qed.

Lemma ddd_no_sep ts : contains sep (Spec.ddd ts) = false.
Proof. unfold Spec.ddd. apply no_char_zfill_str. done. Qed.

(** The remote name of the combined file of the secondary archive
    fixes the year and the day of the year. *)
Lemma secondary_inj ts1 ts2 :
  Datetime.valid ts1 -> Datetime.valid ts2 ->
  filepath (Spec.combined_secondary ts1) = filepath (Spec.combined_secondary ts2) ->
  year ts1 = year ts2 /\ tm_yday (timetuple ts1) = tm_yday (timetuple ts2).
Proof.
  intros Hv1 Hv2. unfold Spec.combined_secondary. cbn [filepath].
  rewrite !sapp_assoc. intros H.
  apply (inj (String.app "/IGS/BRDC/")) in H.
  apply split_at_char in H as [Hy H]; [|apply year_no_sep..].
  apply split_at_char in H as [Hd _]; [|apply ddd_no_sep..].
  split.
  - by apply str_inj.
  - apply ddd_inj; [by apply yday_bounds..|done].
Qed.

End DateFacts.

(** X3. The four descriptors of [get_filepaths] are a function of the
    UTC calendar date exactly: two timestamps yield the same
    dictionary if and only if they have the same year, month and day,
    whatever their times of day. *)
Theorem get_filepaths_same_date ts1 ts2 :
  Datetime.valid ts1 -> Datetime.valid ts2 ->
  (get_filepaths ts1 = get_filepaths ts2 <->
   year ts1 = year ts2 /\ month ts1 = month ts2 /\ day ts1 = day ts2).
Proof.
  intros Hv1 Hv2. split.
  - rewrite !get_filepaths_spec. intros H.
    assert (Hsec : Spec.combined_secondary ts1 = Spec.combined_secondary ts2)
      by congruence.
    apply (f_equal filepath) in Hsec.
    destruct (DateFacts.secondary_inj ts1 ts2 Hv1 Hv2 Hsec) as [Hy Hd].
    split; [done|]. unfold timetuple in Hd. cbn [tm_yday] in Hd. rewrite Hy in Hd.
    destruct Hv1 as (_ & Hm1 & Hd1 & _), Hv2 as (_ & Hm2 & Hd2 & _).
    rewrite Hy in Hd1. by apply (DateFacts.yday_inj (year ts2)).
  - intros (Hy & Hm & Hd).
    rewrite !get_filepaths_spec, !get_filetype_era by done.
    destruct ts1 as [y1 m1 d1 h1 mi1 s1 u1], ts2 as [y2 m2 d2 h2 mi2 s2 u2].
    cbn [year month day] in Hy, Hm, Hd. subst. reflexivity.
Qed.

Lemma get_filepaths_same_date_witness :
  get_filepaths (mk_datetime 2023 3 15 5 0 0 0) =
  get_filepaths (mk_datetime 2023 3 15 23 59 59 999999).
Proof.
  apply (proj2 (get_filepaths_same_date (mk_datetime 2023 3 15 5 0 0 0)
                  (mk_datetime 2023 3 15 23 59 59 999999)
                  ltac:(repeat split; by vm_compute)
                  ltac:(repeat split; by vm_compute))).
  done.
Defined.
(** ** Remote and local paths *)

Module LayoutFacts.

Lemma join_two_prefix root sub f :
  sub <> "" -> startswith sub (String sep "") = false ->
  endswith sub (String sep "") = false ->
  startswith f (String sep "") = false ->
  join root [sub; f] = join_prefix root +:+ sub +:+ String sep "" +:+ f.
Proof.
  intros Hne Hs He Hf. unfold join, join_prefix. simpl fold_left.
  assert (Hlen : (String.length (String sep "") <= String.length sub)%nat).
  { destruct sub; [done|]. simpl. lia. }
  unfold join_step at 2. rewrite Hs.
  destruct (_ || _).
  - unfold join_step. rewrite Hf.
    rewrite endswith_app, He by done.
    destruct (String.eqb_spec (root +:+ sub) "") as [E|_]; simpl.
    + destruct root; [|done]. by rewrite sapp_nil_l in E.
    + by rewrite sapp_assoc.
  - unfold join_step. rewrite Hf.
    rewrite <- (sapp_assoc root), endswith_app, He by done.
    destruct (String.eqb_spec ((root +:+ String sep "") +:+ sub) "") as [E|_]; simpl.
    + destruct root; done.
    + by rewrite !sapp_assoc.
Qed.

Lemma rstrip_nonempty c s a : a <> c -> rstrip c (s +:+ String a "") = s +:+ String a "".
Proof.
  intros Hne. induction s as [|x s IH].
  - rewrite sapp_nil_l. cbn [rstrip]. apply Ascii.eqb_neq in Hne. by rewrite Hne.
  - rewrite sapp_cons. cbn [rstrip]. rewrite IH.
    destruct s; by rewrite ?sapp_nil_l, ?sapp_cons.
Qed.

Lemma rstrip_one c s a :
  a <> c -> rstrip c ((s +:+ String a "") +:+ String c "") = s +:+ String a "".
Proof.
  intros Hne. induction s as [|x s IH].
  - rewrite !sapp_nil_l, sapp_cons, sapp_nil_l. cbn [rstrip].
    rewrite Ascii.eqb_refl. apply Ascii.eqb_neq in Hne. by rewrite Hne.
  - rewrite !sapp_cons. cbn [rstrip]. rewrite IH.
    destruct s; by rewrite ?sapp_nil_l, ?sapp_cons.
Qed.

(** The directory of [directory/filename] when the directory ends
    with an ordinary character and the file name holds no separator. *)
Lemma split_head d a f :
  a <> sep -> contains sep f = false ->
  fst (split ((d +:+ String a "") +:+ String sep f)) = d +:+ String a "".
Proof.
  intros Ha Hf. unfold split. cbn [fst].
  rewrite rfind_app_last by done.
  set (h := (d +:+ String a "") +:+ String sep "").
  replace ((d +:+ String a "") +:+ String sep f) with (h +:+ f)
    by (unfold h; by rewrite !sapp_assoc).
  replace (len (d +:+ String a "") + 1) with (len h)
    by (unfold h; by rewrite len_app).
  rewrite slice_to_app.
  assert (Hne : String.eqb h "" = false).
  { apply String.eqb_neq. unfold h. destruct d; by rewrite ?sapp_nil_l, ?sapp_cons. }
  assert (Hrep : String.eqb h (repeat_char sep (String.length h)) = false).
  { apply String.eqb_neq. intros E.
    assert (Hc : contains a h = true).
    { unfold h. rewrite !contains_app. cbn [contains].
      by rewrite Ascii.eqb_refl, orb_true_r. }
    rewrite E, contains_repeat in Hc by done. done. }
  rewrite Hne, Hrep. cbn [negb andb]. unfold h. by apply rstrip_one.
Qed.

(** A string that is not empty and holds no [c] ends with a character
    other than [c]. *)
Lemma last_char c s :
  s <> "" -> contains c s = false -> exists s' a, s = s' +:+ String a "" /\ a <> c.
Proof.
  induction s as [|x s IH]; [done|]. intros _ H. cbn [contains] in H.
  apply orb_false_elim in H as [Hx Hs].
  destruct s as [|y s].
  - exists "", x. split; [done|]. by apply Ascii.eqb_neq.
  - destruct IH as (s' & a & E & Ha); [done|done|].
    exists (String x s'), a. split; [|done]. by rewrite sapp_cons, <- E.
Qed.

Lemma zfill_nonempty w s : (0 < w)%nat -> zfill w s <> "".
Proof.
  intros Hw. unfold zfill. destruct s as [|c s].
  - destruct w; [lia|]. done.
  - destruct (_ || _); [done|].
    destruct (repeat_char "0" _); by rewrite ?sapp_nil_l, ?sapp_cons.
Qed.

(** Every remote path of a day is a directory that ends with an
    ordinary character, a separator, and a file name without
    separator. *)
Lemma day_file_parts ts fi :
  fi ∈ day_files ts ->
  exists d a f, filepath fi = (d +:+ String a "") +:+ String sep f /\
                a <> sep /\ contains sep f = false.
Proof.
  unfold day_files. rewrite !elem_of_cons, elem_of_nil.
  assert (Hext : contains sep (get_filetype ts) = false)
    by (by destruct (get_filetype_cases ts) as [-> | ->]).
  assert (Hddd : contains sep (Spec.ddd ts) = false)
    by (unfold Spec.ddd; by apply no_char_zfill_str).
  assert (Hyy : contains sep (Spec.yy ts) = false)
    by (unfold Spec.yy; by apply no_char_slice_str).
  pose proof (year_no_sep ts) as Hy.
  intros [->|[->|[->|[->|[]]]]].
  - exists ("gnss/data/daily/" +:+ Spec.yyyy ts +:+ "/brd"), "c"%char,
      ("BRDC00IGS_R_" +:+ Spec.yyyy ts +:+ Spec.ddd ts +:+ "0000_01D_MN.rnx.gz").
    split; [|split; [done|]].
    + unfold Spec.combined_primary. cbn [filepath]. by rewrite !sapp_assoc.
    + rewrite !contains_app, Hy, Hddd. done.
  - exists ("gnss/data/daily/" +:+ Spec.yyyy ts +:+ "/brd"), "c"%char,
      ("brdc" +:+ Spec.ddd ts +:+ "0." +:+ Spec.yy ts +:+ "n" +:+ get_filetype ts).
    split; [|split; [done|]].
    + unfold Spec.gps_only. cbn [filepath]. by rewrite !sapp_assoc.
    + rewrite !contains_app, Hyy, Hddd, Hext. done.
  - exists ("gnss/data/daily/" +:+ Spec.yyyy ts +:+ "/brd"), "c"%char,
      ("brdc" +:+ Spec.ddd ts +:+ "0." +:+ Spec.yy ts +:+ "g" +:+ get_filetype ts).
    split; [|split; [done|]].
    + unfold Spec.glonass_only. cbn [filepath]. by rewrite !sapp_assoc.
    + rewrite !contains_app, Hyy, Hddd, Hext. done.
  - destruct (last_char sep (Spec.ddd ts)) as (s' & a & E & Ha);
      [apply zfill_nonempty; lia|done|].
    exists ("/IGS/BRDC/" +:+ Spec.yyyy ts +:+ "/" +:+ s'), a,
      ("BRDC00WRD_S_" +:+ Spec.yyyy ts +:+ Spec.ddd ts +:+ "0000_01D_MN.rnx.gz").
    split; [|split; [done|]].
    + unfold Spec.combined_secondary. cbn [filepath]. rewrite E at 1.
      by rewrite !sapp_assoc.
    + rewrite !contains_app, Hy, Hddd. done.
Qed.

Lemma day_file_rejoin ts fi :
  fi ∈ day_files ts ->
  fst (split (filepath fi)) +:+ "/" +:+ snd (split (filepath fi)) = filepath fi.
Proof.
  intros (d & a & f & E & Ha & Hf)%day_file_parts. rewrite E.
  rewrite split_head, split_tail by done. by rewrite !sapp_assoc.
Qed.

(** The local paths, with the directory part written out. *)
Lemma local_paths_explicit self fi d pre c e :
  filepath fi = d +:+ String sep (pre +:+ String c (String extsep e)) ->
  contains sep pre = false -> c <> sep -> c <> extsep ->
  contains sep e = false -> contains extsep e = false ->
  let P := join_prefix (ephemeris_directory self) +:+ cache_subdir (url fi) +:+ "/" in
  dest_filepath_of self fi = P +:+ pre +:+ String c (String extsep e) /\
  rinex_path_of self fi = P +:+ pre +:+ String c "".
Proof.
  intros Hfi Hpre Hc1 Hc2 He1 He2 P.
  set (f := pre +:+ String c (String extsep e)) in *.
  assert (Hf : contains sep f = false).
  { unfold f. rewrite contains_app, Hpre. cbn [contains orb].
    rewrite He1. apply Ascii.eqb_neq in Hc1. rewrite Hc1.
    by destruct (Ascii.eqb extsep sep) eqn:E. }
  assert (Hstart : startswith f (String sep "") = false).
  { apply not_true_is_false. intros H%startswith_contains. congruence. }
  assert (Hdest : dest_filepath_of self fi = P +:+ f).
  { unfold dest_filepath_of, P, cache_subdir. rewrite Hfi.
    rewrite split_tail by done.
    destruct (String.eqb (url fi) "igs-ftp.bkg.bund.de");
      rewrite join_two_prefix by done; by rewrite !sapp_assoc. }
  split; [done|]. unfold rinex_path_of. rewrite Hdest. unfold f.
  replace (P +:+ pre +:+ String c (String extsep e))
    with ((P +:+ pre) +:+ String c (String extsep e)) by (by rewrite sapp_assoc).
  rewrite splitext_app by done. cbn [fst]. by rewrite sapp_assoc.
Qed.

Lemma yy_no_sep ts : contains sep (Spec.yy ts) = false.
Proof. unfold Spec.yy. by apply no_char_slice_str. Qed.

(** The local paths of the four descriptors of a day. *)
Lemma combined_primary_local self ts :
  let P := join_prefix (ephemeris_directory self) +:+ "nasa/" in
  let stem := "BRDC00IGS_R_" +:+ Spec.yyyy ts +:+ Spec.ddd ts +:+ "0000_01D_MN.rnx" in
  dest_filepath_of self (Spec.combined_primary ts) = P +:+ stem +:+ ".gz" /\
  rinex_path_of self (Spec.combined_primary ts) = P +:+ stem.
Proof.
  destruct (local_paths_explicit self (Spec.combined_primary ts)
              ("gnss/data/daily/" +:+ Spec.yyyy ts +:+ "/brdc")
              ("BRDC00IGS_R_" +:+ Spec.yyyy ts +:+ Spec.ddd ts +:+ "0000_01D_MN.rn")
              "x" "gz") as [H1 H2]; try done.
  - unfold Spec.combined_primary. cbn [filepath]. by rewrite !sapp_assoc.
  - by rewrite !contains_app, year_no_sep, DateFacts.ddd_no_sep.
  - cbn zeta. rewrite H1, H2. cbn [url Spec.combined_primary].
    split; by rewrite !sapp_assoc.
Qed.

Lemma combined_secondary_local self ts :
  let P := join_prefix (ephemeris_directory self) +:+ "igs/" in
  let stem := "BRDC00WRD_S_" +:+ Spec.yyyy ts +:+ Spec.ddd ts +:+ "0000_01D_MN.rnx" in
  dest_filepath_of self (Spec.combined_secondary ts) = P +:+ stem +:+ ".gz" /\
  rinex_path_of self (Spec.combined_secondary ts) = P +:+ stem.
Proof.
  destruct (local_paths_explicit self (Spec.combined_secondary ts)
              ("/IGS/BRDC/" +:+ Spec.yyyy ts +:+ "/" +:+ Spec.ddd ts)
              ("BRDC00WRD_S_" +:+ Spec.yyyy ts +:+ Spec.ddd ts +:+ "0000_01D_MN.rn")
              "x" "gz") as [H1 H2]; try done.
  - unfold Spec.combined_secondary. cbn [filepath]. by rewrite !sapp_assoc.
  - by rewrite !contains_app, year_no_sep, DateFacts.ddd_no_sep.
  - cbn zeta. rewrite H1, H2. cbn [url Spec.combined_secondary].
    split; by rewrite !sapp_assoc.
Qed.

Lemma gps_local self ts :
  let P := join_prefix (ephemeris_directory self) +:+ "nasa/" in
  let stem := "brdc" +:+ Spec.ddd ts +:+ "0." +:+ Spec.yy ts +:+ "n" in
  dest_filepath_of self (Spec.gps_only ts (get_filetype ts)) =
    P +:+ stem +:+ get_filetype ts /\
  rinex_path_of self (Spec.gps_only ts (get_filetype ts)) = P +:+ stem.
Proof.
  assert (H : forall e, contains sep e = false -> contains extsep e = false ->
    dest_filepath_of self (Spec.gps_only ts (String extsep e)) =
      (join_prefix (ephemeris_directory self) +:+ "nasa/") +:+
      ("brdc" +:+ Spec.ddd ts +:+ "0." +:+ Spec.yy ts +:+ "n") +:+ String extsep e /\
    rinex_path_of self (Spec.gps_only ts (String extsep e)) =
      (join_prefix (ephemeris_directory self) +:+ "nasa/") +:+
      ("brdc" +:+ Spec.ddd ts +:+ "0." +:+ Spec.yy ts +:+ "n")).
  { intros e He1 He2.
    destruct (local_paths_explicit self (Spec.gps_only ts (String extsep e))
                ("gnss/data/daily/" +:+ Spec.yyyy ts +:+ "/brdc")
                ("brdc" +:+ Spec.ddd ts +:+ "0." +:+ Spec.yy ts) "n" e)
      as [H1 H2]; try done.
    - unfold Spec.gps_only. cbn [filepath]. by rewrite !sapp_assoc.
    - by rewrite !contains_app, yy_no_sep, DateFacts.ddd_no_sep.
    - rewrite H1, H2. cbn [url Spec.gps_only]. split; by rewrite !sapp_assoc. }
  cbn zeta. destruct (get_filetype_cases ts) as [-> | ->]; by apply H.
Qed.

Lemma glonass_local self ts :
  let P := join_prefix (ephemeris_directory self) +:+ "nasa/" in
  let stem := "brdc" +:+ Spec.ddd ts +:+ "0." +:+ Spec.yy ts +:+ "g" in
  dest_filepath_of self (Spec.glonass_only ts (get_filetype ts)) =
    P +:+ stem +:+ get_filetype ts /\
  rinex_path_of self (Spec.glonass_only ts (get_filetype ts)) = P +:+ stem.
Proof.
  assert (H : forall e, contains sep e = false -> contains extsep e = false ->
    dest_filepath_of self (Spec.glonass_only ts (String extsep e)) =
      (join_prefix (ephemeris_directory self) +:+ "nasa/") +:+
      ("brdc" +:+ Spec.ddd ts +:+ "0." +:+ Spec.yy ts +:+ "g") +:+ String extsep e /\
    rinex_path_of self (Spec.glonass_only ts (String extsep e)) =
      (join_prefix (ephemeris_directory self) +:+ "nasa/") +:+
      ("brdc" +:+ Spec.ddd ts +:+ "0." +:+ Spec.yy ts +:+ "g")).
  { intros e He1 He2.
    destruct (local_paths_explicit self (Spec.glonass_only ts (String extsep e))
                ("gnss/data/daily/" +:+ Spec.yyyy ts +:+ "/brdc")
                ("brdc" +:+ Spec.ddd ts +:+ "0." +:+ Spec.yy ts) "g" e)
      as [H1 H2]; try done.
    - unfold Spec.glonass_only. cbn [filepath]. by rewrite !sapp_assoc.
    - by rewrite !contains_app, yy_no_sep, DateFacts.ddd_no_sep.
    - rewrite H1, H2. cbn [url Spec.glonass_only]. split; by rewrite !sapp_assoc. }
  cbn zeta. destruct (get_filetype_cases ts) as [-> | ->]; by apply H.
Qed.

(** The download of a descriptor of the day ends in the suffix of its
    remote name, [.gz] or [.Z]. *)
Lemma day_file_suffix self ts fi :
  fi ∈ day_files ts ->
  snd (splitext (dest_filepath_of self fi)) = snd (splitext (filepath fi)) /\
  (snd (splitext (filepath fi)) = ".gz" \/ snd (splitext (filepath fi)) = ".Z").
Proof.
  assert (H : forall fi d pre c e,
    filepath fi = d +:+ String sep (pre +:+ String c (String extsep e)) ->
    contains sep pre = false -> c <> sep -> c <> extsep ->
    contains sep e = false -> contains extsep e = false ->
    snd (splitext (dest_filepath_of self fi)) = String extsep e /\
    snd (splitext (filepath fi)) = String extsep e).
  { intros fi' d pre c e E Hp ? ? ? ?. split.
    - by destruct (local_paths_shape self fi' d pre c e E Hp) as (r & _ & _ & ->).
    - by apply (remote_ext fi' d pre c e). }
  unfold day_files. rewrite !elem_of_cons, elem_of_nil.
  intros [->|[->|[->|[->|[]]]]].
  - destruct (combined_primary_shape ts) as (d & pre & E & Hp).
    destruct (H _ d pre "x"%char "gz" E Hp) as [-> ->]; try done. by split; [|left].
  - destruct (get_filetype_cases ts) as [Hft|Hft]; rewrite Hft.
    + destruct (gps_shape ts "gz") as (d & pre & E & Hp).
      destruct (H (Spec.gps_only ts ".gz") d pre "n"%char "gz" E Hp) as [-> ->];
        try done. by split; [|left].
    + destruct (gps_shape ts "Z") as (d & pre & E & Hp).
      destruct (H (Spec.gps_only ts ".Z") d pre "n"%char "Z" E Hp) as [-> ->];
        try done. by split; [|right].
  - destruct (get_filetype_cases ts) as [Hft|Hft]; rewrite Hft.
    + destruct (glonass_shape ts "gz") as (d & pre & E & Hp).
      destruct (H (Spec.glonass_only ts ".gz") d pre "g"%char "gz" E Hp) as [-> ->];
        try done. by split; [|left].
    + destruct (glonass_shape ts "Z") as (d & pre & E & Hp).
      destruct (H (Spec.glonass_only ts ".Z") d pre "g"%char "Z" E Hp) as [-> ->];
        try done. by split; [|right].
  - destruct (combined_secondary_shape ts) as (d & pre & E & Hp).
    destruct (H _ d pre "x"%char "gz" E Hp) as [-> ->]; try done. by split; [|left].
Qed.

(** The cache path of a descriptor of the day is never the download
    path of one, and two descriptors with the same cache path are the
    same. *)
Ltac strip H := repeat (apply (inj (String.app _)) in H).

Lemma day_paths_apart self ts fi1 fi2 :
  fi1 ∈ day_files ts -> fi2 ∈ day_files ts ->
  rinex_path_of self fi1 <> dest_filepath_of self fi2 /\
  (rinex_path_of self fi1 = rinex_path_of self fi2 -> fi1 = fi2).
Proof.
  destruct (combined_primary_local self ts) as [Dc Rc].
  destruct (gps_local self ts) as [Dn Rn].
  destruct (glonass_local self ts) as [Dg Rg].
  destruct (combined_secondary_local self ts) as [Ds Rs].
  assert (Hext : get_filetype ts <> "")
    by (by destruct (get_filetype_cases ts) as [-> | ->]).
  unfold day_files. rewrite !elem_of_cons, !elem_of_nil.
  intros [->|[->|[->|[->|[]]]]] [->|[->|[->|[->|[]]]]];
    rewrite ?Dc, ?Rc, ?Dn, ?Rn, ?Dg, ?Rg, ?Ds, ?Rs;
    (split; [intros H|intros H; try done]);
    rewrite ?sapp_assoc in H; strip H;
    try (by rewrite ?sapp_cons in H);
    rewrite sapp_cons, sapp_nil_l in H; injection H as H; by destruct Hext.
Qed.

End LayoutFacts.

(** X4. For each descriptor of a day the directory and the file name
    that [get_rinex_path] cuts out of the remote path, joined again
    with a separator, are the remote path itself; whatever
    [get_rinex_path] sends for the descriptor is an initial part of
    the session of its host for that very path. *)
Theorem day_file_remote_path env self ts fi w :
  fi ∈ day_files ts ->
  fst (split (filepath fi)) +:+ "/" +:+ snd (split (filepath fi)) = filepath fi /\
  exists k, wire (snd (get_rinex_path env self fi w)) =
            wire w ++ take k (session (url fi) (filepath fi)).
Proof.
  intros Hfi. pose proof (LayoutFacts.day_file_rejoin ts fi Hfi) as Hre.
  split; [done|].
  unfold get_rinex_path, bind, os.isfile, ret.
  destruct (bool_decide _); cbn [negb].
  - exists 0%nat. by rewrite take_0, app_nil_r.
  - destruct (emits_retrieve_file env self (url fi) (fst (split (filepath fi)))
                (snd (split (filepath fi))) (dest_filepath_of self fi) w)
      as (k & _ & Hw & _).
    rewrite Hre in Hw. exists k.
    by destruct (retrieve_file _ _ _ _ _ _ _) as [[[]|e] w1].
Qed.

Lemma day_file_remote_path_witness :
  let fi := Spec.combined_secondary Sample.ts in
  fst (split (filepath fi)) +:+ "/" +:+ snd (split (filepath fi)) = filepath fi /\
  exists k, wire (snd (get_rinex_path Sample.serving Sample.self fi Sample.empty_world)) =
            wire Sample.empty_world ++ take k (session (url fi) (filepath fi)).
Proof.
  intros fi.
  apply (day_file_remote_path Sample.serving Sample.self Sample.ts fi Sample.empty_world).
  unfold day_files. set_solver.
Defined.

(** X5. The local paths of the descriptors of a day: the files of the
    primary archive are cached under [nasa], the file of the secondary
    archive under [igs], each under the remote file name without its
    compression suffix; the download path is the cache path followed
    by the suffix of the remote name, which is [.gz] or [.Z]. *)
Theorem day_file_cache_layout self ts :
  let N := join_prefix (ephemeris_directory self) +:+ "nasa/" in
  let I := join_prefix (ephemeris_directory self) +:+ "igs/" in
  rinex_path_of self (Spec.combined_primary ts) =
    N +:+ "BRDC00IGS_R_" +:+ Spec.yyyy ts +:+ Spec.ddd ts +:+ "0000_01D_MN.rnx" /\
  rinex_path_of self (Spec.gps_only ts (get_filetype ts)) =
    N +:+ "brdc" +:+ Spec.ddd ts +:+ "0." +:+ Spec.yy ts +:+ "n" /\
  rinex_path_of self (Spec.glonass_only ts (get_filetype ts)) =
    N +:+ "brdc" +:+ Spec.ddd ts +:+ "0." +:+ Spec.yy ts +:+ "g" /\
  rinex_path_of self (Spec.combined_secondary ts) =
    I +:+ "BRDC00WRD_S_" +:+ Spec.yyyy ts +:+ Spec.ddd ts +:+ "0000_01D_MN.rnx" /\
  forall fi, fi ∈ day_files ts ->
    dest_filepath_of self fi = rinex_path_of self fi +:+ snd (splitext (filepath fi)) /\
    (snd (splitext (filepath fi)) = ".gz" \/ snd (splitext (filepath fi)) = ".Z").
Proof.
  intros N I. subst N I.
  destruct (LayoutFacts.combined_primary_local self ts) as [Dc Rc].
  destruct (LayoutFacts.gps_local self ts) as [Dn Rn].
  destruct (LayoutFacts.glonass_local self ts) as [Dg Rg].
  destruct (LayoutFacts.combined_secondary_local self ts) as [Ds Rs].
  split; [by rewrite Rc, !sapp_assoc|]. split; [by rewrite Rn, !sapp_assoc|].
  split; [by rewrite Rg, !sapp_assoc|]. split; [by rewrite Rs, !sapp_assoc|].
  unfold day_files. intros fi. rewrite !elem_of_cons, elem_of_nil.
  intros [->|[->|[->|[->|[]]]]].
  - destruct (combined_primary_shape ts) as (d & pre & E & Hp).
    rewrite (remote_ext _ d pre "x" "gz" E) by done.
    split; [|by left]. by rewrite Dc, Rc, !sapp_assoc.
  - destruct (get_filetype_cases ts) as [Hft|Hft]; rewrite Hft in *.
    + destruct (gps_shape ts "gz") as (d & pre & E & Hp).
      rewrite (remote_ext (Spec.gps_only ts ".gz") d pre "n" "gz" E) by done.
      split; [|by left]. by rewrite Dn, Rn, !sapp_assoc.
    + destruct (gps_shape ts "Z") as (d & pre & E & Hp).
      rewrite (remote_ext (Spec.gps_only ts ".Z") d pre "n" "Z" E) by done.
      split; [|by right]. by rewrite Dn, Rn, !sapp_assoc.
  - destruct (get_filetype_cases ts) as [Hft|Hft]; rewrite Hft in *.
    + destruct (glonass_shape ts "gz") as (d & pre & E & Hp).
      rewrite (remote_ext (Spec.glonass_only ts ".gz") d pre "g" "gz" E) by done.
      split; [|by left]. by rewrite Dg, Rg, !sapp_assoc.
    + destruct (glonass_shape ts "Z") as (d & pre & E & Hp).
      rewrite (remote_ext (Spec.glonass_only ts ".Z") d pre "g" "Z" E) by done.
      split; [|by right]. by rewrite Dg, Rg, !sapp_assoc.
  - destruct (combined_secondary_shape ts) as (d & pre & E & Hp).
    rewrite (remote_ext _ d pre "x" "gz" E) by done.
    split; [|by left]. by rewrite Ds, Rs, !sapp_assoc.
Qed.

Lemma day_file_cache_layout_witness :
  dest_filepath_of Sample.self (Spec.gps_only Sample.ts_old (get_filetype Sample.ts_old)) =
  rinex_path_of Sample.self (Spec.gps_only Sample.ts_old (get_filetype Sample.ts_old)) +:+
  snd (splitext (filepath (Spec.gps_only Sample.ts_old (get_filetype Sample.ts_old)))).
Proof.
  apply (proj2 (proj2 (proj2 (proj2 (day_file_cache_layout Sample.self Sample.ts_old))))).
  unfold day_files. set_solver.
Defined.

(** X6. The cache paths of the descriptors of a day never collide:
    two of them with the same cache path are the same descriptor, and
    no cache path is the download path of any of them. *)
Theorem day_file_paths_distinct self ts fi1 fi2 :
  fi1 ∈ day_files ts -> fi2 ∈ day_files ts ->
  rinex_path_of self fi1 <> dest_filepath_of self fi2 /\
  (rinex_path_of self fi1 = rinex_path_of self fi2 -> fi1 = fi2).
Proof. apply LayoutFacts.day_paths_apart. Qed.

Lemma day_file_paths_distinct_witness :
  rinex_path_of Sample.self (Spec.gps_only Sample.ts (get_filetype Sample.ts)) <>
  dest_filepath_of Sample.self (Spec.glonass_only Sample.ts (get_filetype Sample.ts)).
Proof.
  apply (day_file_paths_distinct Sample.self Sample.ts); unfold day_files; set_solver.
Defined.
(** ** Downloads *)

Module DownloadFacts.

Lemma alter_new_file (m : gmap string (list byte)) root out :
  alter (fun old => old ++ out) root (<[root := []]> m) = <[root := out]> m.
Proof.
  apply map_eq. intros i. destruct (decide (i = root)) as [->|].
  - by rewrite lookup_alter_eq, !lookup_insert_eq.
  - by rewrite lookup_alter_ne, !lookup_insert_ne.
Qed.

(** [decompress_file] on a [.gz] file. *)
Lemma decompress_gz env p w data :
  snd (splitext p) = ".gz" -> fs w !! p = Some data ->
  decompress_file env p w =
  match snd (gunzip env data) with
  | None => (Ok tt, set_fs (fun m => delete p (<[fst (splitext p) := fst (gunzip env data)]> m)) w)
  | Some e => (Raise e, set_fs <[fst (splitext p) := fst (gunzip env data)]> w)
  end.
Proof.
  intros Hext Hp. assert (Hne : fst (splitext p) <> p).
  { apply splitext_root_neq. by rewrite Hext. }
  unfold decompress_file. rewrite Hext.
  unfold bind, open_rb, open_wb, read, write, ret, raise, os.remove, set_fs.
  cbn [String.eqb Ascii.eqb Bool.eqb andb]. rewrite Hp.
  cbn [fs socks next_sock wire stdout].
  rewrite lookup_insert_ne, Hp by done. cbn [default from_option id].
  rewrite alter_new_file.
  destruct (snd (gunzip env data)); [done|].
  cbn [fs socks next_sock wire stdout].
  by rewrite lookup_insert_ne, Hp by done.
Qed.

(** [decompress_file] on a [.Z] file. *)
Lemma decompress_Z env p w data :
  snd (splitext p) = ".Z" -> fs w !! p = Some data ->
  decompress_file env p w =
  match unlzw env data with
  | Ok out => (Ok tt, set_fs (fun m => delete p (<[fst (splitext p) := out]> m)) w)
  | Raise e => (Raise e, set_fs <[fst (splitext p) := []]> w)
  end.
Proof.
  intros Hext Hp. assert (Hne : fst (splitext p) <> p).
  { apply splitext_root_neq. by rewrite Hext. }
  unfold decompress_file. rewrite Hext.
  unfold bind, open_rb, open_wb, read, write, ret, raise, os.remove, set_fs.
  cbn [String.eqb Ascii.eqb Bool.eqb andb]. rewrite Hp.
  cbn [fs socks next_sock wire stdout].
  rewrite lookup_insert_ne, Hp by done. cbn [default from_option id].
  destruct (unlzw env data); [|done].
  cbn [fs socks next_sock wire stdout]. rewrite alter_new_file.
  by rewrite lookup_insert_ne, Hp by done.
Qed.

(** A decompression that returns has removed its input. *)
Lemma decompress_ok_removed env p w w' :
  decompress_file env p w = (Ok tt, w') -> fs w' !! p = None.
Proof.
  unfold decompress_file. intros (? & w3 & _ & H)%bind_ok_inv.
  unfold os.remove in H. destruct (fs w3 !! p); [|done].
  injection H as <-. apply lookup_delete_eq.
Qed.

(** [decompress_file] on a file that does not exist. *)
Lemma decompress_missing env p w :
  fs w !! p = None -> decompress_file env p w = (Raise (FileNotFoundError p), w).
Proof.
  intros Hp. unfold decompress_file, bind, open_rb, os.remove, ret.
  destruct (String.eqb _ ".gz"); [by rewrite Hp|].
  destruct (String.eqb _ ".Z"); by rewrite Hp.
Qed.

(** Decompression removes no file other than its input. *)
Lemma decompress_keeps env p w q :
  q <> p -> is_Some (fs w !! q) ->
  is_Some (fs (snd (decompress_file env p w)) !! q).
Proof.
  intros Hq Hin.
  assert (Hins : forall out, is_Some (<[fst (splitext p) := out]> (fs w) !! q)).
  { intros out. destruct (decide (q = fst (splitext p))) as [->|].
    - rewrite lookup_insert_eq. by eexists.
    - by rewrite lookup_insert_ne. }
  destruct (fs w !! p) as [data|] eqn:Hp; [|by rewrite decompress_missing].
  destruct (String.eqb_spec (snd (splitext p)) ".gz") as [Hgz|Hgz].
  { rewrite (decompress_gz env p w data) by done.
    destruct (snd (gunzip env data)); cbn [snd fs set_fs];
      rewrite ?lookup_delete_ne by done; apply Hins. }
  destruct (String.eqb_spec (snd (splitext p)) ".Z") as [HZ|HZ].
  { rewrite (decompress_Z env p w data) by done.
    destruct (unlzw env data); cbn [snd fs set_fs];
      rewrite ?lookup_delete_ne by done; apply Hins. }
  rewrite decompress_file_other by (done || by eexists).
  cbn [snd fs set_fs]. by rewrite lookup_delete_ne.
Qed.

(** A connection that is returned went through its whole handshake. *)
Lemma connect_ok_inv env url secure w ftp w1 :
  connect env url secure w = (Ok ftp, w1) ->
  forall c, c ∈ handshake secure -> reply env url c = None.
Proof.
  unfold connect, FTP_new, ftp_login, ftp_prot_p, bind, send, open_socket, ret.
  destruct secure; cbn [ftp_host ftp_tls handshake].
  - destruct (reply env url CONNECT) eqn:E1; [done|]. cbn.
    destruct (reply env url AUTH_TLS) eqn:E2; [done|]. cbn.
    destruct (reply env url LOGIN) eqn:E3; [done|]. cbn.
    destruct (reply env url PROT_P) eqn:E4; [done|]. cbn.
    intros _ c Hc. repeat (apply elem_of_cons in Hc as [->|Hc]; [done|]).
    by apply elem_of_nil in Hc.
  - destruct (reply env url CONNECT) eqn:E1; [done|]. cbn.
    destruct (reply env url LOGIN) eqn:E3; [done|]. cbn.
    intros _ c Hc. repeat (apply elem_of_cons in Hc as [->|Hc]; [done|]).
    by apply elem_of_nil in Hc.
Qed.

(** A download that returns was served: every command of its session
    was answered positively. *)
Lemma retrieve_file_ok_inv env self url directory filename dest w w' :
  retrieve_file env self url directory filename dest w = (Ok tt, w') ->
  forall c, c ∈ session_cmds url (directory +:+ "/" +:+ filename) ->
            reply env url c = None.
Proof.
  unfold retrieve_file. fold NASA_HOST.
  intros (? & w0 & _ & H)%bind_ok_inv.
  apply bind_ok_inv in H as (ftp & w1 & Hconn & H).
  apply bind_ok_inv in H as (? & w2 & Htry & H).
  apply bind_ok_inv in H as (? & w3 & Hquit & H).
  pose proof (connect_value _ _ _ _ _ (f_equal fst Hconn)) as Hhost. cbn in Hhost.
  intros c Hc. unfold session_cmds in Hc.
  apply elem_of_app in Hc as [Hc|Hc].
  - by apply (connect_ok_inv _ _ _ _ _ _ Hconn).
  - apply elem_of_cons in Hc as [->|Hc].
    + unfold try_except in Htry. rewrite transfer_eq, Hhost in Htry.
      destruct (reply env url (CMD _)) as [e|]; [|done].
      destruct e; try done.
      unfold bind, os.remove, raise in Htry. by repeat case_match.
    + apply elem_of_cons in Hc as [->|Hc]; [|by apply elem_of_nil in Hc].
      unfold ftp_quit, bind, send in Hquit. rewrite Hhost in Hquit.
      by destruct (reply env url QUIT).
Qed.

(** The world in which [get_rinex_path] starts the decompression of a
    file that is not cached and that the server serves. *)
Lemma get_rinex_path_served env self fi w :
  let directory := fst (split (filepath fi)) in
  let filename := snd (split (filepath fi)) in
  let src := directory +:+ "/" +:+ filename in
  let dest := dest_filepath_of self fi in
  fs w !! rinex_path_of self fi = None ->
  (forall c, c ∈ session_cmds (url fi) src -> reply env (url fi) c = None) ->
  get_rinex_path env self fi w =
  let r := decompress_file env dest
     (mk_World (<[dest := retr_data env (url fi) ("RETR " +:+ src)]> (fs w))
               (filter (fun s => s <> next_sock w) (socks w)) (S (next_sock w))
               (wire w ++ session (url fi) src)
               (stdout w ++ announce self (url fi) directory filename)) in
  (match fst r with Ok _ => Ok (rinex_path_of self fi) | Raise e => Raise e end, snd r).
Proof.
  intros directory filename src dest Hnone Hsrv.
  unfold get_rinex_path, bind, os.isfile, ret.
  rewrite bool_decide_false by (rewrite Hnone; by intros [? ?]).
  cbn [negb]. fold directory filename dest.
  rewrite retrieve_file_served by exact Hsrv.
  by destruct (decompress_file _ _ _) as [[[]|e] w1].
Qed.

Lemma filter_fresh (n : nat) (l : list nat) :
  n ∉ l -> filter (fun s => s <> n) l = l.
Proof.
  induction l as [|x l IH]; [done|]. intros [Hx Hl]%not_elem_of_cons.
  rewrite filter_cons_True by done. by rewrite IH.
Qed.

End DownloadFacts.
(** X7. A descriptor of the day that is not cached and that its host
    serves, with a decoder that accepts the bytes received: the call
    returns the cache path, the cache then holds the decoded bytes
    under that path, the download itself is gone and every other file
    is as before; the session of the host for the remote path was
    sent in full and the socket of the call is closed. *)
Theorem get_rinex_path_download env self ts fi w out :
  let data := retr_data env (url fi) ("RETR " +:+ filepath fi) in
  let r := get_rinex_path env self fi w in
  fi ∈ day_files ts ->
  fs w !! rinex_path_of self fi = None ->
  (forall c, c ∈ session_cmds (url fi) (filepath fi) -> reply env (url fi) c = None) ->
  (snd (splitext (filepath fi)) = ".gz" -> gunzip env data = (out, None)) ->
  (snd (splitext (filepath fi)) = ".Z" -> unlzw env data = Ok out) ->
  fst r = Ok (rinex_path_of self fi) /\
  fs (snd r) =
    <[rinex_path_of self fi := out]> (delete (dest_filepath_of self fi) (fs w)) /\
  wire (snd r) = wire w ++ session (url fi) (filepath fi) /\
  socks (snd r) = filter (fun s => s <> next_sock w) (socks w).
Proof.
  intros data r Hfi Hnone Hsrv Hgz HZ. subst r.
  pose proof (LayoutFacts.day_file_rejoin ts fi Hfi) as Hre.
  destruct (LayoutFacts.day_file_suffix self ts fi Hfi) as [Hsuf Hcases].
  assert (Hne : rinex_path_of self fi <> dest_filepath_of self fi)
    by (by apply (LayoutFacts.day_paths_apart self ts)).
  rewrite DownloadFacts.get_rinex_path_served by (done || by rewrite Hre).
  rewrite Hre. fold data. cbn zeta.
  assert (Hfs : forall m : gmap string (list byte),
            delete (dest_filepath_of self fi)
              (<[rinex_path_of self fi := out]> (<[dest_filepath_of self fi := data]> m))
            = <[rinex_path_of self fi := out]> (delete (dest_filepath_of self fi) m)).
  { intros m. by rewrite delete_insert_ne, delete_insert_eq by done. }
  destruct Hcases as [Hext|Hext].
  - rewrite (DownloadFacts.decompress_gz env _ _ data);
      [| by rewrite Hsuf | cbn [fs]; by rewrite lookup_insert_eq].
    rewrite (Hgz Hext). cbn [fst snd set_fs fs wire socks].
    fold (rinex_path_of self fi). by rewrite Hfs.
  - rewrite (DownloadFacts.decompress_Z env _ _ data);
      [| by rewrite Hsuf | cbn [fs]; by rewrite lookup_insert_eq].
    rewrite (HZ Hext). cbn [fst snd set_fs fs wire socks].
    fold (rinex_path_of self fi). by rewrite Hfs.
Qed.

Lemma get_rinex_path_download_witness :
  let fi := Spec.gps_only Sample.ts_old (get_filetype Sample.ts_old) in
  let r := get_rinex_path Sample.serving Sample.self fi Sample.empty_world in
  fst r = Ok (rinex_path_of Sample.self fi) /\
  fs (snd r) = <[rinex_path_of Sample.self fi := [x1f; x8b]]>
                 (delete (dest_filepath_of Sample.self fi) (fs Sample.empty_world)) /\
  wire (snd r) = wire Sample.empty_world ++ session (url fi) (filepath fi) /\
  socks (snd r) =
    filter (fun s => s <> next_sock Sample.empty_world) (socks Sample.empty_world).
Proof.
  intros fi.
  apply (get_rinex_path_download Sample.serving Sample.self Sample.ts_old fi
           Sample.empty_world [x1f; x8b]).
  - unfold day_files. set_solver.
  - by vm_compute.
  - done.
  - done.
  - done.
Defined.

(** X8. A decoder that fails poisons the cache. For a descriptor of
    the day that is not cached and that its host serves, when the
    decoder rejects the bytes received the call raises the decoder's
    exception and leaves both the download and the output written so
    far (nothing, for [.Z]) on disk; the next call finds that output
    and returns its path without any transfer. *)
Theorem failed_decompression_is_cached env self ts fi w written e :
  let data := retr_data env (url fi) ("RETR " +:+ filepath fi) in
  let r := get_rinex_path env self fi w in
  fi ∈ day_files ts ->
  fs w !! rinex_path_of self fi = None ->
  (forall c, c ∈ session_cmds (url fi) (filepath fi) -> reply env (url fi) c = None) ->
  (snd (splitext (filepath fi)) = ".gz" -> gunzip env data = (written, Some e)) ->
  (snd (splitext (filepath fi)) = ".Z" -> unlzw env data = Raise e /\ written = []) ->
  fst r = Raise e /\
  fs (snd r) !! rinex_path_of self fi = Some written /\
  fs (snd r) !! dest_filepath_of self fi = Some data /\
  get_rinex_path env self fi (snd r) = (Ok (rinex_path_of self fi), snd r).
Proof.
  intros data r Hfi Hnone Hsrv Hgz HZ.
  pose proof (LayoutFacts.day_file_rejoin ts fi Hfi) as Hre.
  destruct (LayoutFacts.day_file_suffix self ts fi Hfi) as [Hsuf Hcases].
  assert (Hne : rinex_path_of self fi <> dest_filepath_of self fi)
    by (by apply (LayoutFacts.day_paths_apart self ts)).
  assert (Hr : fst r = Raise e /\
               fs (snd r) = <[rinex_path_of self fi := written]>
                              (<[dest_filepath_of self fi := data]> (fs w))).
  { subst r.
    rewrite DownloadFacts.get_rinex_path_served by (done || by rewrite Hre).
    rewrite Hre. fold data. cbn zeta.
    destruct Hcases as [Hext|Hext].
    - rewrite (DownloadFacts.decompress_gz env _ _ data);
        [| by rewrite Hsuf | cbn [fs]; by rewrite lookup_insert_eq].
      by rewrite (Hgz Hext).
    - rewrite (DownloadFacts.decompress_Z env _ _ data);
        [| by rewrite Hsuf | cbn [fs]; by rewrite lookup_insert_eq].
      destruct (HZ Hext) as [-> ->]. done. }
  destruct Hr as [Hr1 Hr2]. split; [done|].
  assert (Hrin : fs (snd r) !! rinex_path_of self fi = Some written)
    by (by rewrite Hr2, lookup_insert_eq).
  split; [done|]. split.
  - by rewrite Hr2, lookup_insert_ne, lookup_insert_eq.
  - apply get_rinex_path_hit. by rewrite Hrin.
Qed.

Lemma failed_decompression_is_cached_witness :
  let fi := Spec.gps_only Sample.ts (get_filetype Sample.ts) in
  let r := get_rinex_path Faulty.corrupt Sample.self fi Sample.empty_world in
  fst r = Raise (error_other "BadGzipFile") /\
  fs (snd r) !! rinex_path_of Sample.self fi = Some [x41] /\
  fs (snd r) !! dest_filepath_of Sample.self fi = Some [x1f; x8b] /\
  get_rinex_path Faulty.corrupt Sample.self fi (snd r) =
    (Ok (rinex_path_of Sample.self fi), snd r).
Proof.
  intros fi.
  apply (failed_decompression_is_cached Faulty.corrupt Sample.self Sample.ts fi
           Sample.empty_world [x41] (error_other "BadGzipFile")).
  - unfold day_files. set_solver.
  - by vm_compute.
  - done.
  - done.
  - intros H. by vm_compute in H.
Defined.

(** X9. Only a permission error is handled. When the connection is
    established and the transfer fails with any other exception,
    [retrieve_file] raises that exception as it is and leaves on disk
    the bytes received so far; the transfer is requested once and the
    socket stays open. *)
Theorem retrieve_file_other_error env self url directory filename dest w e :
  let src := directory +:+ "/" +:+ filename in
  let r := retrieve_file env self url directory filename dest w in
  (forall c, c ∈ handshake (bool_decide (url = NASA_HOST)) -> reply env url c = None) ->
  reply env url (CMD ("RETR " +:+ src)) = Some e ->
  (forall msg, e <> error_perm msg) ->
  fst r = Raise e /\
  fs (snd r) = <[dest := retr_data env url ("RETR " +:+ src)]> (fs w) /\
  wire (snd r) = wire w ++ map (pair url) (handshake (bool_decide (url = NASA_HOST)))
                        ++ [(url, CMD ("RETR " +:+ src))] /\
  socks (snd r) = next_sock w :: socks w.
Proof.
  intros src r Hhs Hretr Hne.
  assert (E : r =
    (Raise e,
     mk_World (<[dest := retr_data env url ("RETR " +:+ src)]> (fs w))
              (next_sock w :: socks w) (S (next_sock w))
              (wire w ++ map (pair url) (handshake (bool_decide (url = NASA_HOST)))
                      ++ [(url, CMD ("RETR " +:+ src))])
              (stdout w ++ announce self url directory filename))).
  { subst r. unfold retrieve_file. fold NASA_HOST. fold src.
    unfold bind at 1. rewrite prologue_eq.
    unfold bind at 1. rewrite connect_ok by done.
    unfold bind at 1. unfold try_except. rewrite transfer_eq.
    cbn [ftp_host]. rewrite Hretr.
    destruct e as [msg| | | |]; [by destruct (Hne msg)|..];
      cbn [fs wire socks next_sock stdout]; by rewrite <- (assoc (++)). }
  by rewrite E.
Qed.

Lemma retrieve_file_other_error_witness :
  let r := retrieve_file Faulty.dropping Sample.self NASA_HOST
             "gnss/data/daily/2023/brdc" "brdc0740.23n.gz"
             "data/ephemeris/nasa/brdc0740.23n.gz" Sample.empty_world in
  fst r = Raise (error_other "426 Connection closed; transfer aborted.") /\
  fs (snd r) = <[ "data/ephemeris/nasa/brdc0740.23n.gz" := [x1f] ]> ∅ /\
  socks (snd r) = [0%nat].
Proof.
  intros r.
  destruct (retrieve_file_other_error Faulty.dropping Sample.self NASA_HOST
              "gnss/data/daily/2023/brdc" "brdc0740.23n.gz"
              "data/ephemeris/nasa/brdc0740.23n.gz" Sample.empty_world
              (error_other "426 Connection closed; transfer aborted."))
    as (H1 & H2 & _ & H4).
  - intros c Hc. destruct c; try done.
    rewrite bool_decide_true in Hc by done. unfold handshake in Hc.
    repeat (apply elem_of_cons in Hc as [Hc|Hc]; [done|]). by apply elem_of_nil in Hc.
  - done.
  - done.
  - by repeat split.
Defined.

(** X10. [decompress_file] on a path at which there is no file raises
    [FileNotFoundError] and leaves the world as it is, whatever the
    suffix: no output file is created. *)
Theorem decompress_file_missing env p w :
  fs w !! p = None ->
  decompress_file env p w = (Raise (FileNotFoundError p), w).
Proof. apply DownloadFacts.decompress_missing. Qed.

Lemma decompress_file_missing_witness :
  decompress_file Sample.serving "data/ephemeris/nasa/brdc0740.23n.gz" Sample.empty_world =
  (Raise (FileNotFoundError "data/ephemeris/nasa/brdc0740.23n.gz"), Sample.empty_world).
Proof. apply decompress_file_missing. done. Defined.

(** X11. A call of [retrieve_file] that returns was served in full:
    every command of the session was answered positively, the
    download has been removed again after its decompression, and the
    socket of the call is closed, so that no socket is open that was
    not open before. *)
Theorem retrieve_file_returns env self url directory filename dest w w' :
  retrieve_file env self url directory filename dest w = (Ok tt, w') ->
  (forall c, c ∈ session_cmds url (directory +:+ "/" +:+ filename) ->
             reply env url c = None) /\
  fs w' !! dest = None /\
  socks w' = filter (fun s => s <> next_sock w) (socks w) /\
  (next_sock w ∉ socks w -> socks w' = socks w).
Proof.
  intros H. pose proof (DownloadFacts.retrieve_file_ok_inv _ _ _ _ _ _ _ _ H) as Hsrv.
  split; [done|].
  rewrite retrieve_file_served in H by done.
  assert (Hsocks : socks w' = filter (fun s => s <> next_sock w) (socks w)).
  { destruct (decompress_file_frame env dest
      (mk_World (<[dest := retr_data env url
                     ("RETR " +:+ directory +:+ "/" +:+ filename)]> (fs w))
                (filter (fun s => s <> next_sock w) (socks w)) (S (next_sock w))
                (wire w ++ session url (directory +:+ "/" +:+ filename))
                (stdout w ++ announce self url directory filename)))
      as (_ & Hs & _).
    by rewrite H in Hs. }
  split; [by apply DownloadFacts.decompress_ok_removed in H|].
  split; [done|]. intros Hfresh. rewrite Hsocks.
  by apply DownloadFacts.filter_fresh.
Qed.

Lemma retrieve_file_returns_witness :
  let w' := snd (retrieve_file Sample.serving Sample.self NASA_HOST
                   "gnss/data/daily/2023/brdc" "brdc0740.23n.gz"
                   "data/ephemeris/nasa/brdc0740.23n.gz" Sample.empty_world) in
  fs w' !! "data/ephemeris/nasa/brdc0740.23n.gz" = None /\
  socks w' = socks Sample.empty_world.
Proof.
  intros w'.
  destruct (retrieve_file_returns Sample.serving Sample.self NASA_HOST
              "gnss/data/daily/2023/brdc" "brdc0740.23n.gz"
              "data/ephemeris/nasa/brdc0740.23n.gz" Sample.empty_world w')
    as (_ & H2 & _ & H4).
  - by vm_compute.
  - split; [done|]. apply H4. apply not_elem_of_nil.
Defined.

(** ** Batches *)

Module BatchFacts.

Section Preserves.
Context {A B : Type} (P : World -> Prop).

Lemma preserves_bind (m : M A) (f : A -> M B) :
  preserves P m -> (forall a, preserves P (f a)) -> preserves P (bind m f).
Proof.
  intros Hm Hf w Hw. unfold bind. specialize (Hm w Hw).
  destruct (m w) as [[a|e] w1]; [by apply Hf|done].
Qed.

Lemma preserves_try (m : M A) (h : exn -> option (M A)) :
  preserves P m -> (forall e k, h e = Some k -> preserves P k) ->
  preserves P (try_except m h).
Proof.
  intros Hm Hh w Hw. unfold try_except. specialize (Hm w Hw).
  destruct (m w) as [[a|e] w1]; [done|].
  destruct (h e) as [k|] eqn:E; [by apply (Hh e k)|done].
Qed.

Lemma preserves_for_append (f : A -> M B) xs acc :
  (forall x, x ∈ xs -> preserves P (f x)) -> preserves P (for_append f xs acc).
Proof.
  revert acc. induction xs as [|x xs IH]; intros acc H; [by intros w Hw|].
  cbn [for_append]. intros w Hw. unfold bind.
  pose proof (H x ltac:(left) w Hw) as Hx.
  destruct (f x w) as [[y|e] w1]; [|done].
  apply IH; [|done]. intros x' Hx'. apply H. by right.
Qed.

End Preserves.

Lemma connect_fs env url secure w : fs (snd (connect env url secure w)) = fs w.
Proof.
  unfold connect, FTP_new, ftp_login, ftp_prot_p, bind, send, open_socket, ret.
  destruct secure; cbn [ftp_host ftp_tls];
    repeat (destruct (reply env url _); cbn; try done).
Qed.

(** *** Properties of the local files *)

Section FsFrame.
Context (env : Env) (self : EphemerisDownloader).
Context (Q : gmap string (list byte) -> Prop).

Lemma preserves_fs_same {A} (m : M A) :
  (forall w, fs (snd (m w)) = fs w) -> preserves (fun w => Q (fs w)) m.
Proof. intros H w Hw. by rewrite H. Qed.

Lemma decompress_file_preserves p :
  (forall m, Q m -> Q (delete p m)) ->
  (forall m d, Q m -> Q (<[fst (splitext p) := d]> m)) ->
  preserves (fun w => Q (fs w)) (decompress_file env p).
Proof.
  intros Hdel Hroot w Hw.
  destruct (fs w !! p) as [data|] eqn:Hp; [|by rewrite DownloadFacts.decompress_missing].
  destruct (String.eqb_spec (snd (splitext p)) ".gz") as [Hgz|Hgz].
  { rewrite (DownloadFacts.decompress_gz env p w data) by done.
    destruct (snd (gunzip env data)); cbn [snd fs set_fs]; auto. }
  destruct (String.eqb_spec (snd (splitext p)) ".Z") as [HZ|HZ].
  { rewrite (DownloadFacts.decompress_Z env p w data) by done.
    destruct (unlzw env data); cbn [snd fs set_fs]; auto. }
  rewrite decompress_file_other by (done || by eexists).
  cbn [snd fs set_fs]. auto.
Qed.

Lemma retrieve_file_preserves url directory filename dest :
  (forall m d, Q m -> Q (<[dest := d]> m)) ->
  (forall m, Q m -> Q (delete dest m)) ->
  (forall m d, Q m -> Q (<[fst (splitext dest) := d]> m)) ->
  preserves (fun w => Q (fs w)) (retrieve_file env self url directory filename dest).
Proof.
  intros Hins Hdel Hroot. unfold retrieve_file.
  apply preserves_bind.
  { apply preserves_fs_same. intros w. by destruct (verbose self). }
  intros _. apply preserves_bind; [apply preserves_fs_same, connect_fs|].
  intros ftp. apply preserves_bind.
  { apply preserves_try.
    - intros w Hw. rewrite transfer_eq. cbn [snd fs]. by apply Hins.
    - intros e k Hk. destruct e; simplify_eq.
      apply preserves_bind; [|intros; by apply preserves_fs_same].
      intros w Hw. unfold os.remove.
      destruct (fs w !! dest); cbn [snd fs set_fs]; auto. }
  intros _. apply preserves_bind.
  { apply preserves_fs_same. intros w. unfold ftp_quit, ftp_close, bind, send.
    by destruct (reply env _ QUIT). }
  intros _. apply preserves_bind; [by apply preserves_fs_same|].
  intros _. by apply decompress_file_preserves.
Qed.

Lemma get_rinex_path_preserves fi :
  (forall m d, Q m -> Q (<[dest_filepath_of self fi := d]> m)) ->
  (forall m, Q m -> Q (delete (dest_filepath_of self fi) m)) ->
  (forall m d, Q m -> Q (<[rinex_path_of self fi := d]> m)) ->
  preserves (fun w => Q (fs w)) (get_rinex_path env self fi).
Proof.
  intros Hins Hdel Hroot. unfold get_rinex_path.
  apply preserves_bind; [by apply preserves_fs_same|].
  intros present. apply preserves_bind; [|intros; by apply preserves_fs_same].
  destruct (negb present); [|by apply preserves_fs_same].
  by apply retrieve_file_preserves.
Qed.

End FsFrame.

(** A fetch removes no file other than its download. *)
Lemma get_rinex_path_keeps env self fi q :
  q <> dest_filepath_of self fi ->
  preserves (fun w => is_Some (fs w !! q)) (get_rinex_path env self fi).
Proof.
  intros Hq.
  apply (get_rinex_path_preserves env self (fun m => is_Some (m !! q))).
  - intros m d H. by rewrite lookup_insert_ne.
  - intros m H. by rewrite lookup_delete_ne.
  - intros m d H. destruct (decide (rinex_path_of self fi = q)) as [->|].
    + rewrite lookup_insert_eq. by eexists.
    + by rewrite lookup_insert_ne.
Qed.

(** A fetch touches its download and its decompressed file only. *)
Lemma get_rinex_path_frame env self fi q v :
  q <> dest_filepath_of self fi -> q <> rinex_path_of self fi ->
  preserves (fun w => fs w !! q = v) (get_rinex_path env self fi).
Proof.
  intros Hq Hr.
  apply (get_rinex_path_preserves env self (fun m => m !! q = v)).
  - intros m d H. by rewrite lookup_insert_ne.
  - intros m H. by rewrite lookup_delete_ne.
  - intros m d H. by rewrite lookup_insert_ne.
Qed.

(** The descriptors that [load_data] fetches are descriptors of the
    day, fetched one after the other. *)
Lemma load_data_selection env self ts cs same_day :
  exists xs, (forall fi, fi ∈ xs -> fi ∈ day_files ts) /\
    forall w, load_data env self ts cs same_day w =
              for_append (get_rinex_path env self) xs [] w.
Proof.
  destruct cs as [cs|]; [|by exists (day_files ts)].
  destruct same_day.
  - eexists. split; [|intros w; apply load_data_same_day].
    intros fi Hfi. unfold day_files. destruct (bool_decide _); set_solver.
  - destruct (decide (cs ⊆ Spec.legacy)) as [H|H].
    + eexists. split; [|intros w; by apply load_data_historical_legacy].
      intros fi Hfi. unfold day_files.
      destruct (bool_decide ("G" ∈ cs)), (bool_decide ("R" ∈ cs)); set_solver.
    + eexists. split; [|intros w; by apply load_data_historical_other].
      intros fi Hfi. unfold day_files. set_solver.
Qed.

(** After a loop that returned, every file of the loop is on disk. *)
Lemma for_append_cached env self ts xs acc w ps w' :
  (forall fi, fi ∈ xs -> fi ∈ day_files ts) ->
  for_append (get_rinex_path env self) xs acc w = (Ok ps, w') ->
  forall fi, fi ∈ xs -> is_Some (fs w' !! rinex_path_of self fi).
Proof.
  revert acc w. induction xs as [|x xs IH]; intros acc w Hxs H fi Hfi.
  { by apply elem_of_nil in Hfi. }
  cbn [for_append] in H. apply bind_ok_inv in H as (p & w1 & Hp & H).
  apply elem_of_cons in Hfi as [->|Hfi].
  - assert (Hx : is_Some (fs w1 !! rinex_path_of self x)).
    { pose proof (get_rinex_path_value _ _ _ _ _ _ Hp) as <-.
      apply (get_rinex_path_on_disk env self x w); [|done].
      apply (day_files_ext self ts), Hxs. left. }
    assert (Hk : preserves (fun w => is_Some (fs w !! rinex_path_of self x))
                   (for_append (get_rinex_path env self) xs (acc ++ [p]))).
    { apply preserves_for_append. intros fi Hfi. apply get_rinex_path_keeps.
      apply (LayoutFacts.day_paths_apart self ts); apply Hxs; [left|by right]. }
    specialize (Hk w1 Hx). by rewrite H in Hk.
  - apply (IH (acc ++ [p]) w1); [|done..]. intros fi' Hfi'. apply Hxs. by right.
Qed.

(** The sockets of a fetch that returned. *)
Lemma get_rinex_path_ok_socks env self fi w p w' :
  get_rinex_path env self fi w = (Ok p, w') ->
  (forall s, s ∈ socks w -> (s < next_sock w)%nat) ->
  socks w' = socks w /\ (next_sock w <= next_sock w')%nat.
Proof.
  unfold get_rinex_path, bind, os.isfile, ret. intros H Hfresh.
  destruct (negb _); [|simplify_eq; split; [done|lia]].
  destruct (retrieve_file _ _ _ _ _ _ _) as [[[]|e] w1] eqn:E; [|done].
  simplify_eq.
  pose proof (DownloadFacts.retrieve_file_ok_inv _ _ _ _ _ _ _ _ E) as Hsrv.
  rewrite retrieve_file_served in E by done.
  match type of E with decompress_file _ _ ?W = _ =>
    destruct (decompress_file_frame env (dest_filepath_of self fi) W) as (_ & Hs & Hn & _)
  end.
  rewrite E in Hs, Hn. cbn [snd socks next_sock] in Hs, Hn.
  rewrite Hs, Hn. split; [|lia].
  apply DownloadFacts.filter_fresh. intros Hin%Hfresh. lia.
Qed.

Lemma for_append_ok_socks env self xs acc w ps w' :
  for_append (get_rinex_path env self) xs acc w = (Ok ps, w') ->
  (forall s, s ∈ socks w -> (s < next_sock w)%nat) ->
  socks w' = socks w /\ (next_sock w <= next_sock w')%nat.
Proof.
  revert acc w. induction xs as [|x xs IH]; intros acc w H Hfresh.
  { unfold for_append, ret in H. simplify_eq. split; [done|lia]. }
  cbn [for_append] in H. apply bind_ok_inv in H as (p & w1 & Hp & H).
  destruct (get_rinex_path_ok_socks _ _ _ _ _ _ Hp Hfresh) as [Hs Hn].
  destruct (IH _ _ H) as [Hs' Hn'].
  { intros s Hin. rewrite Hs in Hin. apply Hfresh in Hin. lia. }
  split; [congruence|lia].
Qed.

(** A loop that raises stops at the fetch that raised. *)
Lemma for_append_raise {A B} (f : A -> M B) xs acc w e w' :
  for_append f xs acc w = (Raise e, w') ->
  exists x w0, x ∈ xs /\ f x w0 = (Raise e, w').
Proof.
  revert acc w. induction xs as [|x xs IH]; intros acc w H; [done|].
  cbn [for_append] in H. unfold bind in H.
  destruct (f x w) as [[y|e0] w1] eqn:E.
  - destruct (IH _ _ H) as (x' & w0 & Hx' & H'). exists x', w0. split; [by right|done].
  - simplify_eq. exists x, w. split; [left|done].
Qed.


(** The flag [same_day] of [get_ephemeris]. *)
Lemma sub_days_window a b :
  Datetime.valid a -> Datetime.valid b ->
  let days := Datetime.toordinal a - Datetime.toordinal b in
  let tod (d : datetime) :=
    ((hour d * 60 + minute d) * 60 + second d) * 1000000 + microsecond d in
  Datetime.sub_days a b <= 0 <-> days <= 0 \/ days = 1 /\ tod a < tod b.
Proof.
  intros (_ & _ & _ & Hh & Hm & Hs & Hu) (_ & _ & _ & Hh' & Hm' & Hs' & Hu') days tod.
  unfold Datetime.sub_days. fold days.
  set (x := _ + (microsecond a - microsecond b)).
  assert (Hx : x = days * (86400 * 1000000) + (tod a - tod b)) by (unfold x, tod; lia).
  assert (Ha : 0 <= tod a < 86400 * 1000000) by (unfold tod; lia).
  assert (Hb : 0 <= tod b < 86400 * 1000000) by (unfold tod; lia).
  assert (Hdiv : x / (86400 * 1000000) <= 0 <-> x < 86400 * 1000000).
  { split; intros H.
    - apply Z.nle_gt. intros Hge.
      assert (1 <= x / (86400 * 1000000)); [|lia].
      apply Z.div_le_lower_bound; lia.
    - assert (x / (86400 * 1000000) < 1); [|lia].
      apply Z.div_lt_upper_bound; lia. }
  rewrite Hdiv, Hx. lia.
Qed.

End BatchFacts.

(** X12. The reply to [QUIT] is not handled. When the file has been
    received and the server answers [QUIT] with an error, whatever its
    class, [retrieve_file] raises that error as it is; the download
    stays on disk compressed, no decompressed file is written and the
    socket stays open. *)
Theorem retrieve_file_quit_error env self url directory filename dest w e :
  let src := directory +:+ "/" +:+ filename in
  let r := retrieve_file env self url directory filename dest w in
  (forall c, c ∈ handshake (bool_decide (url = NASA_HOST)) -> reply env url c = None) ->
  reply env url (CMD ("RETR " +:+ src)) = None ->
  reply env url QUIT = Some e ->
  fst r = Raise e /\
  fs (snd r) = <[dest := retr_data env url ("RETR " +:+ src)]> (fs w) /\
  wire (snd r) = wire w ++ session url src /\
  socks (snd r) = next_sock w :: socks w.
Proof.
  intros src r Hhs Hretr Hquit.
  assert (E : r =
    (Raise e,
     mk_World (<[dest := retr_data env url ("RETR " +:+ src)]> (fs w))
              (next_sock w :: socks w) (S (next_sock w))
              (wire w ++ session url src)
              (stdout w ++ announce self url directory filename))).
  { subst r. unfold retrieve_file. fold NASA_HOST. fold src.
    unfold bind at 1. rewrite prologue_eq.
    unfold bind at 1. rewrite connect_ok by done.
    unfold bind at 1. unfold try_except. rewrite transfer_eq.
    cbn [ftp_host]. rewrite Hretr.
    unfold bind at 1. unfold ftp_quit, bind, send.
    cbn [fs socks next_sock wire stdout ftp_host ftp_sock]. rewrite Hquit.
    do 2 f_equal. unfold session, session_cmds. rewrite map_app. cbn [map].
    by rewrite <- !(assoc (++)). }
  by rewrite E.
Qed.

Lemma retrieve_file_quit_error_witness :
  let r := retrieve_file Faulty.hanging Sample.self BKG_HOST "/IGS/BRDC/2023/074"
             "BRDC00WRD_S_20230740000_01D_MN.rnx.gz"
             "data/ephemeris/igs/BRDC00WRD_S_20230740000_01D_MN.rnx.gz"
             Sample.empty_world in
  fst r = Raise (error_perm "500 Unknown command.") /\
  fs (snd r) =
    <[ "data/ephemeris/igs/BRDC00WRD_S_20230740000_01D_MN.rnx.gz" := [x1f; x8b] ]> ∅ /\
  socks (snd r) = [0%nat].
Proof.
  intros r.
  destruct (retrieve_file_quit_error Faulty.hanging Sample.self BKG_HOST
              "/IGS/BRDC/2023/074" "BRDC00WRD_S_20230740000_01D_MN.rnx.gz"
              "data/ephemeris/igs/BRDC00WRD_S_20230740000_01D_MN.rnx.gz"
              Sample.empty_world (error_perm "500 Unknown command."))
    as (H1 & H2 & _ & H4).
  - intros c Hc. destruct c; try done.
    rewrite bool_decide_false in Hc by done. unfold handshake in Hc.
    repeat (apply elem_of_cons in Hc as [Hc|Hc]; [done|]). by apply elem_of_nil in Hc.
  - reflexivity.
  - reflexivity.
  - by repeat split.
Defined.



(** X14. After a call of [load_data] that returned, every path of the
    list it returned names a file on disk, and the same call again
    returns the same list and leaves the world as it is: nothing is
    sent and no file is written. *)
Theorem load_data_then_cached env self ts cs same_day w ps w' :
  load_data env self ts cs same_day w = (Ok ps, w') ->
  (forall p, p ∈ ps -> is_Some (fs w' !! p)) /\
  load_data env self ts cs same_day w' = (Ok ps, w').
Proof.
  destruct (BatchFacts.load_data_selection env self ts cs same_day) as (xs & Hxs & Hsel).
  rewrite !Hsel. intros H.
  pose proof (for_append_value _ _ _ _ _ _ _ H) as Hps. cbn [app] in Hps.
  pose proof (BatchFacts.for_append_cached env self ts xs [] w ps w' Hxs H) as Hdisk.
  split.
  - intros p Hp. rewrite Hps in Hp. apply list_elem_of_In, in_map_iff in Hp as (fi & <- & Hfi%list_elem_of_In).
    by apply Hdisk.
  - rewrite for_append_hit by done. by rewrite Hps.
Qed.

Lemma load_data_then_cached_witness :
  let r := load_data Sample.serving Sample.self Sample.ts None false Sample.empty_world in
  load_data Sample.serving Sample.self Sample.ts None false (snd r) =
  (Ok (map (rinex_path_of Sample.self) (day_files Sample.ts)), snd r).
Proof.
  intros r.
  apply (load_data_then_cached Sample.serving Sample.self Sample.ts None false
           Sample.empty_world).
  vm_compute. reflexivity.
Defined.

(** X15. A call of [load_data] that returned left no socket open: in a
    world whose open sockets were all allocated before, the open
    sockets after the call are those before it. *)
Theorem load_data_closes_sockets env self ts cs same_day w ps w' :
  (forall s, s ∈ socks w -> (s < next_sock w)%nat) ->
  load_data env self ts cs same_day w = (Ok ps, w') ->
  socks w' = socks w.
Proof.
  intros Hfresh.
  destruct (BatchFacts.load_data_selection env self ts cs same_day) as (xs & _ & Hsel).
  rewrite Hsel. intros H.
  by destruct (BatchFacts.for_append_ok_socks _ _ _ _ _ _ _ H Hfresh).
Qed.

Lemma load_data_closes_sockets_witness :
  socks (snd (load_data Sample.serving Sample.self Sample.ts None false
                Sample.empty_world)) = [].
Proof.
  apply (load_data_closes_sockets Sample.serving Sample.self Sample.ts None false
           Sample.empty_world (map (rinex_path_of Sample.self) (day_files Sample.ts))).
  - intros s Hs. by apply elem_of_nil in Hs.
  - vm_compute. reflexivity.
Defined.

(** X16. An exception out of [load_data] is the exception of the fetch
    of one descriptor of the day, and the world is as that fetch left
    it: [load_data] raises no [KeyError], handles nothing and does
    nothing after the failure, so the descriptors that come after it
    are not fetched. *)
Theorem load_data_raises_from_fetch env self ts cs same_day w e w' :
  load_data env self ts cs same_day w = (Raise e, w') ->
  exists fi w0, fi ∈ day_files ts /\ get_rinex_path env self fi w0 = (Raise e, w').
Proof.
  destruct (BatchFacts.load_data_selection env self ts cs same_day) as (xs & Hxs & Hsel).
  rewrite Hsel. intros (fi & w0 & Hfi & H)%BatchFacts.for_append_raise.
  exists fi, w0. split; [by apply Hxs|done].
Qed.

Lemma load_data_raises_from_fetch_witness :
  exists fi w0, fi ∈ day_files Sample.ts /\
    get_rinex_path Sample.refusing Sample.self fi w0 =
    (Raise (error_perm ("550 No such file or directory. Failed to retrieve " +:+
              filepath (Spec.combined_primary Sample.ts) +:+ " from " +:+ NASA_HOST)),
     snd (load_data Sample.refusing Sample.self Sample.ts None false Sample.empty_world)).
Proof.
  apply (load_data_raises_from_fetch Sample.refusing Sample.self Sample.ts None false
           Sample.empty_world).
  vm_compute. reflexivity.
Defined.

(** X17. [load_data] touches the files of the day only. Whatever the
    outcome of the call, a path that is neither the download nor the
    decompressed file of a descriptor of the day holds what it held
    before, and a decompressed file of the day that was in the cache
    is still there. *)
Theorem load_data_frame env self ts cs same_day w :
  let w' := snd (load_data env self ts cs same_day w) in
  (forall q, (forall fi, fi ∈ day_files ts ->
                q <> dest_filepath_of self fi /\ q <> rinex_path_of self fi) ->
             fs w' !! q = fs w !! q) /\
  (forall fi, fi ∈ day_files ts -> is_Some (fs w !! rinex_path_of self fi) ->
              is_Some (fs w' !! rinex_path_of self fi)).
Proof.
  intros w'. subst w'.
  destruct (BatchFacts.load_data_selection env self ts cs same_day) as (xs & Hxs & Hsel).
  rewrite Hsel. split.
  - intros q Hq.
    apply (BatchFacts.preserves_for_append (fun w0 => fs w0 !! q = fs w !! q));
      [|done].
    intros fi Hfi. destruct (Hq fi (Hxs fi Hfi)).
    by apply BatchFacts.get_rinex_path_frame.
  - intros fi Hfi Hin.
    apply (BatchFacts.preserves_for_append
             (fun w0 => is_Some (fs w0 !! rinex_path_of self fi))); [|done].
    intros fi' Hfi'. apply BatchFacts.get_rinex_path_keeps.
    apply (LayoutFacts.day_paths_apart self ts); [done|by apply Hxs].
Qed.

Lemma load_data_frame_witness :
  is_Some (fs (snd (load_data Sample.refusing Sample.self Sample.ts None false
                      Sample.cached_world))
           !! rinex_path_of Sample.self (Spec.gps_only Sample.ts (get_filetype Sample.ts))).
Proof.
  apply (proj2 (load_data_frame Sample.refusing Sample.self Sample.ts None false
                  Sample.cached_world)).
  - unfold day_files. set_solver.
  - vm_compute. by eexists.
Defined.

(** X18. [get_ephemeris] with a list that holds an empty identifier
    raises [IndexError] before anything is done: the world is as it
    was. *)
Theorem get_ephemeris_index_error env self tzinfo_to_utc ts sats w :
  "" ∈ sats ->
  get_ephemeris env self tzinfo_to_utc ts (Some sats) w = (Raise IndexError, w).
Proof.
  intros Hin. unfold get_ephemeris, get_constellations.
  by rewrite (ConstellationFacts.fold_empty sats ∅ Hin).
Qed.

Lemma get_ephemeris_index_error_witness :
  get_ephemeris Sample.serving Sample.self Sample.utc Sample.ts (Some ["G01"; ""])
    Sample.empty_world = (Raise IndexError, Sample.empty_world).
Proof. apply get_ephemeris_index_error. set_solver. Defined.

(** X19. The same-day rule of [get_ephemeris] is a window of 24 hours,
    not the calendar day: the request is handled as a same-day request
    exactly when the date of the timestamp is today's or later, or
    yesterday's with a time of day later than the present one. *)
Theorem get_ephemeris_day_window env self tzinfo_to_utc ts sats systems w :
  let t := tzinfo_to_utc ts in
  let days := Datetime.toordinal (now env) - Datetime.toordinal t in
  let tod (d : datetime) :=
    ((hour d * 60 + minute d) * 60 + second d) * 1000000 + microsecond d in
  Datetime.valid (now env) -> Datetime.valid t ->
  get_constellations sats = Ok systems ->
  get_ephemeris env self tzinfo_to_utc ts sats w =
  load_data env self t systems
    (bool_decide (days <= 0 \/ days = 1 /\ tod (now env) < tod t)) w.
Proof.
  intros t days tod Hnow Ht Hsys. unfold get_ephemeris. rewrite Hsys.
  fold t. rewrite bind_ret_r. f_equal.
  pose proof (BatchFacts.sub_days_window (now env) t Hnow Ht) as Hwin.
  cbn zeta in Hwin. fold days in Hwin.
  destruct (Z.leb_spec (Datetime.sub_days (now env) t) 0) as [H|H].
  - symmetry. apply bool_decide_eq_true. by apply Hwin.
  - symmetry. apply bool_decide_eq_false. intros H'%Hwin. lia.
Qed.

Lemma get_ephemeris_day_window_witness :
  get_ephemeris Sample.serving Sample.self Sample.utc
    (mk_datetime 2023 3 14 18 0 0 0) (Some ["E11"]) Sample.empty_world =
  load_data Sample.serving Sample.self (mk_datetime 2023 3 14 18 0 0 0)
    (Some {[ "E" ]}) true Sample.empty_world.
Proof.
  rewrite (get_ephemeris_day_window Sample.serving Sample.self Sample.utc
             (mk_datetime 2023 3 14 18 0 0 0) (Some ["E11"]) (Some {[ "E" ]})).
  - f_equal.
  - vm_compute. intuition discriminate.
  - vm_compute. intuition discriminate.
  - vm_compute. reflexivity.
Defined.

(** X20. [get_ephemeris] reads the list of satellites through the set
    of its first characters only: two lists without empty identifier
    whose identifiers begin with the same letters give the same
    result, whatever their order, their length and the numbers of the
    satellites. *)
Theorem get_ephemeris_by_constellation env self tzinfo_to_utc ts sats1 sats2 w :
  (forall sat, sat ∈ sats1 ++ sats2 -> sat <> "") ->
  (forall c, (exists sat, sat ∈ sats1 /\ first_char sat = Ok c) <->
             (exists sat, sat ∈ sats2 /\ first_char sat = Ok c)) ->
  get_ephemeris env self tzinfo_to_utc ts (Some sats1) w =
  get_ephemeris env self tzinfo_to_utc ts (Some sats2) w.
Proof.
  intros Hne Hsame.
  destruct (ConstellationFacts.fold_ok sats1 ∅) as (s1 & E1 & H1).
  { intros sat Hsat. apply Hne. set_solver. }
  destruct (ConstellationFacts.fold_ok sats2 ∅) as (s2 & E2 & H2).
  { intros sat Hsat. apply Hne. set_solver. }
  assert (s1 = s2) as ->.
  { apply set_eq. intros c. rewrite H1, H2. specialize (Hsame c). set_solver. }
  unfold get_ephemeris, get_constellations. by rewrite E1, E2.
Qed.

Lemma get_ephemeris_by_constellation_witness :
  get_ephemeris Sample.serving Sample.self Sample.utc Sample.ts
    (Some ["G01"; "R05"; "G12"]) Sample.empty_world =
  get_ephemeris Sample.serving Sample.self Sample.utc Sample.ts
    (Some ["R24"; "G03"]) Sample.empty_world.
Proof.
  apply get_ephemeris_by_constellation.
  - intros sat Hsat. cbn [app] in Hsat.
    repeat (apply elem_of_cons in Hsat as [-> | Hsat]; [done|]).
    by apply elem_of_nil in Hsat.
  - intros c. split; intros (sat & Hsat & Hc).
    + repeat (apply elem_of_cons in Hsat as [-> | Hsat];
              [cbn in Hc; simplify_eq;
               first [ exists "R24"; split; [set_solver|reflexivity]
                     | exists "G03"; split; [set_solver|reflexivity] ]|]).
      by apply elem_of_nil in Hsat.
    + repeat (apply elem_of_cons in Hsat as [-> | Hsat];
              [cbn in Hc; simplify_eq;
               first [ exists "G01"; split; [set_solver|reflexivity]
                     | exists "R05"; split; [set_solver|reflexivity] ]|]).
      by apply elem_of_nil in Hsat.
Defined.
(** ** What is sent and what is printed *)

Module TraceFacts.

(** The commands of a fetch go to the host of its descriptor. *)
Lemma get_rinex_path_hosts env self fi w :
  exists L, wire (snd (get_rinex_path env self fi w)) = wire w ++ L /\
            Forall (fun hc => fst hc = url fi) L.
Proof.
  unfold get_rinex_path, bind, os.isfile, ret.
  destruct (bool_decide _); cbn [negb].
  - exists []. by rewrite app_nil_r.
  - destruct (emits_retrieve_file env self (url fi) (fst (split (filepath fi)))
                (snd (split (filepath fi))) (dest_filepath_of self fi) w)
      as (k & _ & Hw & _).
    eexists. split.
    + destruct (retrieve_file _ _ _ _ _ _ _) as [[[]|e] w1]; exact Hw.
    + apply Forall_take. unfold session. apply Forall_forall. intros [h c] Hin.
      by apply list_elem_of_In, in_map_iff in Hin as (c' & [= <- <-] & _).
Qed.

Lemma for_append_hosts env self (R : string -> Prop) xs acc w :
  (forall fi, fi ∈ xs -> R (url fi)) ->
  exists L, wire (snd (for_append (get_rinex_path env self) xs acc w)) = wire w ++ L /\
            Forall (fun hc => R (fst hc)) L.
Proof.
  revert acc w. induction xs as [|x xs IH]; intros acc w H.
  { exists []. by rewrite app_nil_r. }
  cbn [for_append]. unfold bind.
  destruct (get_rinex_path_hosts env self x w) as (L1 & Hw1 & HL1).
  assert (HR1 : Forall (fun hc => R (fst hc)) L1).
  { eapply Forall_impl; [exact HL1|]. intros hc ->. apply H. left. }
  destruct (get_rinex_path env self x w) as [[p|e] w1]; cbn [snd] in Hw1.
  - destruct (IH (acc ++ [p]) w1) as (L2 & Hw2 & HL2).
    { intros fi Hfi. apply H. by right. }
    exists (L1 ++ L2). split; [|by apply Forall_app].
    by rewrite Hw2, Hw1, <- (assoc (++)).
  - by exists L1.
Qed.

Lemma connect_stdout env url secure w : stdout (snd (connect env url secure w)) = stdout w.
Proof.
  unfold connect, FTP_new, ftp_login, ftp_prot_p, bind, send, open_socket, ret.
  destruct secure; cbn [ftp_host ftp_tls];
    repeat (destruct (reply env url _); cbn; try done).
Qed.

Section Stdout.
Context (env : Env) (self : EphemerisDownloader) (lines : list string).

Lemma preserves_stdout_same {A} (m : M A) :
  (forall w, stdout (snd (m w)) = stdout w) -> preserves (fun w => stdout w = lines) m.
Proof. intros H w Hw. by rewrite H. Qed.

(** After its announcement [retrieve_file] prints nothing. *)
Lemma transfer_quiet url directory filename dest :
  preserves (fun w => stdout w = lines)
    (let! ftp := connect env url (bool_decide (url = NASA_HOST)) in
     let src_filepath := directory +:+ "/" +:+ filename in
     try_except
       (let! handle := open_wb dest in
        ftp_retrbinary env ftp ("RETR " +:+ src_filepath) (write handle))
       (fun err =>
          match err with
          | error_perm msg =>
              Some (os.remove dest >>
                    raise (error_perm (msg +:+ " Failed to retrieve " +:+
                                       src_filepath +:+ " from " +:+ url)))
          | _ => None
          end) >>
     ftp_quit env ftp >>
     ftp_close ftp >>
     decompress_file env dest).
Proof.
  apply BatchFacts.preserves_bind; [apply preserves_stdout_same, connect_stdout|].
  intros ftp. apply BatchFacts.preserves_bind.
  { apply BatchFacts.preserves_try.
    - intros w Hw. by rewrite transfer_eq.
    - intros e k Hk. destruct e; simplify_eq.
      apply BatchFacts.preserves_bind; [|intros; by apply preserves_stdout_same].
      intros w Hw. unfold os.remove. by destruct (fs w !! dest). }
  intros _. apply BatchFacts.preserves_bind.
  { apply preserves_stdout_same. intros w. unfold ftp_quit, ftp_close, bind, send.
    by destruct (reply env _ QUIT). }
  intros _. apply BatchFacts.preserves_bind; [by apply preserves_stdout_same|].
  intros _. apply preserves_stdout_same. intros w. apply decompress_file_frame.
Qed.

End Stdout.

Lemma retrieve_file_stdout env self url directory filename dest w :
  stdout (snd (retrieve_file env self url directory filename dest w)) =
  stdout w ++ announce self url directory filename.
Proof.
  unfold retrieve_file. fold NASA_HOST. unfold bind at 1. rewrite prologue_eq.
  by apply (transfer_quiet env (stdout w ++ announce self url directory filename)).
Qed.

End TraceFacts.

(** X21. [retrieve_file] prints its one line, which names the remote
    path and the host, when the instance is verbose and nothing when it
    is not, whatever becomes of the download. *)
Theorem retrieve_file_announces env self url directory filename dest w :
  stdout (snd (retrieve_file env self url directory filename dest w)) =
  stdout w ++
  (if verbose self
   then ["Retrieving " +:+ directory +:+ "/" +:+ filename +:+ " from " +:+ url]
   else []).
Proof. apply TraceFacts.retrieve_file_stdout. Qed.

(** X22. An instance that is not verbose prints nothing: whatever the
    request and its outcome, [load_data] leaves the standard output as
    it was. *)
Theorem load_data_quiet env self ts cs same_day w :
  verbose self = false ->
  stdout (snd (load_data env self ts cs same_day w)) = stdout w.
Proof.
  intros Hq.
  destruct (BatchFacts.load_data_selection env self ts cs same_day) as (xs & _ & Hsel).
  rewrite Hsel.
  apply (BatchFacts.preserves_for_append (fun w0 => stdout w0 = stdout w)); [|done].
  intros fi _. unfold get_rinex_path.
  apply BatchFacts.preserves_bind; [by apply TraceFacts.preserves_stdout_same|].
  intros present.
  apply BatchFacts.preserves_bind; [|intros; by apply TraceFacts.preserves_stdout_same].
  destruct (negb present); [|by apply TraceFacts.preserves_stdout_same].
  apply TraceFacts.preserves_stdout_same. intros w0.
  rewrite TraceFacts.retrieve_file_stdout. unfold announce. rewrite Hq.
  apply app_nil_r.
Qed.

Lemma load_data_quiet_witness :
  stdout (snd (load_data Sample.serving Sample.self Sample.ts None false
                 Sample.empty_world)) = [].
Proof.
  apply (load_data_quiet Sample.serving Sample.self Sample.ts None false
           Sample.empty_world).
  reflexivity.
Defined.

(** X23. Whatever the request and its outcome, every command that
    [load_data] sends goes to the primary or to the secondary archive;
    when a set of constellations is given and the request is not a
    same-day request, every command goes to the primary archive. *)
Theorem load_data_hosts env self ts cs same_day (s : gset string) w :
  (exists L, wire (snd (load_data env self ts cs same_day w)) = wire w ++ L /\
             Forall (fun hc => fst hc = NASA_HOST \/ fst hc = BKG_HOST) L) /\
  (exists L, wire (snd (load_data env self ts (Some s) false w)) = wire w ++ L /\
             Forall (fun hc => fst hc = NASA_HOST) L).
Proof.
  split.
  - destruct (BatchFacts.load_data_selection env self ts cs same_day) as (xs & Hxs & Hsel).
    rewrite Hsel.
    apply (TraceFacts.for_append_hosts env self (fun h => h = NASA_HOST \/ h = BKG_HOST)).
    intros fi Hfi%Hxs. unfold day_files in Hfi.
    repeat (apply elem_of_cons in Hfi as [->|Hfi]; [by (left + right)|]).
    by apply elem_of_nil in Hfi.
  - destruct (decide (s ⊆ Spec.legacy)) as [H|H].
    + rewrite load_data_historical_legacy by done.
      apply (TraceFacts.for_append_hosts env self (fun h => h = NASA_HOST)). intros fi Hfi.
      destruct (bool_decide ("G" ∈ s)), (bool_decide ("R" ∈ s)); cbn [app] in Hfi;
        repeat (apply elem_of_cons in Hfi as [->|Hfi]; [done|]);
        by apply elem_of_nil in Hfi.
    + rewrite load_data_historical_other by done.
      apply (TraceFacts.for_append_hosts env self (fun h => h = NASA_HOST)). intros fi Hfi.
      apply elem_of_cons in Hfi as [->|Hfi]; [done|]. by apply elem_of_nil in Hfi.
Qed.
